(** * Campus Companion: a shallow embedding of the portal script

    The development follows the layout of the script: state, utility
    functions, UI functions, profile rendering, data management, form
    handlers, session management.  Every definition carries the name of
    the JavaScript function it embeds.

    Conventions.
    - A JavaScript string value is the list of its UTF-16 code units
      ([list N]).  Identifiers of the script (element ids, class names,
      property names, section ids) are Rocq strings; [js] turns one into
      code units where the script prints it.
    - An object used as a dictionary is a [gmap] from property name to
      value; a missing key reads as [undefined] ([None]).  Property names
      inherited from [Object.prototype] are outside the embedding.
    - Statements run in the monad [JS]: a state transformer over [World]
      whose result is either a value or an uncaught exception; the state
      keeps every assignment made before the exception. *)

From Stdlib Require Import ZArith NArith String Ascii List Bool Lia.
From stdpp Require Import base option list gmap strings fin_maps pretty.

Open Scope Z_scope.

(** ** Strings *)

Definition js (s : string) : list N :=
  map (fun a => N_of_ascii a) (list_ascii_of_string s).

(** [WhiteSpace] and [LineTerminator] code units of ECMAScript: the set
    stripped by [String.prototype.trim] and matched by [\s]. *)
Definition isWhiteSpace (c : N) : bool :=
  ((9 <=? c) && (c <=? 13) || (c =? 32) || (c =? 160) || (c =? 5760)
   || (8192 <=? c) && (c <=? 8202) || (c =? 8232) || (c =? 8233)
   || (c =? 8239) || (c =? 8287) || (c =? 12288) || (c =? 65279))%N.

Fixpoint trimStart (s : list N) : list N :=
  match s with
  | c :: rest => if isWhiteSpace c then trimStart rest else s
  | [] => []
  end.

Definition trimEnd (s : list N) : list N := rev (trimStart (rev s)).

Definition trim (s : list N) : list N := trimEnd (trimStart s).

(** ** Regular expressions

    [RegExp.prototype.test] for an anchored pattern without captures is
    language membership; it is computed here with derivatives. *)

Inductive regex : Type :=
  | Fail
  | Eps
  | Cls (p : N -> bool)
  | Cat (r1 r2 : regex)
  | Alt (r1 r2 : regex)
  | Star (r : regex).

Definition Plus (r : regex) : regex := Cat r (Star r).

Fixpoint nullable (r : regex) : bool :=
  match r with
  | Fail => false
  | Eps => true
  | Cls _ => false
  | Cat r1 r2 => nullable r1 && nullable r2
  | Alt r1 r2 => nullable r1 || nullable r2
  | Star _ => true
  end.

Fixpoint deriv (c : N) (r : regex) : regex :=
  match r with
  | Fail => Fail
  | Eps => Fail
  | Cls p => if p c then Eps else Fail
  | Cat r1 r2 =>
      Alt (Cat (deriv c r1) r2) (if nullable r1 then deriv c r2 else Fail)
  | Alt r1 r2 => Alt (deriv c r1) (deriv c r2)
  | Star r1 => Cat (deriv c r1) (Star r1)
  end.

Fixpoint test (r : regex) (s : list N) : bool :=
  match s with
  | [] => nullable r
  | c :: rest => test (deriv c r) rest
  end.

(** The class [[^\s@]]. *)
Definition notSpaceAt (c : N) : bool := negb (isWhiteSpace c || (c =? 64)%N).

Definition isChar (k : N) (c : N) : bool := (c =? k)%N.

(** [/^[^\s@]+@[^\s@]+\.[^\s@]+$/] *)
Definition emailRe : regex :=
  Cat (Plus (Cls notSpaceAt))
    (Cat (Cls (isChar 64))
       (Cat (Plus (Cls notSpaceAt))
          (Cat (Cls (isChar 46)) (Plus (Cls notSpaceAt))))).

Definition validateEmail (email : list N) : bool := test emailRe email.

(** ** validateForm *)

Record Validation : Type := mkValidation {
  isValid : bool;
  errors : gmap string (list N)
}.

(** Truthiness of a property that holds a string or is missing. *)
Definition truthy (v : option (list N)) : bool :=
  match v with
  | Some (_ :: _) => true
  | _ => false
  end.

Definition isBlank (v : option (list N)) : bool :=
  match v with
  | Some s => bool_decide (trim s = [])
  | None => true
  end.

Definition strOf (v : option (list N)) : list N :=
  match v with
  | Some s => s
  | None => js "undefined"
  end.

(** The body of the [forEach] callback of [validateForm], for a field name
    that is not inherited from [Object.prototype] ([ownFields] below):
    [formData[field]] is then a string of the form data or [undefined].
    For an inherited name the script finds a function or an object and
    throws at [.trim()]; the handlers never pass one. *)
Definition checkField (formData : gmap string (list N))
    (errs : gmap string (list N)) (field : string) : gmap string (list N) :=
  let v := formData !! field in
  let errs :=
    if negb (truthy v) || isBlank v
    then <[field := js field ++ js " is required"]> errs
    else errs in
  let errs :=
    if bool_decide (field = "email") && truthy v
    then if negb (validateEmail (strOf v))
         then <[field := js "Please enter a valid email address"]> errs
         else errs
    else errs in
  if bool_decide (field = "password") && truthy v
  then if (Z.of_nat (length (strOf v)) <? 8)
       then <[field := js "Password must be at least 8 characters"]> errs
       else errs
  else errs.

Definition validateForm (formData : gmap string (list N))
    (requiredFields : list string) : Validation :=
  let errs := foldl (checkField formData) ∅ requiredFields in
  {| isValid := bool_decide (size errs = 0%nat); errors := errs |}.

(** The property names every object inherits from [Object.prototype]: for
    these [formData[field]] is a function or an object even when the form
    data has no such field. *)
Definition objectPrototypeNames : list string :=
  ["constructor"; "__defineGetter__"; "__defineSetter__"; "hasOwnProperty";
   "__lookupGetter__"; "__lookupSetter__"; "isPrototypeOf"; "propertyIsEnumerable";
   "toString"; "valueOf"; "__proto__"; "toLocaleString"].

(** None of the field names is inherited, so that [formData[field]] is a
    string of the form data or [undefined], as [checkField] reads it. *)
Definition ownFields (requiredFields : list string) : Prop :=
  Forall (fun field => field ∉ objectPrototypeNames) requiredFields.

(** ** Dates

    A time value is the number of milliseconds since the epoch, [None]
    standing for [NaN]. *)

Definition msPerDay : Z := 86400000.

Definition isLeapYear (y : Z) : bool :=
  (y mod 4 =? 0) && (negb (y mod 100 =? 0) || (y mod 400 =? 0)).

Definition monthLengths (y : Z) : list Z :=
  [31; if isLeapYear y then 29 else 28; 31; 30; 31; 30; 31; 31; 30; 31; 30; 31].

Definition dayFromYear (y : Z) : Z :=
  365 * (y - 1970) + (y - 1969) / 4 - (y - 1901) / 100 + (y - 1601) / 400.

(** Day number of the civil date [y]-[m]-[d], [m] counted from 1. *)
Definition makeDay (y m d : Z) : Z :=
  dayFromYear y + foldr Z.add 0 (take (Z.to_nat (m - 1)) (monthLengths y)) + d - 1.

Definition digit (c : N) : option Z :=
  if ((48 <=? c) && (c <=? 57))%N then Some (Z.of_N c - 48) else None.

Definition number (ds : list N) : option Z :=
  foldl (fun acc c =>
           match acc, digit c with
           | Some n, Some k => Some (10 * n + k)
           | _, _ => None
           end) (Some 0) ds.

(** The date-only form [YYYY-MM-DD] of the ECMAScript date-time string
    format, read as UTC midnight.  [None] when the string is not a legal
    instance of that form. *)
Definition parseDateOnly (s : list N) : option Z :=
  match s with
  | [y1; y2; y3; y4; 45%N; m1; m2; 45%N; d1; d2] =>
      match number [y1; y2; y3; y4], number [m1; m2], number [d1; d2] with
      | Some y, Some m, Some d =>
          if (1 <=? m) && (m <=? 12) && (1 <=? d)
             && (d <=? nth (Z.to_nat (m - 1)) (monthLengths y) 0)
          then Some (makeDay y m d * msPerDay)
          else None
      | _, _, _ => None
      end
  | _ => None
  end.

Inductive DateOptions : Type :=
  | MonthDayYear          (* { month: 'long', day: 'numeric', year: 'numeric' } *)
  | WeekdayYearMonthDay.  (* { weekday: 'long', year: 'numeric', month: 'long', day: 'numeric' } *)

(** What the browser supplies: the Unicode case mappings, the locale
    formatter, the local time zone adjustment [LocalTZA(t, isUTC)], and
    the parser heuristics for strings that are not in the date-only
    form. *)
Record Host : Type := mkHost {
  toUpperCase : list N -> list N;
  toLowerCase : list N -> list N;
  toLocaleDateString : option Z -> DateOptions -> list N;
  localTZA : Z -> bool -> Z;
  parseOther : list N -> option Z
}.

(** [new Date(string)] *)
Definition newDate (h : Host) (s : list N) : option Z :=
  match parseDateOnly s with
  | Some t => Some t
  | None => parseOther h s
  end.

(** [d.setHours(0, 0, 0, 0)] on the date whose time value is [t]. *)
Definition setHours0 (h : Host) (t : Z) : Z :=
  let localTime := t + localTZA h t true in
  let midnight := (localTime / msPerDay) * msPerDay in
  midnight - localTZA h midnight false.

(** [a < b] on two dates; a comparison with [NaN] is false. *)
Definition dateLt (a : option Z) (b : Z) : bool :=
  match a with
  | Some t => t <? b
  | None => false
  end.

(** ** 1. State management *)

Module User.
Record t : Type := mk { name : list N; email : list N; type : list N }.
End User.

Module Announcement.
Record t : Type := mk {
  id : Z; title : list N; content : list N; priority : option (list N);
  date : list N; author : list N
}.
End Announcement.

Module Event.
Record t : Type := mk {
  id : Z; title : list N; description : list N; date : list N;
  time : list N; location : list N; organizer : list N
}.
End Event.

Module Schedule.
Record t : Type := mk {
  id : Z; course : list N; date : list N; time : list N; room : list N;
  instructor : list N
}.
End Schedule.

Module PortalUser.
Record t : Type := mk { id : Z; name : list N; email : list N; type : list N }.
End PortalUser.

Module StudentProfile.
Record t : Type := mk {
  id : list N; program : list N; phone : list N; address : list N;
  email : list N
}.
End StudentProfile.

Module AdminProfile.
Record t : Type := mk {
  id : list N; department : list N; phone : list N; address : list N;
  email : list N
}.
End AdminProfile.

Record AppState : Type := mkAppState {
  isLoading : bool;
  lastActivity : Z;
  sessionTimeout : Z;
  currentSection : string
}.

Record Database : Type := mkDatabase {
  announcements : list Announcement.t;
  events : list Event.t;
  schedules : list Schedule.t;
  users : list PortalUser.t
}.

Record ProfileData : Type := mkProfileData {
  student : StudentProfile.t;
  admin : AdminProfile.t
}.

(** ** The document

    The page markup is not part of the script, so the document is a
    parameter of every statement below.  It is kept flat: the elements
    that carry an id are in [byId]; the elements the script reaches only
    through a selector ([nav a], [.mobile-menu], submit buttons,
    [.admin-tab], [.notification-area]) are kept in groups of their own,
    in document order.  What [innerHTML] and [textContent] hold is a list
    of [Node]s, one constructor per template of the script. *)

Inductive Node : Type :=
  | Text (s : list N)
  | Heading (s : string)
  | EmptyState (id icon text : string)
  | Button (class onclick icon label : string)
  | InfoText (label : string) (s : list N)
  | InfoInput (label type id : string) (value : list N)
  | AnnouncementItem (a : Announcement.t)
  | EventItem (e : Event.t) (formattedDate : list N)
  | ScheduleItem (s : Schedule.t) (formattedDate : list N)
  | UserItem (u : PortalUser.t).

Record Element : Type := mkElement {
  tagName : string;
  classList : gset string;
  ownerForm : option string;       (* id of the form the element lies in *)
  value : option (list N);         (* [None]: the element has no [value] *)
  defaultValue : list N;           (* what [form.reset()] restores *)
  children : list Node
}.

Record NavLink : Type := mkNavLink {
  onclick : option string;
  linkClasses : gset string
}.

Record SubmitButton : Type := mkSubmitButton {
  buttonClasses : gset string;
  disabled : bool
}.

Record AdminTab : Type := mkAdminTab {
  tabText : list N;
  tabClasses : gset string
}.

Record Document : Type := mkDocument {
  byId : gmap string Element;
  navLinks : list NavLink;
  mobileMenu : option string;      (* [aria-expanded] of [.mobile-menu] *)
  submitButtons : list SubmitButton;
  adminTabs : list AdminTab;
  floating : list Element          (* id-less children of [body] *)
}.

(** A reference to an element held by a closure. *)
Inductive ElemRef : Type :=
  | ById (id : string)
  | Floating (i : nat).

(** The closures the script hands to [setTimeout] and [setInterval]. *)
Inductive Callback : Type :=
  | HideNotification (element : ElemRef)
  | LoginResponse (formData : gmap string (list N))
  | RegisterResponse (formData : gmap string (list N))
  | ShowDashboard
  | SessionCheck.

Record World : Type := mkWorld {
  currentUser : option User.t;
  appState : AppState;
  database : Database;
  userProfileData : ProfileData;
  document : Document;
  clock : Z;                       (* [Date.now()] *)
  timers : list (Z * Callback);    (* pending callbacks with their due time *)
  answers : list bool;             (* what the user will answer to [confirm] *)
  asked : list (list N);           (* the [confirm] messages shown so far *)
  host : Host
}.

(** Field updates. *)

Definition setClassList (c : gset string) (e : Element) : Element :=
  mkElement (tagName e) c (ownerForm e) (value e) (defaultValue e) (children e).

Definition setValue (v : option (list N)) (e : Element) : Element :=
  mkElement (tagName e) (classList e) (ownerForm e) v (defaultValue e) (children e).

Definition setChildren (c : list Node) (e : Element) : Element :=
  mkElement (tagName e) (classList e) (ownerForm e) (value e) (defaultValue e) c.

Definition setById (m : gmap string Element) (d : Document) : Document :=
  mkDocument m (navLinks d) (mobileMenu d) (submitButtons d) (adminTabs d) (floating d).

Definition setNavLinks (l : list NavLink) (d : Document) : Document :=
  mkDocument (byId d) l (mobileMenu d) (submitButtons d) (adminTabs d) (floating d).

Definition setMobileMenu (m : option string) (d : Document) : Document :=
  mkDocument (byId d) (navLinks d) m (submitButtons d) (adminTabs d) (floating d).

Definition setSubmitButtons (l : list SubmitButton) (d : Document) : Document :=
  mkDocument (byId d) (navLinks d) (mobileMenu d) l (adminTabs d) (floating d).

Definition setAdminTabs (l : list AdminTab) (d : Document) : Document :=
  mkDocument (byId d) (navLinks d) (mobileMenu d) (submitButtons d) l (floating d).

Definition setFloating (l : list Element) (d : Document) : Document :=
  mkDocument (byId d) (navLinks d) (mobileMenu d) (submitButtons d) (adminTabs d) l.

Definition setCurrentUser (u : option User.t) (w : World) : World :=
  mkWorld u (appState w) (database w) (userProfileData w) (document w)
    (clock w) (timers w) (answers w) (asked w) (host w).

Definition setAppState (a : AppState) (w : World) : World :=
  mkWorld (currentUser w) a (database w) (userProfileData w) (document w)
    (clock w) (timers w) (answers w) (asked w) (host w).

Definition setDatabase (d : Database) (w : World) : World :=
  mkWorld (currentUser w) (appState w) d (userProfileData w) (document w)
    (clock w) (timers w) (answers w) (asked w) (host w).

Definition setDocument (d : Document) (w : World) : World :=
  mkWorld (currentUser w) (appState w) (database w) (userProfileData w) d
    (clock w) (timers w) (answers w) (asked w) (host w).

Definition setClock (t : Z) (w : World) : World :=
  mkWorld (currentUser w) (appState w) (database w) (userProfileData w)
    (document w) t (timers w) (answers w) (asked w) (host w).

Definition setTimers (l : list (Z * Callback)) (w : World) : World :=
  mkWorld (currentUser w) (appState w) (database w) (userProfileData w)
    (document w) (clock w) l (answers w) (asked w) (host w).

Definition setDialog (a : list bool) (q : list (list N)) (w : World) : World :=
  mkWorld (currentUser w) (appState w) (database w) (userProfileData w)
    (document w) (clock w) (timers w) a q (host w).

(** ** The statement monad *)

Inductive Error : Type :=
  | TypeError (what : string).

Inductive Completion (A : Type) : Type :=
  | Normal (a : A)
  | Throw (e : Error).

Arguments Normal {A} a.
Arguments Throw {A} e.

Definition JS (A : Type) : Type := World -> Completion A * World.

Definition ret {A : Type} (a : A) : JS A := fun w => (Normal a, w).

Definition bind {A B : Type} (m : JS A) (k : A -> JS B) : JS B :=
  fun w =>
    match m w with
    | (Normal a, w') => k a w'
    | (Throw e, w') => (Throw e, w')
    end.

Definition throw {A : Type} (e : Error) : JS A := fun w => (Throw e, w).

Definition gets {A : Type} (f : World -> A) : JS A := fun w => (Normal (f w), w).

Definition modify (f : World -> World) : JS unit := fun w => (Normal tt, f w).

Notation "'let*' x ':=' m 'in' k" := (bind m (fun x => k))
  (at level 10, x name, m at level 100, k at level 200).

Notation "m >> k" := (bind m (fun _ => k))
  (at level 100, k at level 200, right associativity).

(** [forEach] with an effectful body. *)
Fixpoint forEach {A : Type} (f : A -> JS unit) (l : list A) : JS unit :=
  match l with
  | [] => ret tt
  | x :: rest => f x >> forEach f rest
  end.

(** Reading a property of [null] or [undefined]. *)
Definition nonNull {A : Type} (what : string) (o : option A) : JS A :=
  match o with
  | Some a => ret a
  | None => throw (TypeError what)
  end.

(** *** Document primitives *)

(** [document.getElementById(id)] among the elements to which the markup
    of the page gives an id.  The elements that [innerHTML] created are not
    searched: the answer is that of the page when no such element carries
    the id ([unrendered] below). *)
Definition getElementById (id : string) : JS (option Element) :=
  gets (fun w => byId (document w) !! id).

Definition modifyDocument (f : Document -> Document) : JS unit :=
  modify (fun w => setDocument (f (document w)) w).

(** A write through a reference obtained from [getElementById]. *)
Definition updateElement (id : string) (f : Element -> Element) : JS unit :=
  modifyDocument (fun d => setById (alter f id (byId d)) d).

(** [document.getElementById(id).p = ...] with no null guard. *)
Definition mutate (id : string) (f : Element -> Element) : JS unit :=
  let* el := getElementById id in
  nonNull id el >>
  updateElement id f.

Definition updateRef (r : ElemRef) (f : Element -> Element) : JS unit :=
  match r with
  | ById id => updateElement id f
  | Floating i => modifyDocument (fun d => setFloating (alter f i (floating d)) d)
  end.

(** [querySelectorAll(sel).forEach(f)] over the elements with an id that
    [sel] selects. *)
Definition updateAll (sel : Element -> bool) (f : Element -> Element) : JS unit :=
  modifyDocument (fun d =>
    setById ((fun e => if sel e then f e else e) <$> byId d) d).

Definition hasClass (c : string) (e : Element) : bool :=
  bool_decide (c ∈ classList e).

Definition addClass (c : string) (e : Element) : Element :=
  setClassList (classList e ∪ {[c]}) e.

Definition removeClass (c : string) (e : Element) : Element :=
  setClassList (classList e ∖ {[c]}) e.

(** ASCII white space, which separates the tokens of a [class]
    attribute. *)
Definition isAsciiWhiteSpace (a : ascii) : bool :=
  let c := N_of_ascii a in
  ((c =? 9) || (c =? 10) || (c =? 12) || (c =? 13) || (c =? 32))%N.

(** The runs between two white space characters, empty ones included. *)
Fixpoint runs (s : string) : list string :=
  match s with
  | EmptyString => [EmptyString]
  | String a rest =>
      if isAsciiWhiteSpace a then EmptyString :: runs rest
      else match runs rest with
           | run :: others => String a run :: others
           | [] => [String a EmptyString]
           end
  end.

Definition classTokens (className : string) : list string :=
  filter (fun token => token ≠ EmptyString) (runs className).


(** [element.className = className]: the class list becomes the set of
    tokens of the string. *)
Definition setClassName (className : string) (e : Element) : Element :=
  setClassList (list_to_set (classTokens className)) e.

Definition setTextContent (s : list N) (e : Element) : Element :=
  setChildren (match s with [] => [] | _ => [Text s] end) e.

(** [element.innerHTML = ...] with the markup of a template: the nodes
    stand for what the parser builds, which they do when the strings
    interpolated into the template are [markupPlain] (below). *)
Definition setInnerHTML (c : list Node) (e : Element) : Element :=
  setChildren c e.

(** [Date.now()] and [setTimeout]. *)
Definition dateNow : JS Z := gets clock.

Definition setTimeout (cb : Callback) (delay : Z) : JS unit :=
  modify (fun w => setTimers (timers w ++ [(clock w + delay, cb)]) w).

(** [confirm(message)]: the next scripted answer; a dialog with no answer
    left counts as dismissed. *)
Definition confirm (message : list N) : JS bool :=
  fun w =>
    match answers w with
    | a :: rest => (Normal a, setDialog rest (asked w ++ [message]) w)
    | [] => (Normal false, setDialog [] (asked w ++ [message]) w)
    end.

(** ** 2. Utility functions *)

Definition notificationArea : Element :=
  mkElement "div" {["notification-area"]} None None [] [].

(** *** Pages the flat document is exact for

    [getElementById] and [querySelector] search the whole page, the
    content that [innerHTML] created included.  The flat document answers
    as the page does when that content holds nothing the templates of the
    script do not name, and when no element with an id lies inside an
    element whose content the script replaces.  The predicates below say
    the first; a statement that depends on an element being absent, or on
    what [querySelector('.notification-area')] finds, carries them as
    hypotheses. *)

(** A string that stands for itself where a template interpolates it, as
    text or between the double quotes of an attribute: no double quote,
    no [&], no [<] and no control character. *)
Definition markupPlain (s : list N) : Prop :=
  Forall (fun c => (32 <= c)%N /\ c ∉ [34%N; 38%N; 60%N]) s.








(** [document.querySelector('.notification-area')]: the first element
    without an id that carries the class.  Elements with an id, links,
    buttons and rendered content are not searched; the page does not
    differ on a [plainPage] where none of those carries the class. *)
Definition queryNotificationArea : JS (option ElemRef) :=
  gets (fun w =>
    (fun found => Floating (fst found)) <$>
      list_find (fun e => "notification-area" ∈ classList e) (floating (document w))).

Definition showNotification (message : list N) (type : string)
    (elementId : option string) : JS unit :=
  let* element :=
    match elementId with
    | Some (String c rest) =>
        let* el := getElementById (String c rest) in
        ret (match el with
             | Some _ => Some (ById (String c rest))
             | None => None
             end)
    | _ =>
        let* found := queryNotificationArea in
        match found with
        | Some r => ret (Some r)
        | None =>
            let* n := gets (fun w => length (floating (document w))) in
            modifyDocument (fun d => setFloating (floating d ++ [notificationArea]) d) >>
            ret (Some (Floating n))
        end
    end in
  match element with
  | Some r =>
      updateRef r (setTextContent message) >>
      updateRef r (setClassName (type +:+ "-message show")) >>
      setTimeout (HideNotification r) 3000
  | None => ret tt
  end.

Definition setLoading (loading : bool) : JS unit :=
  modify (fun w =>
    setAppState (mkAppState loading (lastActivity (appState w))
                   (sessionTimeout (appState w)) (currentSection (appState w))) w) >>
  modifyDocument (fun d =>
    setSubmitButtons
      (map (fun b =>
              if loading
              then mkSubmitButton (buttonClasses b ∪ {["loading"]}) true
              else mkSubmitButton (buttonClasses b ∖ {["loading"]}) false)
         (submitButtons d)) d).

Definition formatDate (h : Host) (dateString : list N) : list N :=
  toLocaleDateString h (newDate h dateString) WeekdayYearMonthDay.

(** [s.split(' ')] *)
Fixpoint split (sep : N) (s : list N) : list (list N) :=
  match s with
  | [] => [[]]
  | c :: rest =>
      if (c =? sep)%N then [] :: split sep rest
      else match split sep rest with
           | part :: parts => (c :: part) :: parts
           | [] => [[c]]
           end
  end.

(** [name.split(' ').map(n => n[0]).join('').toUpperCase()]; an empty part
    has no first code unit and joins as the empty string. *)
Definition generateAvatar (h : Host) (name : list N) : list N :=
  toUpperCase h (concat (map (take 1) (split 32 name))).

Definition clearFormErrors (formId : string) : JS unit :=
  let* form := getElementById formId in
  match form with
  | None => ret tt
  | Some _ =>
      updateAll
        (fun e => bool_decide (ownerForm e = Some formId) && hasClass "error-message" e)
        (fun e => addClass "hidden" (setTextContent [] e))
  end.

(** The callback of the [forEach] of [showFormErrors]. *)
Definition showFieldError (errs : gmap string (list N)) (field : string) : JS unit :=
  let* errorElement := getElementById (field +:+ "Error") in
  match errorElement with
  | Some _ =>
      updateElement (field +:+ "Error") (setTextContent (strOf (errs !! field))) >>
      updateElement (field +:+ "Error") (removeClass "hidden")
  | None => ret tt
  end.

(** [Object.keys(errors)] *)
Definition keys (errs : gmap string (list N)) : list string :=
  map fst (map_to_list errs).

Definition showFormErrors (errs : gmap string (list N)) : JS unit :=
  forEach (showFieldError errs) (keys errs).

(** ** 7. Session management (first part, used by the UI functions) *)

Definition updateUserActivity : JS unit :=
  modify (fun w =>
    setAppState (mkAppState (isLoading (appState w)) (clock w)
                   (sessionTimeout (appState w)) (currentSection (appState w))) w).

(** ** 3. UI functions *)

Fixpoint startsWith (p s : list N) : bool :=
  match p, s with
  | [], _ => true
  | a :: p', b :: s' => (a =? b)%N && startsWith p' s'
  | _ :: _, [] => false
  end.

(** [hay.includes(needle)] *)
Fixpoint includes (needle hay : list N) : bool :=
  startsWith needle hay
  || match hay with
     | [] => false
     | _ :: rest => includes needle rest
     end.

(** The selector [a[onclick*="sectionId"]]; a substring selector with an
    empty value selects nothing. *)
Definition onclickContains (sectionId : string) (l : NavLink) : bool :=
  match sectionId, onclick l with
  | String _ _, Some attr => includes (js sectionId) (js attr)
  | _, _ => false
  end.

Definition updateActiveNav (sectionId : string) : JS unit :=
  modifyDocument (fun d =>
    setNavLinks
      (map (fun l => mkNavLink (onclick l) (linkClasses l ∖ {["active"]}))
         (navLinks d)) d) >>
  let* activeLink :=
    gets (fun w => list_find (fun l => onclickContains sectionId l = true)
                     (navLinks (document w))) in
  match activeLink with
  | Some (i, _) =>
      modifyDocument (fun d =>
        setNavLinks
          (alter (fun l => mkNavLink (onclick l) (linkClasses l ∪ {["active"]})) i
             (navLinks d)) d)
  | None => ret tt
  end.

Definition openAdminTab (tabName : string) : JS unit :=
  updateAll (hasClass "admin-tab-content") (addClass "hidden") >>
  modifyDocument (fun d =>
    setAdminTabs
      (map (fun t => mkAdminTab (tabText t) (tabClasses t ∖ {["active"]}))
         (adminTabs d)) d) >>
  let* tabContent := getElementById (tabName +:+ "-tab") in
  match tabContent with
  | Some _ => updateElement (tabName +:+ "-tab") (removeClass "hidden")
  | None => ret tt
  end >>
  let* h := gets host in
  modifyDocument (fun d =>
    setAdminTabs
      (map (fun t =>
              if includes (js tabName) (toLowerCase h (tabText t))
              then mkAdminTab (tabText t) (tabClasses t ∪ {["active"]})
              else t)
         (adminTabs d)) d).

Definition isAdminUser (u : option User.t) : bool :=
  match u with
  | Some user => bool_decide (User.type user = js "admin")
  | None => false
  end.

Definition updateDashboard : JS unit :=
  let* studentDashboard := getElementById "studentDashboard" in
  let* adminDashboard := getElementById "adminDashboard" in
  let* user := gets currentUser in
  if isAdminUser user
  then
    nonNull "studentDashboard" studentDashboard >>
    updateElement "studentDashboard" (addClass "hidden") >>
    nonNull "adminDashboard" adminDashboard >>
    updateElement "adminDashboard" (removeClass "hidden") >>
    openAdminTab "announcements"
  else
    nonNull "studentDashboard" studentDashboard >>
    updateElement "studentDashboard" (removeClass "hidden") >>
    nonNull "adminDashboard" adminDashboard >>
    updateElement "adminDashboard" (addClass "hidden").

Definition updateAuthButtons : JS unit :=
  let* authButtons := getElementById "authButtons" in
  let* heroButtons := getElementById "heroButtons" in
  let* user := gets currentUser in
  match user with
  | Some _ =>
      nonNull "authButtons" authButtons >>
      updateElement "authButtons"
        (setInnerHTML
           [Button "btn btn-outline" "showSection('dashboard')"
              "fas fa-tachometer-alt" "Dashboard"]) >>
      nonNull "heroButtons" heroButtons >>
      updateElement "heroButtons" (setInnerHTML [])
  | None =>
      nonNull "authButtons" authButtons >>
      updateElement "authButtons"
        (setInnerHTML
           [Button "btn btn-outline" "showSection('login')"
              "fas fa-sign-in-alt" "Login";
            Button "btn btn-primary" "showSection('register')"
              "fas fa-user-plus" "Register"]) >>
      nonNull "heroButtons" heroButtons >>
      updateElement "heroButtons"
        (setInnerHTML
           [Button "btn btn-primary pulse" "handleGetStarted()"
              "fas fa-user-plus" "Get Started";
            Button "btn btn-outline" "showSection('features')"
              "fas fa-info-circle" "Learn More"])
  end.

(** ** 4. Profile management *)

Inductive Profile : Type :=
  | OfStudent (p : StudentProfile.t)
  | OfAdmin (p : AdminProfile.t).

(** [userProfileData[type]] *)
Definition lookupProfile (d : ProfileData) (type : list N) : option Profile :=
  if bool_decide (type = js "student") then Some (OfStudent (student d))
  else if bool_decide (type = js "admin") then Some (OfAdmin (admin d))
  else None.

Definition profileId (p : Profile) : list N :=
  match p with
  | OfStudent s => StudentProfile.id s
  | OfAdmin a => AdminProfile.id a
  end.

(** [isAdmin ? profileData.department : profileData.program] *)
Definition profileUnit (isAdmin : bool) (p : Profile) : list N :=
  match p with
  | OfStudent s => if isAdmin then js "undefined" else StudentProfile.program s
  | OfAdmin a => if isAdmin then AdminProfile.department a else js "undefined"
  end.

Definition profilePhone (p : Profile) : list N :=
  match p with
  | OfStudent s => StudentProfile.phone s
  | OfAdmin a => AdminProfile.phone a
  end.

Definition profileAddress (p : Profile) : list N :=
  match p with
  | OfStudent s => StudentProfile.address s
  | OfAdmin a => AdminProfile.address a
  end.

Definition renderProfile (editMode : bool) : JS unit :=
  let* profileInfo := getElementById "profileInfoContent" in
  let* profileActions := getElementById "profileActions" in
  let* user := gets currentUser in
  match user with
  | None => ret tt
  | Some u =>
      let isAdmin := bool_decide (User.type u = js "admin") in
      let* profileData := gets (fun w => lookupProfile (userProfileData w) (User.type u)) in
      let idLabel := if isAdmin then "Admin ID" else "Student ID" in
      let unitLabel := if isAdmin then "Department" else "Program" in
      if editMode
      then
        let* data := nonNull "profileData" profileData in
        nonNull "profileInfo" profileInfo >>
        updateElement "profileInfoContent"
          (setInnerHTML
             [InfoInput "Full Name" "text" "editName" (User.name u);
              InfoInput "Email" "email" "editEmail" (User.email u);
              InfoInput idLabel "text" "editId" (profileId data);
              InfoInput unitLabel "text" "editProgram" (profileUnit isAdmin data);
              InfoInput "Phone" "tel" "editPhone" (profilePhone data);
              InfoInput "Address" "text" "editAddress" (profileAddress data)]) >>
        nonNull "profileActions" profileActions >>
        updateElement "profileActions"
          (setInnerHTML
             [Button "btn btn-success" "saveProfile()" "fas fa-save" "Save Changes";
              Button "btn btn-outline" "renderProfile(false)" "fas fa-times" "Cancel"])
      else
        let* data := nonNull "profileData" profileData in
        nonNull "profileInfo" profileInfo >>
        updateElement "profileInfoContent"
          (setInnerHTML
             [InfoText idLabel (profileId data);
              InfoText unitLabel (profileUnit isAdmin data);
              InfoText "Phone" (profilePhone data);
              InfoText "Address" (profileAddress data)]) >>
        nonNull "profileActions" profileActions >>
        updateElement "profileActions"
          (setInnerHTML
             [Button "btn btn-primary" "renderProfile(true)" "fas fa-edit" "Edit Profile";
              Button "btn btn-outline" "showSection('dashboard')" "fas fa-arrow-left"
                "Back to Dashboard"])
  end.

Definition onSectionShow (sectionId : string) : JS unit :=
  if bool_decide (sectionId = "profile") then
    let* user := gets currentUser in
    match user with
    | Some _ => renderProfile false
    | None => ret tt
    end
  else if bool_decide (sectionId = "dashboard") then
    let* user := gets currentUser in
    match user with
    | Some _ => updateDashboard
    | None => ret tt
    end
  else ret tt.

Definition showSection (sectionId : string) : JS unit :=
  modify (fun w =>
    setAppState (mkAppState (isLoading (appState w)) (lastActivity (appState w))
                   (sessionTimeout (appState w)) sectionId) w) >>
  updateAll (fun e => bool_decide (tagName e = "section")) (addClass "hidden") >>
  let* targetSection := getElementById sectionId in
  match targetSection with
  | Some _ =>
      updateElement sectionId (removeClass "hidden") >>
      updateActiveNav sectionId >>
      onSectionShow sectionId
  | None => ret tt
  end >>
  mutate "main-nav" (removeClass "active") >>
  let* menu := gets (fun w => mobileMenu (document w)) in
  nonNull ".mobile-menu" menu >>
  modifyDocument (setMobileMenu (Some "false")) >>
  updateUserActivity.

(** ** 5. Data management *)

Definition appendChild (n : Node) (e : Element) : Element :=
  setChildren (children e ++ [n]) e.

Definition setAnnouncements (l : list Announcement.t) (w : World) : World :=
  setDatabase (mkDatabase l (events (database w)) (schedules (database w))
                 (users (database w))) w.

Definition setEvents (l : list Event.t) (w : World) : World :=
  setDatabase (mkDatabase (announcements (database w)) l (schedules (database w))
                 (users (database w))) w.

Definition setSchedules (l : list Schedule.t) (w : World) : World :=
  setDatabase (mkDatabase (announcements (database w)) (events (database w)) l
                 (users (database w))) w.

Definition setUsers (l : list PortalUser.t) (w : World) : World :=
  setDatabase (mkDatabase (announcements (database w)) (events (database w))
                 (schedules (database w)) l) w.

Definition renderAnnouncements : JS unit :=
  let* list := getElementById "announcementsList" in
  match list with
  | None => ret tt
  | Some _ =>
      updateElement "announcementsList" (setInnerHTML [Heading "Posted Announcements"]) >>
      let* items := gets (fun w => announcements (database w)) in
      match items with
      | [] =>
          updateElement "announcementsList"
            (appendChild
               (EmptyState "emptyAnnouncements" "fas fa-bullhorn"
                  "No announcements posted yet. Create your first announcement above."))
      | _ =>
          forEach (fun announcement =>
                     updateElement "announcementsList"
                       (appendChild (AnnouncementItem announcement)))
            items
      end
  end.

Definition renderEvents : JS unit :=
  let* list := getElementById "eventsList" in
  match list with
  | None => ret tt
  | Some _ =>
      updateElement "eventsList" (setInnerHTML [Heading "Added Events"]) >>
      let* items := gets (fun w => events (database w)) in
      match items with
      | [] =>
          updateElement "eventsList"
            (appendChild
               (EmptyState "emptyEvents" "fas fa-calendar"
                  "No events added yet. Create your first event above."))
      | _ =>
          forEach (fun event =>
                     let* h := gets host in
                     let formattedDate := formatDate h (Event.date event) in
                     updateElement "eventsList"
                       (appendChild (EventItem event formattedDate)))
            items
      end
  end.

Definition renderSchedules : JS unit :=
  let* list := getElementById "schedulesList" in
  match list with
  | None => ret tt
  | Some _ =>
      updateElement "schedulesList" (setInnerHTML [Heading "Updated Schedules"]) >>
      let* items := gets (fun w => schedules (database w)) in
      match items with
      | [] =>
          updateElement "schedulesList"
            (appendChild
               (EmptyState "emptySchedules" "fas fa-calendar-alt"
                  "No schedules updated yet. Create your first schedule above."))
      | _ =>
          forEach (fun schedule =>
                     let* h := gets host in
                     let formattedDate := formatDate h (Schedule.date schedule) in
                     updateElement "schedulesList"
                       (appendChild (ScheduleItem schedule formattedDate)))
            items
      end
  end.

Definition renderUsers : JS unit :=
  let* list := getElementById "usersList" in
  match list with
  | None => ret tt
  | Some _ =>
      updateElement "usersList" (setInnerHTML [Heading "Added Users"]) >>
      let* items := gets (fun w => users (database w)) in
      match items with
      | [] =>
          updateElement "usersList"
            (appendChild
               (EmptyState "emptyUsers" "fas fa-users"
                  "No users added yet. Add your first user above."))
      | _ =>
          forEach (fun user => updateElement "usersList" (appendChild (UserItem user)))
            items
      end
  end.

Definition deleteAnnouncement (id : Z) : JS unit :=
  let* ok := confirm (js "Are you sure you want to delete this announcement?") in
  if ok then
    modify (fun w =>
      setAnnouncements
        (filter (fun a => Announcement.id a ≠ id) (announcements (database w))) w) >>
    renderAnnouncements >>
    showNotification (js "Announcement deleted successfully") "success" None
  else ret tt.

Definition deleteEvent (id : Z) : JS unit :=
  let* ok := confirm (js "Are you sure you want to delete this event?") in
  if ok then
    modify (fun w =>
      setEvents (filter (fun e => Event.id e ≠ id) (events (database w))) w) >>
    renderEvents >>
    showNotification (js "Event deleted successfully") "success" None
  else ret tt.

Definition deleteSchedule (id : Z) : JS unit :=
  let* ok := confirm (js "Are you sure you want to delete this schedule?") in
  if ok then
    modify (fun w =>
      setSchedules (filter (fun s => Schedule.id s ≠ id) (schedules (database w))) w) >>
    renderSchedules >>
    showNotification (js "Schedule deleted successfully") "success" None
  else ret tt.

Definition deleteUser (id : Z) : JS unit :=
  let* ok := confirm (js "Are you sure you want to delete this user?") in
  if ok then
    modify (fun w =>
      setUsers (filter (fun u => PortalUser.id u ≠ id) (users (database w))) w) >>
    renderUsers >>
    showNotification (js "User deleted successfully") "success" None
  else ret tt.

(** ** 6. Form handlers *)

(** [document.getElementById(id).value] *)
Definition valueOf (id : string) : JS (option (list N)) :=
  let* el := getElementById id in
  let* e := nonNull id el in
  ret (value e).

(** [document.getElementById(id).value.trim()] *)
Definition trimmedValueOf (id : string) : JS (list N) :=
  let* v := valueOf id in
  let* s := nonNull (id +:+ ".value") v in
  ret (trim s).

(** An object literal; a property whose value is [undefined] reads like a
    missing one. *)
Definition object (props : list (string * option (list N))) : gmap string (list N) :=
  foldr (fun p m =>
           match snd p with
           | Some v => <[fst p := v]> m
           | None => m
           end) ∅ props.

(** [formData.key] for a key that validation has found present. *)
Definition prop (formData : gmap string (list N)) (key : string) : list N :=
  default [] (formData !! key).

(** [form.reset()] *)
Definition reset (formId : string) : JS unit :=
  let* form := getElementById formId in
  let* f := nonNull formId form in
  if bool_decide (tagName f = "form")
  then
    updateAll (fun e => bool_decide (ownerForm e = Some formId))
      (fun e =>
         match value e with
         | Some _ => setValue (Some (defaultValue e)) e
         | None => e
         end)
  else throw (TypeError (formId +:+ ".reset")).

Definition loginFormData : JS (gmap string (list N)) :=
  let* email := trimmedValueOf "loginEmail" in
  let* password := trimmedValueOf "loginPassword" in
  let* userType := valueOf "loginUserType" in
  ret (object [("email", Some email); ("password", Some password);
               ("userType", userType)]).

Definition roleLabel (u : User.t) : list N :=
  if bool_decide (User.type u = js "admin") then js "Administrator" else js "Student".

(** The part of the two response callbacks after [currentUser] is set. *)
Definition showLoggedIn (u : User.t) : JS unit :=
  let* h := gets host in
  mutate "userName" (setTextContent (User.name u)) >>
  mutate "userRole" (setTextContent (roleLabel u)) >>
  mutate "userAvatar" (setTextContent (generateAvatar h (User.name u))) >>
  mutate "profileName" (setTextContent (User.name u)) >>
  mutate "profileRole" (setTextContent (roleLabel u)) >>
  mutate "profileEmail" (setTextContent (User.email u)) >>
  mutate "profileAvatar" (setTextContent (generateAvatar h (User.name u))) >>
  updateDashboard >>
  updateAuthButtons.

(** The callback of the login handler's [setTimeout]. *)
Definition loginResponse (formData : gmap string (list N)) : JS unit :=
  setLoading false >>
  let user :=
    User.mk (if bool_decide (formData !! "userType" = Some (js "admin"))
             then js "Admin User" else js "Carl Kitusa")
      (prop formData "email") (prop formData "userType") in
  modify (setCurrentUser (Some user)) >>
  showLoggedIn user >>
  showNotification (js "Login successful!") "success" (Some "loginSuccessMessage") >>
  setTimeout ShowDashboard 1000.

Definition loginSubmit : JS unit :=
  clearFormErrors "loginForm" >>
  let* formData := loginFormData in
  let validation := validateForm formData ["email"; "password"; "userType"] in
  if negb (isValid validation) then showFormErrors (errors validation)
  else
    setLoading true >>
    setTimeout (LoginResponse formData) 1000.

Definition registerFormData : JS (gmap string (list N)) :=
  let* name := trimmedValueOf "regName" in
  let* email := trimmedValueOf "regEmail" in
  let* password := trimmedValueOf "regPassword" in
  let* userType := valueOf "regUserType" in
  ret (object [("name", Some name); ("email", Some email);
               ("password", Some password); ("userType", userType)]).

(** The callback of the register handler's [setTimeout]. *)
Definition registerResponse (formData : gmap string (list N)) : JS unit :=
  setLoading false >>
  let user :=
    User.mk (prop formData "name") (prop formData "email") (prop formData "userType") in
  modify (setCurrentUser (Some user)) >>
  showLoggedIn user >>
  showNotification (js "Registration successful!") "success"
    (Some "registerSuccessMessage") >>
  setTimeout ShowDashboard 1000.

Definition registerSubmit : JS unit :=
  clearFormErrors "registerForm" >>
  let* formData := registerFormData in
  let validation := validateForm formData ["name"; "email"; "password"; "userType"] in
  if negb (isValid validation) then showFormErrors (errors validation)
  else
    setLoading true >>
    setTimeout (RegisterResponse formData) 1000.

Definition announcementFormData : JS (gmap string (list N)) :=
  let* title := trimmedValueOf "announcementTitle" in
  let* content := trimmedValueOf "announcementContent" in
  let* priority := valueOf "announcementPriority" in
  ret (object [("title", Some title); ("content", Some content);
               ("priority", priority)]).

Definition announcementSubmit : JS unit :=
  clearFormErrors "announcementForm" >>
  let* formData := announcementFormData in
  let validation := validateForm formData ["title"; "content"] in
  if negb (isValid validation) then showFormErrors (errors validation)
  else
    let* id := dateNow in
    let* h := gets host in
    let date := toLocaleDateString h (Some id) MonthDayYear in
    let* user := gets currentUser in
    let* u := nonNull "currentUser" user in
    let newAnnouncement :=
      Announcement.mk id (prop formData "title") (prop formData "content")
        (formData !! "priority") date (User.name u) in
    modify (fun w => setAnnouncements (newAnnouncement :: announcements (database w)) w) >>
    renderAnnouncements >>
    showNotification (js "Announcement posted successfully!") "success"
      (Some "announcementSuccessMessage") >>
    reset "announcementForm".

Definition eventFormData : JS (gmap string (list N)) :=
  let* title := trimmedValueOf "eventTitle" in
  let* date := valueOf "eventDate" in
  let* time := valueOf "eventTime" in
  let* location := trimmedValueOf "eventLocation" in
  let* description := trimmedValueOf "eventDescription" in
  ret (object [("title", Some title); ("date", date); ("time", time);
               ("location", Some location); ("description", Some description)]).

Definition eventSubmit : JS unit :=
  clearFormErrors "eventForm" >>
  let* formData := eventFormData in
  let validation :=
    validateForm formData ["title"; "date"; "time"; "location"; "description"] in
  if negb (isValid validation) then showFormErrors (errors validation)
  else
    let* h := gets host in
    let eventDate := newDate h (prop formData "date") in
    let* now := dateNow in
    let today := setHours0 h now in
    if dateLt eventDate today
    then showNotification (js "Event date must be in the future") "error"
           (Some "eventDateError")
    else
      let* id := dateNow in
      let* user := gets currentUser in
      let* u := nonNull "currentUser" user in
      let newEvent :=
        Event.mk id (prop formData "title") (prop formData "description")
          (prop formData "date") (prop formData "time") (prop formData "location")
          (User.name u) in
      modify (fun w => setEvents (newEvent :: events (database w)) w) >>
      renderEvents >>
      showNotification (js "Event added successfully!") "success"
        (Some "eventSuccessMessage") >>
      reset "eventForm".

Definition scheduleFormData : JS (gmap string (list N)) :=
  let* course := trimmedValueOf "scheduleCourse" in
  let* date := valueOf "scheduleDate" in
  let* time := valueOf "scheduleTime" in
  let* room := trimmedValueOf "scheduleRoom" in
  let* instructor := trimmedValueOf "scheduleInstructor" in
  ret (object [("course", Some course); ("date", date); ("time", time);
               ("room", Some room); ("instructor", Some instructor)]).

Definition scheduleSubmit : JS unit :=
  clearFormErrors "scheduleForm" >>
  let* formData := scheduleFormData in
  let validation :=
    validateForm formData ["course"; "date"; "time"; "room"; "instructor"] in
  if negb (isValid validation) then showFormErrors (errors validation)
  else
    let* id := dateNow in
    let newSchedule :=
      Schedule.mk id (prop formData "course") (prop formData "date")
        (prop formData "time") (prop formData "room") (prop formData "instructor") in
    modify (fun w => setSchedules (newSchedule :: schedules (database w)) w) >>
    renderSchedules >>
    showNotification (js "Schedule updated successfully!") "success"
      (Some "scheduleSuccessMessage") >>
    reset "scheduleForm".

Definition userFormData : JS (gmap string (list N)) :=
  let* name := trimmedValueOf "userName" in
  let* email := trimmedValueOf "userEmail" in
  let* type := valueOf "userType" in
  ret (object [("name", Some name); ("email", Some email); ("type", type)]).

Definition userSubmit : JS unit :=
  clearFormErrors "userForm" >>
  let* formData := userFormData in
  let validation := validateForm formData ["name"; "email"; "type"] in
  if negb (isValid validation) then showFormErrors (errors validation)
  else if negb (validateEmail (prop formData "email"))
  then showNotification (js "Please enter a valid email address") "error"
         (Some "userEmailError")
  else
    let* id := dateNow in
    let newUser :=
      PortalUser.mk id (prop formData "name") (prop formData "email")
        (prop formData "type") in
    modify (fun w => setUsers (newUser :: users (database w)) w) >>
    renderUsers >>
    showNotification (js "User added successfully!") "success"
      (Some "userSuccessMessage") >>
    reset "userForm".

(** ** 7. Session management *)

Definition clearForms : JS unit :=
  reset "loginForm" >>
  clearFormErrors "loginForm" >>
  reset "registerForm" >>
  clearFormErrors "registerForm" >>
  reset "announcementForm" >>
  clearFormErrors "announcementForm" >>
  reset "eventForm" >>
  clearFormErrors "eventForm" >>
  reset "scheduleForm" >>
  clearFormErrors "scheduleForm" >>
  reset "userForm" >>
  clearFormErrors "userForm".

Definition logout : JS unit :=
  let* ok := confirm (js "Are you sure you want to logout?") in
  if ok then
    modify (setCurrentUser None) >>
    clearForms >>
    updateAuthButtons >>
    showSection "home" >>
    showNotification (js "Logged out successfully") "success" None
  else ret tt.

Definition sessionExpiredMessage : list N :=
  js "Your session has expired due to inactivity. Would you like to login again?".

Definition checkSessionTimeout : JS unit :=
  let* now := dateNow in
  let* last := gets (fun w => lastActivity (appState w)) in
  let timeSinceLastActivity := now - last in
  let* user := gets currentUser in
  let* timeout := gets (fun w => sessionTimeout (appState w)) in
  match user with
  | Some _ =>
      if timeout <? timeSinceLastActivity
      then
        let* ok := confirm sessionExpiredMessage in
        if ok then logout else ret tt
      else ret tt
  | None => ret tt
  end.

(** ** The timer queue *)

Definition runCallback (cb : Callback) : JS unit :=
  match cb with
  | HideNotification element => updateRef element (removeClass "show")
  | LoginResponse formData => loginResponse formData
  | RegisterResponse formData => registerResponse formData
  | ShowDashboard => showSection "dashboard"
  | SessionCheck => checkSessionTimeout >> setTimeout SessionCheck 60000
  end.

(** The pending callback that falls due first; among callbacks due at the
    same time, the one registered first. *)
Fixpoint earliest (l : list (Z * Callback)) : option (nat * (Z * Callback)) :=
  match l with
  | [] => None
  | t :: rest =>
      match earliest rest with
      | Some (i, t') => if fst t' <? fst t then Some (S i, t') else Some (0%nat, t)
      | None => Some (0%nat, t)
      end
  end.

(** One turn of the event loop on the timer queue: time passes until the
    next callback is due, and the callback runs. *)
Definition tick (w : World) : option (Completion unit * World) :=
  match earliest (timers w) with
  | None => None
  | Some (i, (due, cb)) =>
      Some (runCallback cb
              (setTimers (delete i (timers w)) (setClock (Z.max (clock w) due) w)))
  end.

(** ** The six forms and the four collections, by name *)

Inductive Form : Type :=
  | LoginForm
  | RegisterForm
  | AnnouncementForm
  | EventForm
  | ScheduleForm
  | UserForm.

Definition formId (f : Form) : string :=
  match f with
  | LoginForm => "loginForm"
  | RegisterForm => "registerForm"
  | AnnouncementForm => "announcementForm"
  | EventForm => "eventForm"
  | ScheduleForm => "scheduleForm"
  | UserForm => "userForm"
  end.

Definition allForms : list Form :=
  [LoginForm; RegisterForm; AnnouncementForm; EventForm; ScheduleForm; UserForm].

(** The "Get form data" block of each submit handler. *)
Definition formData (f : Form) : JS (gmap string (list N)) :=
  match f with
  | LoginForm => loginFormData
  | RegisterForm => registerFormData
  | AnnouncementForm => announcementFormData
  | EventForm => eventFormData
  | ScheduleForm => scheduleFormData
  | UserForm => userFormData
  end.

(** The second argument each handler gives to [validateForm]. *)
Definition requiredFields (f : Form) : list string :=
  match f with
  | LoginForm => ["email"; "password"; "userType"]
  | RegisterForm => ["name"; "email"; "password"; "userType"]
  | AnnouncementForm => ["title"; "content"]
  | EventForm => ["title"; "date"; "time"; "location"; "description"]
  | ScheduleForm => ["course"; "date"; "time"; "room"; "instructor"]
  | UserForm => ["name"; "email"; "type"]
  end.

Definition submit (f : Form) : JS unit :=
  match f with
  | LoginForm => loginSubmit
  | RegisterForm => registerSubmit
  | AnnouncementForm => announcementSubmit
  | EventForm => eventSubmit
  | ScheduleForm => scheduleSubmit
  | UserForm => userSubmit
  end.

Inductive Collection : Type :=
  | Announcements
  | Events
  | Schedules
  | Users.

Inductive Record : Type :=
  | AnnouncementRecord (a : Announcement.t)
  | EventRecord (e : Event.t)
  | ScheduleRecord (s : Schedule.t)
  | UserRecord (u : PortalUser.t).

Definition recordId (r : Record) : Z :=
  match r with
  | AnnouncementRecord a => Announcement.id a
  | EventRecord e => Event.id e
  | ScheduleRecord s => Schedule.id s
  | UserRecord u => PortalUser.id u
  end.

Definition records (c : Collection) (w : World) : list Record :=
  match c with
  | Announcements => map AnnouncementRecord (announcements (database w))
  | Events => map EventRecord (events (database w))
  | Schedules => map ScheduleRecord (schedules (database w))
  | Users => map UserRecord (users (database w))
  end.

Definition ids (c : Collection) (w : World) : list Z := map recordId (records c w).

Definition crudForm (c : Collection) : Form :=
  match c with
  | Announcements => AnnouncementForm
  | Events => EventForm
  | Schedules => ScheduleForm
  | Users => UserForm
  end.

Definition deleteById (c : Collection) (id : Z) : JS unit :=
  match c with
  | Announcements => deleteAnnouncement id
  | Events => deleteEvent id
  | Schedules => deleteSchedule id
  | Users => deleteUser id
  end.

(** The value a handler computes; reading a form does not change the world. *)
Definition readForm (f : Form) (w : World) : Completion (gmap string (list N)) :=
  fst (formData f w).

Definition validates (f : Form) (fd : gmap string (list N)) : bool :=
  isValid (validateForm fd (requiredFields f)).

(** The event handler's date rule: [eventDate < today]. *)
Definition dateInPast (w : World) (fd : gmap string (list N)) : bool :=
  dateLt (newDate (host w) (prop fd "date")) (setHours0 (host w) (clock w)).

(** ** Properties of strings and documents used in the statements *)

Definition plain (s : list N) : Prop :=
  s <> [] /\ Forall (fun c => isWhiteSpace c = false /\ c <> 64%N) s.

(** The shape [local@domain.tld]. *)
Definition emailShape (s : list N) : Prop :=
  exists l d t, s = l ++ [64%N] ++ d ++ [46%N] ++ t /\ plain l /\ plain d /\ plain t.

Definition nonEmptyTrimmed (M : gmap string (list N)) (f : string) : Prop :=
  exists v, M !! f = Some v /\ trim v <> [].

(** What makes a required field offend the rules of [validateForm]. *)
Definition offending (M : gmap string (list N)) (f : string) : Prop :=
  ~ nonEmptyTrimmed M f
  \/ (f = "email" /\ forall v, M !! f = Some v -> ~ emailShape v)
  \/ (f = "password" /\ forall v, M !! f = Some v -> (length v < 8)%nat).

Definition hasElement (id : string) (w : World) : Prop :=
  is_Some (byId (document w) !! id).

Definition isFormElement (id : string) (w : World) : Prop :=
  exists e, byId (document w) !! id = Some e /\ tagName e = "form".

(** Every control of the six forms holds the value the page shipped with. *)
Definition formsReset (w : World) : Prop :=
  forall id e f v,
    byId (document w) !! id = Some e ->
    ownerForm e = Some (formId f) ->
    value e = Some v ->
    v = defaultValue e.

(** Only the section with the given id is shown. *)
Definition onlyShown (sectionId : string) (w : World) : Prop :=
  (forall id e, byId (document w) !! id = Some e -> tagName e = "section" ->
                ("hidden" ∈ classList e <-> id <> sectionId))
  /\ (forall e, byId (document w) !! sectionId = Some e -> "hidden" ∉ classList e).

(** The claim "exactly one record with the given id is removed". *)
Definition removesExactlyOne (before after : list Record) (id : Z) : Prop :=
  exists l1 r l2, before = l1 ++ r :: l2 /\ recordId r = id /\ after = l1 ++ l2.

(** ** Initial state *)

(** [database.init()] *)
Definition databaseInit : Database :=
  mkDatabase
    [Announcement.mk 1 (js "Midterm Project Submission Deadline Extended")
       (js "The deadline for midterm project submissions has been extended to December 20, 2025.")
       (Some (js "important")) (js "December 15, 2025") (js "Academic Office");
     Announcement.mk 2 (js "Campus Maintenance - Library Closed on Saturday")
       (js "The main library will be closed this Saturday for scheduled maintenance. E-resources will remain available.")
       (Some (js "normal")) (js "December 12, 2025") (js "Facilities Management");
     Announcement.mk 3 (js "Career Fair - December 5-7, 2025")
       (js "Annual career fair featuring top companies. Register through the career portal.")
       (Some (js "urgent")) (js "December 10, 2025") (js "Career Services")]
    [Event.mk 1 (js "Tech Club Meeting")
       (js "Monthly meeting for tech enthusiasts. Discuss latest trends and projects.")
       (js "2025-12-20") (js "14:00") (js "Student Center") (js "Tech Club");
     Event.mk 2 (js "Guest Lecture: AI in Education")
       (js "Join us for an insightful lecture on AI applications in modern education.")
       (js "2025-12-25") (js "10:00") (js "Auditorium A") (js "Computer Science Dept");
     Event.mk 3 (js "Annual Career Fair")
       (js "Connect with top employers and explore career opportunities.")
       (js "2025-12-30") (js "09:00") (js "Sports Complex") (js "Career Services")]
    [Schedule.mk 1 (js "APT3065 - Software Engineering") (js "2025-12-15") (js "08:00")
       (js "TC-304") (js "Dr. Smith");
     Schedule.mk 2 (js "APT3070 - Database Systems") (js "2025-12-15") (js "10:30")
       (js "TC-301") (js "Prof. Johnson");
     Schedule.mk 3 (js "APT3080 - Web Development") (js "2025-12-15") (js "14:00")
       (js "TC-310") (js "Dr. Williams")]
    [].

Definition initialProfileData : ProfileData :=
  mkProfileData
    (StudentProfile.mk (js "669430")
       (js "Bachelor of Science in Information Systems & Technology")
       (js "+254 712 345 678") (js "USIU-Africa, Thika Road")
       (js "carl.kitusa@usiu.ac.ke"))
    (AdminProfile.mk (js "ADM001") (js "Administration") (js "+254 711 222 333")
       (js "USIU-Africa, Administration Building") (js "admin@usiu.ac.ke")).

Definition initialAppState (t : Z) : AppState :=
  mkAppState false t (30 * 60 * 1000) "home".

(** ** A page and two browsers, for the examples

    The page has one element for each id the script looks up; its user
    form owns the control [userName]. *)

Definition block (tag : string) (classes : list string) : Element :=
  mkElement tag (list_to_set classes) None None [] [].

Definition control (form : string) (dflt : list N) : Element :=
  mkElement "input" ∅ (Some form) (Some dflt) dflt [].

Definition errorSlot (form : string) : Element :=
  mkElement "div" {["error-message"; "hidden"]} (Some form) None [] [].

Definition portalPage : Document :=
  mkDocument
    (list_to_map
       [("home", block "section" []);
        ("features", block "section" ["hidden"]);
        ("login", block "section" ["hidden"]);
        ("register", block "section" ["hidden"]);
        ("dashboard", block "section" ["hidden"]);
        ("profile", block "section" ["hidden"]);
        ("main-nav", block "nav" []);
        ("authButtons", block "div" []);
        ("heroButtons", block "div" []);
        ("loginForm", block "form" []);
        ("loginEmail", control "loginForm" []);
        ("loginPassword", control "loginForm" []);
        ("loginUserType", control "loginForm" (js "student"));
        ("emailError", errorSlot "loginForm");
        ("passwordError", errorSlot "loginForm");
        ("userTypeError", errorSlot "loginForm");
        ("loginSuccessMessage", block "div" []);
        ("registerForm", block "form" []);
        ("regName", control "registerForm" []);
        ("regEmail", control "registerForm" []);
        ("regPassword", control "registerForm" []);
        ("regUserType", control "registerForm" (js "student"));
        ("nameError", errorSlot "registerForm");
        ("registerSuccessMessage", block "div" []);
        ("userRole", block "span" []);
        ("userAvatar", block "div" []);
        ("studentDashboard", block "div" []);
        ("adminDashboard", block "div" ["hidden"]);
        ("announcements-tab", block "div" ["admin-tab-content"]);
        ("events-tab", block "div" ["admin-tab-content"; "hidden"]);
        ("schedules-tab", block "div" ["admin-tab-content"; "hidden"]);
        ("users-tab", block "div" ["admin-tab-content"; "hidden"]);
        ("profileName", block "h3" []);
        ("profileRole", block "p" []);
        ("profileEmail", block "p" []);
        ("profileAvatar", block "div" []);
        ("profileInfoContent", block "div" []);
        ("profileActions", block "div" []);
        ("announcementForm", block "form" []);
        ("announcementTitle", control "announcementForm" []);
        ("announcementContent", control "announcementForm" []);
        ("announcementPriority", control "announcementForm" (js "normal"));
        ("titleError", errorSlot "announcementForm");
        ("contentError", errorSlot "announcementForm");
        ("announcementSuccessMessage", block "div" []);
        ("announcementsList", block "div" []);
        ("eventForm", block "form" []);
        ("eventTitle", control "eventForm" []);
        ("eventDate", control "eventForm" []);
        ("eventTime", control "eventForm" []);
        ("eventLocation", control "eventForm" []);
        ("eventDescription", control "eventForm" []);
        ("dateError", errorSlot "eventForm");
        ("timeError", errorSlot "eventForm");
        ("locationError", errorSlot "eventForm");
        ("descriptionError", errorSlot "eventForm");
        ("eventDateError", errorSlot "eventForm");
        ("eventSuccessMessage", block "div" []);
        ("eventsList", block "div" []);
        ("scheduleForm", block "form" []);
        ("scheduleCourse", control "scheduleForm" []);
        ("scheduleDate", control "scheduleForm" []);
        ("scheduleTime", control "scheduleForm" []);
        ("scheduleRoom", control "scheduleForm" []);
        ("scheduleInstructor", control "scheduleForm" []);
        ("courseError", errorSlot "scheduleForm");
        ("roomError", errorSlot "scheduleForm");
        ("instructorError", errorSlot "scheduleForm");
        ("scheduleSuccessMessage", block "div" []);
        ("schedulesList", block "div" []);
        ("userForm", block "form" []);
        ("userName", control "userForm" []);
        ("userEmail", control "userForm" []);
        ("userType", control "userForm" (js "student"));
        ("typeError", errorSlot "userForm");
        ("userEmailError", errorSlot "userForm");
        ("userSuccessMessage", block "div" []);
        ("usersList", block "div" [])])
    [mkNavLink (Some "showSection('home')") {["active"]};
     mkNavLink (Some "showSection('features')") ∅;
     mkNavLink (Some "showSection('profile')") ∅]
    (Some "false")
    [mkSubmitButton ∅ false; mkSubmitButton ∅ false; mkSubmitButton ∅ false;
     mkSubmitButton ∅ false; mkSubmitButton ∅ false; mkSubmitButton ∅ false]
    [mkAdminTab (js "Announcements") {["admin-tab"; "active"]};
     mkAdminTab (js "Events") {["admin-tab"]};
     mkAdminTab (js "Schedules") {["admin-tab"]};
     mkAdminTab (js "Users") {["admin-tab"]}]
    [].

Definition asciiUpper (s : list N) : list N :=
  map (fun c => if ((97 <=? c) && (c <=? 122))%N then (c - 32)%N else c) s.

Definition asciiLower (s : list N) : list N :=
  map (fun c => if ((65 <=? c) && (c <=? 90))%N then (c + 32)%N else c) s.

(** The civil date of a day number. *)
Definition civilFromDays (days : Z) : Z * Z * Z :=
  let z := days + 719468 in
  let era := z / 146097 in
  let doe := z - era * 146097 in
  let yoe := (doe - doe / 1460 + doe / 36524 - doe / 146096) / 365 in
  let doy := doe - (365 * yoe + yoe / 4 - yoe / 100) in
  let mp := (5 * doy + 2) / 153 in
  let d := doy - (153 * mp + 2) / 5 + 1 in
  let m := if mp <? 10 then mp + 3 else mp - 9 in
  (yoe + era * 400 + (if m <=? 2 then 1 else 0), m, d).

Definition monthNames : list string :=
  ["January"; "February"; "March"; "April"; "May"; "June"; "July"; "August";
   "September"; "October"; "November"; "December"].

Definition weekdayNames : list string :=
  ["Sunday"; "Monday"; "Tuesday"; "Wednesday"; "Thursday"; "Friday"; "Saturday"].

(** The [en-US] rendering of a time value in a zone at a fixed offset. *)
Definition enUSDate (offset : Z) (t : option Z) (o : DateOptions) : list N :=
  match t with
  | None => js "Invalid Date"
  | Some t =>
      let day := (t + offset) / msPerDay in
      let '(y, m, d) := civilFromDays day in
      let text :=
        nth (Z.to_nat (m - 1)) monthNames EmptyString +:+ " " +:+ pretty d +:+ ", " +:+ pretty y in
      match o with
      | MonthDayYear => js text
      | WeekdayYearMonthDay =>
          js (nth (Z.to_nat ((day + 4) mod 7)) weekdayNames EmptyString +:+ ", " +:+ text)
      end
  end.

(** A browser whose zone lies at a fixed offset from UTC, with the ASCII
    case mappings and no parser heuristics. *)
Definition fixedZone (offset : Z) : Host :=
  mkHost asciiUpper asciiLower (enUSDate offset) (fun _ _ => offset) (fun _ => None).

Definition nairobi : Host := fixedZone (3 * 3600000).

Definition newYork : Host := fixedZone (-5 * 3600000).

Definition initialWorld (h : Host) (t : Z) : World :=
  mkWorld None (initialAppState t) databaseInit initialProfileData portalPage
    t [] [] [] h.

(** The user types [text] into the control [id]. *)
Definition typeInto (id : string) (text : string) (w : World) : World :=
  setDocument
    (setById (alter (setValue (Some (js text))) id (byId (document w))) (document w)) w.

(** The user's answers to the coming [confirm] dialogs. *)
Definition answering (a : list bool) (w : World) : World :=
  setDialog a (asked w) w.

(** The world a statement leaves behind. *)
Definition after {A : Type} (m : JS A) (w : World) : World := snd (m w).

Definition outcome {A : Type} (m : JS A) (w : World) : Completion A := fst (m w).

(** Time passes without an event. *)
Definition elapse (dt : Z) (w : World) : World := setClock (clock w + dt) w.

(** 20 December 2025, noon in Nairobi. *)
Definition noonNairobi : Z := 1766221200000.

(** 20 December 2025, 3 pm in New York. *)
Definition afternoonNewYork : Z := 1766260800000.

(** An administrator is logged in. *)
Definition adminSession (h : Host) (t : Z) : World :=
  setCurrentUser (Some (User.mk (js "Admin User") (js "admin@usiu.ac.ke") (js "admin")))
    (initialWorld h t).

(** The language of a regular expression. *)
Inductive Matches : regex -> list N -> Prop :=
  | MEps : Matches Eps []
  | MCls p c : p c = true -> Matches (Cls p) [c]
  | MCat r1 r2 s1 s2 :
      Matches r1 s1 -> Matches r2 s2 -> Matches (Cat r1 r2) (s1 ++ s2)
  | MAltL r1 r2 s : Matches r1 s -> Matches (Alt r1 r2) s
  | MAltR r1 r2 s : Matches r2 s -> Matches (Alt r1 r2) s
  | MStarNil r : Matches (Star r) []
  | MStarApp r s1 s2 :
      Matches r s1 -> Matches (Star r) s2 -> Matches (Star r) (s1 ++ s2).


(** The message [validateForm] leaves for one required field, if any:
    the last of the three assignments of the callback that fires. *)
Definition fieldError (M : gmap string (list N)) (f : string) : option (list N) :=
  let v := M !! f in
  if bool_decide (f = "password") && truthy v && (Z.of_nat (length (strOf v)) <? 8)
  then Some (js "Password must be at least 8 characters")
  else if bool_decide (f = "email") && truthy v && negb (validateEmail (strOf v))
  then Some (js "Please enter a valid email address")
  else if negb (truthy v) || isBlank v
  then Some (js f ++ js " is required")
  else None.


(** ** Relations between worlds, for the frame properties *)

(** What of an element no statement changes except [form.reset()]. *)
Definition skeleton (e : Element) : string * option string * list N * option (list N) :=
  (tagName e, ownerForm e, defaultValue e, value e).

(** The two documents have the same elements, with the same tags, owners
    and values; classes and contents may differ. *)
Definition skel (d d' : Document) : Prop :=
  (forall id, skeleton <$> byId d' !! id = skeleton <$> byId d !! id)
  /\ (is_Some (mobileMenu d) -> is_Some (mobileMenu d')).

(** Only the document differs. *)
Definition domRel (w w' : World) : Prop :=
  w' = setDocument (document w') w /\ skel (document w) (document w').

(** The store, the clock and the dialogs are the same; callbacks may have
    been registered; of [appState], the session timeout and the current
    section are the same. *)
Definition evolves (w w' : World) : Prop :=
  currentUser w' = currentUser w
  /\ database w' = database w
  /\ userProfileData w' = userProfileData w
  /\ clock w' = clock w
  /\ host w' = host w
  /\ answers w' = answers w
  /\ asked w' = asked w
  /\ sessionTimeout (appState w') = sessionTimeout (appState w)
  /\ currentSection (appState w') = currentSection (appState w)
  /\ (exists t, timers w' = timers w ++ t)
  /\ skel (document w) (document w').

Definition Dom {A : Type} (m : JS A) : Prop := forall w, domRel w (after m w).

Definition Evolves {A : Type} (m : JS A) : Prop := forall w, evolves w (after m w).

(** The statement completes normally. *)
Definition ok {A : Type} (m : JS A) (w : World) : Prop :=
  exists a, outcome m w = Normal a.

Definition present (ids : list string) (w : World) : Prop :=
  Forall (fun id => hasElement id w) ids.

(** The effect of [form.reset()] on the document. *)
Definition resetElement (formId : string) (e : Element) : Element :=
  if bool_decide (ownerForm e = Some formId)
  then match value e with
       | Some _ => setValue (Some (defaultValue e)) e
       | None => e
       end
  else e.

Definition resetWorld (formId : string) (w : World) : World :=
  setDocument (setById (resetElement formId <$> byId (document w)) (document w)) w.

(** An update of an element that leaves its skeleton alone. *)
Definition cosmetic (f : Element -> Element) : Prop :=
  forall e, skeleton (f e) = skeleton e.

(** The first assignment of [showSection]. *)
Definition enter (sectionId : string) (w : World) : World :=
  setAppState (mkAppState (isLoading (appState w)) (lastActivity (appState w))
                 (sessionTimeout (appState w)) sectionId) w.

(** The statement only reads the world. *)
Definition ReadOnly {A : Type} (m : JS A) : Prop := forall w, after m w = w.

(** The statement never throws. *)
Definition Total {A : Type} (m : JS A) : Prop := forall w, ok m w.

(** The store is the same. *)
Definition sameStore (w w' : World) : Prop :=
  currentUser w' = currentUser w
  /\ database w' = database w
  /\ userProfileData w' = userProfileData w.

Definition Store {A : Type} (m : JS A) : Prop := forall w, sameStore w (after m w).

(** ** The effect of [showSection] when no renderer runs *)

Definition hideSections (m : gmap string Element) : gmap string Element :=
  (fun e => if bool_decide (tagName e = "section") then addClass "hidden" e else e) <$> m.

(** The effect of [updateActiveNav] on the links. *)
Definition activate (sectionId : string) (links : list NavLink) : list NavLink :=
  let cleared :=
    map (fun l => mkNavLink (onclick l) (linkClasses l ∖ {["active"]})) links in
  match list_find (fun l => onclickContains sectionId l = true) cleared with
  | Some (i, _) =>
      alter (fun l => mkNavLink (onclick l) (linkClasses l ∪ {["active"]})) i cleared
  | None => cleared
  end.

Definition shown (sectionId : string) (w : World) : World :=
  let d := document w in
  let hidden := hideSections (byId d) in
  let found := hidden !! sectionId in
  mkWorld (currentUser w)
    (mkAppState (isLoading (appState w)) (clock w) (sessionTimeout (appState w))
       sectionId)
    (database w) (userProfileData w)
    (mkDocument
       (alter (removeClass "active") "main-nav"
          (alter (removeClass "hidden") sectionId hidden))
       (match found with
        | Some _ => activate sectionId (navLinks d)
        | None => navLinks d
        end)
       (Some "false") (submitButtons d) (adminTabs d) (floating d))
    (clock w) (timers w) (answers w) (asked w) (host w).

(** The current user and the skeleton of the document are the same. *)
Definition keeps (w w' : World) : Prop :=
  currentUser w' = currentUser w /\ skel (document w) (document w').

Definition Keeps {A : Type} (m : JS A) : Prop := forall w, keeps w (after m w).

(** The world after the statements of [clearForms] for the given forms. *)
Definition cleared (formIds : list string) (w : World) : World :=
  foldl (fun w0 formId => after (clearFormErrors formId) (resetWorld formId w0)) w formIds.

(** Every control of the listed forms holds the value the page shipped with. *)
Definition resetIn (formIds : list string) (w : World) : Prop :=
  forall id e formId v,
    byId (document w) !! id = Some e ->
    ownerForm e = Some formId -> formId ∈ formIds ->
    value e = Some v ->
    v = defaultValue e.

Definition sixForms : list string := map formId allForms.

(** The control [id] holds the text. *)
Definition holds (id : string) (text : string) (w : World) : Prop :=
  exists e, byId (document w) !! id = Some e /\ value e = Some (js text).

(** The elements the two response callbacks write to without a guard. *)
Definition loggedInIds : list string :=
  ["userName"; "userRole"; "userAvatar"; "profileName"; "profileRole"; "profileEmail";
   "profileAvatar"; "studentDashboard"; "adminDashboard"; "authButtons"; "heroButtons"].

(** ** Worlds for the examples *)

(** The schedule form filled in, in Nairobi at noon. *)
Definition fillSchedule (w : World) : World :=
  typeInto "scheduleInstructor" "Dr. Smith"
    (typeInto "scheduleRoom" "TC-304"
       (typeInto "scheduleTime" "08:00"
          (typeInto "scheduleDate" "2025-12-22"
             (typeInto "scheduleCourse" "APT3065" w)))).

Definition scheduleDraft : World := fillSchedule (initialWorld nairobi noonNairobi).

Definition scheduleDraftData : gmap string (list N) :=
  {[ "course" := js "APT3065"; "date" := js "2025-12-22"; "time" := js "08:00";
     "room" := js "TC-304"; "instructor" := js "Dr. Smith" ]}.

(** The schedule form submitted and filled in again within the same
    millisecond. *)
Definition secondDraft : World := fillSchedule (after scheduleSubmit scheduleDraft).

(** Both drafts submitted; the user is about to confirm a deletion. *)
Definition twoAtOnce : World := answering [true] (after scheduleSubmit secondDraft).

(** The claim of a fresh id, for one submission. *)
Definition insertsFresh (c : Collection) (w : World) : Prop :=
  exists r, records c (after (submit (crudForm c)) w) = r :: records c w
            /\ recordId r ∉ ids c w.

(** The event form filled in with the date of the current day. *)
Definition fillEvent (date : string) (w : World) : World :=
  typeInto "eventDescription" "Monthly meeting"
    (typeInto "eventLocation" "Student Center"
       (typeInto "eventTime" "18:00"
          (typeInto "eventDate" date
             (typeInto "eventTitle" "Tech Club Meeting" w)))).

Definition eventData (date : string) : gmap string (list N) :=
  {[ "title" := js "Tech Club Meeting"; "date" := js date; "time" := js "18:00";
     "location" := js "Student Center"; "description" := js "Monthly meeting" ]}.

(** An administrator in New York, on 20 December 2025 at 3 pm, enters an
    event for that day. *)
Definition todayInNewYork : World :=
  fillEvent "2025-12-20" (adminSession newYork afternoonNewYork).

(** The same in Nairobi, at noon. *)
Definition todayInNairobi : World :=
  fillEvent "2025-12-20" (adminSession nairobi noonNairobi).


(** The login form filled in as in the scenario. *)
Definition loginDraft : World :=
  typeInto "loginUserType" "student"
    (typeInto "loginPassword" "12345678"
       (typeInto "loginEmail" "a@b.com" (initialWorld nairobi noonNairobi))).

Definition loginData : gmap string (list N) :=
  {[ "email" := js "a@b.com"; "password" := js "12345678"; "userType" := js "student" ]}.

(** The login form as the page ships it: nothing typed. *)
Definition emptyLoginData : gmap string (list N) :=
  {[ "email" := []; "password" := []; "userType" := js "student" ]}.

(** The announcement form filled in while nobody is logged in. *)
Definition announcementDraft : World :=
  typeInto "announcementContent" "C"
    (typeInto "announcementTitle" "T" (initialWorld nairobi noonNairobi)).

Definition announcementData : gmap string (list N) :=
  {[ "title" := js "T"; "content" := js "C"; "priority" := js "normal" ]}.

(** ** Further definitions for the properties of single functions *)

(** [parts.join(sep)] for a separator of one code unit. *)
Fixpoint joinWith (sep : N) (parts : list (list N)) : list N :=
  match parts with
  | [] => []
  | [p] => p
  | p :: rest => p ++ sep :: joinWith sep rest
  end.

(** The statement leaves the observation [g] of the world as it was,
    whether it returns or throws. *)
Definition Preserves {A X : Type} (g : World -> X) (m : JS A) : Prop :=
  forall w, g (after m w) = g w.

(** The loading state: the flag and the submit buttons. *)
Definition loadingState (w : World) : bool * list SubmitButton :=
  (isLoading (appState w), submitButtons (document w)).

(** The callback a login or register submission registers. *)
Definition response (f : Form) (fd : gmap string (list N)) : Callback :=
  match f with
  | RegisterForm => RegisterResponse fd
  | _ => LoginResponse fd
  end.

(** The first link, in document order, whose [onclick] holds the id. *)
Definition firstMatch (sectionId : string) (links : list NavLink) (i : nat) : Prop :=
  (exists l, links !! i = Some l /\ onclickContains sectionId l = true)
  /\ forall j l, links !! j = Some l -> (j < i)%nat -> onclickContains sectionId l = false.

(** The id can be written between the quotes of the attribute selector
    [a[onclick*="..."]] as it is: it holds no quote, no backslash and no
    line break. *)
Definition selectorSafe (sectionId : string) : Prop :=
  Forall (fun c => c ∉ [34%N; 92%N; 10%N; 12%N; 13%N]) (js sectionId).

(** ** The four collections, by name: lists, renderers and handlers *)

Definition listId (c : Collection) : string :=
  match c with
  | Announcements => "announcementsList"
  | Events => "eventsList"
  | Schedules => "schedulesList"
  | Users => "usersList"
  end.

Definition render (c : Collection) : JS unit :=
  match c with
  | Announcements => renderAnnouncements
  | Events => renderEvents
  | Schedules => renderSchedules
  | Users => renderUsers
  end.

(** The item a renderer appends for a record. *)
Definition item (h : Host) (r : Record) : Node :=
  match r with
  | AnnouncementRecord a => AnnouncementItem a
  | EventRecord e => EventItem e (formatDate h (Event.date e))
  | ScheduleRecord s => ScheduleItem s (formatDate h (Schedule.date s))
  | UserRecord u => UserItem u
  end.

Definition heading (c : Collection) : Node :=
  match c with
  | Announcements => Heading "Posted Announcements"
  | Events => Heading "Added Events"
  | Schedules => Heading "Updated Schedules"
  | Users => Heading "Added Users"
  end.

Definition emptyState (c : Collection) : Node :=
  match c with
  | Announcements =>
      EmptyState "emptyAnnouncements" "fas fa-bullhorn"
        "No announcements posted yet. Create your first announcement above."
  | Events =>
      EmptyState "emptyEvents" "fas fa-calendar"
        "No events added yet. Create your first event above."
  | Schedules =>
      EmptyState "emptySchedules" "fas fa-calendar-alt"
        "No schedules updated yet. Create your first schedule above."
  | Users =>
      EmptyState "emptyUsers" "fas fa-users"
        "No users added yet. Add your first user above."
  end.

(** The content of a list that shows the collection as it is stored: the
    heading, then the empty state or one item per record, in order. *)
Definition rendering (c : Collection) (w : World) : list Node :=
  heading c ::
  match records c w with
  | [] => [emptyState c]
  | rs => map (item (host w)) rs
  end.

Definition successId (c : Collection) : string :=
  match c with
  | Announcements => "announcementSuccessMessage"
  | Events => "eventSuccessMessage"
  | Schedules => "scheduleSuccessMessage"
  | Users => "userSuccessMessage"
  end.

Definition successMessage (c : Collection) : list N :=
  match c with
  | Announcements => js "Announcement posted successfully!"
  | Events => js "Event added successfully!"
  | Schedules => js "Schedule updated successfully!"
  | Users => js "User added successfully!"
  end.

(** The record a handler builds from the form data; the announcement and
    the event carry the name of the current user. *)
Definition newRecord (c : Collection) (w : World) (fd : gmap string (list N))
    : option Record :=
  match c with
  | Announcements =>
      (fun u =>
         AnnouncementRecord
           (Announcement.mk (clock w) (prop fd "title") (prop fd "content")
              (fd !! "priority")
              (toLocaleDateString (host w) (Some (clock w)) MonthDayYear)
              (User.name u))) <$> currentUser w
  | Events =>
      (fun u =>
         EventRecord
           (Event.mk (clock w) (prop fd "title") (prop fd "description")
              (prop fd "date") (prop fd "time") (prop fd "location") (User.name u)))
        <$> currentUser w
  | Schedules =>
      Some (ScheduleRecord
              (Schedule.mk (clock w) (prop fd "course") (prop fd "date")
                 (prop fd "time") (prop fd "room") (prop fd "instructor")))
  | Users =>
      Some (UserRecord
              (PortalUser.mk (clock w) (prop fd "name") (prop fd "email")
                 (prop fd "type")))
  end.

(** [collection.unshift(record)] *)
Definition unshift (r : Record) (w : World) : World :=
  match r with
  | AnnouncementRecord a => setAnnouncements (a :: announcements (database w)) w
  | EventRecord e => setEvents (e :: events (database w)) w
  | ScheduleRecord s => setSchedules (s :: schedules (database w)) w
  | UserRecord u => setUsers (u :: users (database w)) w
  end.

(** The last three statements of a handler that stores a record. *)
Definition finish (c : Collection) : JS unit :=
  render c >>
  showNotification (successMessage c) "success" (Some (successId c)) >>
  reset (formId (crudForm c)).


(** The store and the browser: what a rendering depends on. *)
Definition stored (w : World) : Database * Host := (database w, host w).

(** The four collections and the profile records. *)
Definition dataOf (w : World) : Database * ProfileData := (database w, userProfileData w).

(** The question each delete function asks. *)
Definition deleteQuestion (c : Collection) : list N :=
  match c with
  | Announcements => js "Are you sure you want to delete this announcement?"
  | Events => js "Are you sure you want to delete this event?"
  | Schedules => js "Are you sure you want to delete this schedule?"
  | Users => js "Are you sure you want to delete this user?"
  end.

(** ** Functions of the script that no other function calls *)

Definition toggleMobileMenu : JS unit :=
  let* nav := getElementById "main-nav" in
  let* n := nonNull "main-nav" nav in
  let isExpanded := negb (hasClass "active" n) in
  updateElement "main-nav"
    (if isExpanded then addClass "active" else removeClass "active") >>
  let* menu := gets (fun w => mobileMenu (document w)) in
  nonNull ".mobile-menu" menu >>
  modifyDocument (setMobileMenu (Some (if isExpanded then "true" else "false"))).

Definition handleGetStarted : JS unit :=
  let* user := gets currentUser in
  match user with
  | Some _ => showSection "dashboard"
  | None => showSection "login"
  end.

(** The menu button says "expanded" exactly when the navigation bar carries
    the class [active]. *)
Definition menuInSync (w : World) : Prop :=
  exists nav, byId (document w) !! "main-nav" = Some nav
              /\ mobileMenu (document w)
                 = Some (if bool_decide ("active" ∈ classList nav) then "true" else "false").

(** ** 4. Profile management (second part) *)

(** The two templates of [renderProfile]. *)
Definition profileView (isAdmin : bool) (p : Profile) : list Node :=
  [InfoText (if isAdmin then "Admin ID" else "Student ID") (profileId p);
   InfoText (if isAdmin then "Department" else "Program") (profileUnit isAdmin p);
   InfoText "Phone" (profilePhone p);
   InfoText "Address" (profileAddress p)].

Definition profileEditForm (u : User.t) (isAdmin : bool) (p : Profile) : list Node :=
  [InfoInput "Full Name" "text" "editName" (User.name u);
   InfoInput "Email" "email" "editEmail" (User.email u);
   InfoInput (if isAdmin then "Admin ID" else "Student ID") "text" "editId" (profileId p);
   InfoInput (if isAdmin then "Department" else "Program") "text" "editProgram"
     (profileUnit isAdmin p);
   InfoInput "Phone" "tel" "editPhone" (profilePhone p);
   InfoInput "Address" "text" "editAddress" (profileAddress p)].

(** The strings that [renderProfile] interpolates into its template. *)
Definition profileStrings (editMode : bool) (u : User.t) (p : Profile)
    : list (list N) :=
  let isAdmin := bool_decide (User.type u = js "admin") in
  (if editMode then [User.name u; User.email u] else [])
  ++ [profileId p; profileUnit isAdmin p; profilePhone p; profileAddress p].

(** The interpolated strings stand for themselves in the markup, and the
    email is a value that an input of type [email] keeps as it is (such an
    input strips white space at both ends of its value). *)
Definition plainProfile (editMode : bool) (u : User.t) (p : Profile) : Prop :=
  Forall markupPlain (profileStrings editMode u p)
  /\ (editMode = true -> trim (User.email u) = User.email u).

(** The type names no property of [userProfileData], own or inherited;
    for an inherited name [userProfileData[type]] is not [undefined]. *)
Definition noProfileFor (type : list N) : Prop :=
  type <> js "student" /\ type <> js "admin"
  /\ Forall (fun n => type <> js n) objectPrototypeNames.

Definition setProfileData (p : ProfileData) (w : World) : World :=
  mkWorld (currentUser w) (appState w) (database w) p (document w) (clock w)
    (timers w) (answers w) (asked w) (host w).

(** The [value] of the input with the given id among the nodes that an
    [innerHTML] assignment created. *)
Fixpoint inputValue (id : string) (nodes : list Node) : option (list N) :=
  match nodes with
  | [] => None
  | InfoInput _ _ id' v :: rest =>
      if bool_decide (id' = id) then Some v else inputValue id rest
  | _ :: rest => inputValue id rest
  end.

(** [document.getElementById(id).value.trim()] for an input of the edit
    form: the element of the page with that id when the page has one,
    else the input that [renderProfile(true)] wrote into
    [profileInfoContent], the only place where the script creates inputs. *)
Definition editedValueOf (id : string) : JS (list N) :=
  let* el := getElementById id in
  match el with
  | Some e =>
      let* s := nonNull (id +:+ ".value") (value e) in
      ret (trim s)
  | None =>
      let* info := getElementById "profileInfoContent" in
      let* s := nonNull id (info ≫= fun e => inputValue id (children e)) in
      ret (trim s)
  end.

Record ProfileEdit : Type := mkProfileEdit {
  editName : list N;
  editEmail : list N;
  editId : list N;
  editProgram : list N;
  editPhone : list N;
  editAddress : list N
}.

(** The "Get form values" block of [saveProfile]. *)
Definition profileEdit : JS ProfileEdit :=
  let* name := editedValueOf "editName" in
  let* email := editedValueOf "editEmail" in
  let* id := editedValueOf "editId" in
  let* program := editedValueOf "editProgram" in
  let* phone := editedValueOf "editPhone" in
  let* address := editedValueOf "editAddress" in
  ret (mkProfileEdit name email id program phone address).

(** [!s] for a string. *)
Definition isEmptyString (s : list N) : bool :=
  match s with
  | [] => true
  | _ => false
  end.

(** The five assignments to [userProfileData[type]]; [None] when there is
    no record for the type. *)
Definition updateProfile (d : ProfileData) (type : list N) (e : ProfileEdit)
    : option ProfileData :=
  if bool_decide (type = js "student")
  then Some (mkProfileData
               (StudentProfile.mk (editId e) (editProgram e) (editPhone e)
                  (editAddress e) (editEmail e))
               (admin d))
  else if bool_decide (type = js "admin")
  then Some (mkProfileData (student d)
               (AdminProfile.mk (editId e) (editProgram e) (editPhone e)
                  (editAddress e) (editEmail e)))
  else None.

Definition saveProfile : JS unit :=
  let* user := gets currentUser in
  match user with
  | None => ret tt
  | Some u =>
      let* e := profileEdit in
      if isEmptyString (editName e) || isEmptyString (editEmail e)
         || isEmptyString (editId e) || isEmptyString (editProgram e)
         || isEmptyString (editPhone e) || isEmptyString (editAddress e)
      then showNotification (js "Please fill in all fields") "error" None
      else if negb (validateEmail (editEmail e))
      then showNotification (js "Please enter a valid email address") "error" None
      else
        modify (setCurrentUser (Some (User.mk (editName e) (editEmail e) (User.type u)))) >>
        let* data := gets userProfileData in
        let* data' := nonNull "userProfileData" (updateProfile data (User.type u) e) in
        modify (setProfileData data') >>
        let* h := gets host in
        mutate "userName" (setTextContent (editName e)) >>
        mutate "userAvatar" (setTextContent (generateAvatar h (editName e))) >>
        mutate "profileName" (setTextContent (editName e)) >>
        mutate "profileEmail" (setTextContent (editEmail e)) >>
        mutate "profileAvatar" (setTextContent (generateAvatar h (editName e))) >>
        showNotification (js "Profile updated successfully!") "success" None >>
        renderProfile false
  end.

(** The user edits the input [id] of the rendered edit form. *)
Definition editInput (id : string) (text : string) (w : World) : World :=
  setDocument
    (setById
       (alter
          (fun e =>
             setChildren
               (map (fun n =>
                       match n with
                       | InfoInput label type id' v =>
                           if bool_decide (id' = id)
                           then InfoInput label type id' (js text) else n
                       | _ => n
                       end) (children e)) e)
          "profileInfoContent" (byId (document w))) (document w)) w.

(** The elements [saveProfile] writes to, and the two [renderProfile]
    fills. *)
Definition profileIds : list string :=
  ["userName"; "userAvatar"; "profileName"; "profileEmail"; "profileAvatar";
   "profileInfoContent"; "profileActions"].

Definition profileButtons (editMode : bool) : list Node :=
  if editMode
  then [Button "btn btn-success" "saveProfile()" "fas fa-save" "Save Changes";
        Button "btn btn-outline" "renderProfile(false)" "fas fa-times" "Cancel"]
  else [Button "btn btn-primary" "renderProfile(true)" "fas fa-edit" "Edit Profile";
        Button "btn btn-outline" "showSection('dashboard')" "fas fa-arrow-left"
          "Back to Dashboard"].

(** What [renderProfile] writes into [profileInfoContent]. *)
Definition profileContent (editMode : bool) (u : User.t) (p : Profile) : list Node :=
  let isAdmin := bool_decide (User.type u = js "admin") in
  if editMode then profileEditForm u isAdmin p else profileView isAdmin p.

(** The test [!name || !email || !id || !program || !phone || !address]. *)
Definition anyEmpty (e : ProfileEdit) : bool :=
  isEmptyString (editName e) || isEmptyString (editEmail e)
  || isEmptyString (editId e) || isEmptyString (editProgram e)
  || isEmptyString (editPhone e) || isEmptyString (editAddress e).

(** The user and the store. *)
Definition accountOf (w : World) : option User.t * ProfileData * Database :=
  (currentUser w, userProfileData w, database w).

(** An administrator opens the edit form and changes the phone number. *)
Definition editDraft (phone : string) : World :=
  editInput "editPhone" phone (after (renderProfile true) (adminSession nairobi noonNairobi)).

(** What [saveProfile] reads from [editDraft "  0700 000 000 "]. *)
Definition editDraftData : ProfileEdit :=
  mkProfileEdit (js "Admin User") (js "admin@usiu.ac.ke") (js "ADM001")
    (js "Administration") (js "0700 000 000")
    (js "USIU-Africa, Administration Building").
(* ================================================================== *)
(** * Properties *)
(* ================================================================== *)

(** ** The matcher computes language membership *)

Section RegexFacts.

Lemma Matches_nil_nullable r : Matches r [] -> nullable r = true.
Proof.
  intros H. remember [] as s eqn:Hs.
  induction H; simpl; try reflexivity; try discriminate.
  - apply app_eq_nil in Hs as [-> ->]. rewrite IHMatches1, IHMatches2; auto.
  - rewrite IHMatches; auto.
  - rewrite IHMatches; auto. apply orb_true_r.
Qed.

Lemma nullable_Matches_nil r : nullable r = true -> Matches r [].
Proof.
  induction r; simpl; intros H; try discriminate.
  - constructor.
  - apply andb_true_iff in H as [H1 H2].
    change (@nil N) with (@nil N ++ @nil N). constructor; auto.
  - apply orb_true_iff in H as [H|H]; [apply MAltL | apply MAltR]; auto.
  - constructor.
Qed.

Lemma deriv_sound c r : forall s, Matches (deriv c r) s -> Matches r (c :: s).
Proof.
  induction r; simpl; intros s H.
  - inversion H.
  - inversion H.
  - destruct (p c) eqn:Hp; inversion H; subst. now constructor.
  - inversion H; subst.
    + match goal with Hc : Matches (Cat _ _) _ |- _ => inversion Hc; subst end.
      change (c :: s1 ++ s2) with ((c :: s1) ++ s2). constructor; auto.
    + destruct (nullable r1) eqn:Hn; [|match goal with Hf : Matches Fail _ |- _ => inversion Hf end].
      change (c :: s) with ([] ++ c :: s). constructor; auto.
      now apply nullable_Matches_nil.
  - inversion H; subst; [apply MAltL | apply MAltR]; auto.
  - inversion H; subst.
    change (c :: s1 ++ s2) with ((c :: s1) ++ s2). constructor; auto.
Qed.

Lemma deriv_complete c r s : Matches r (c :: s) -> Matches (deriv c r) s.
Proof.
  intros H. remember (c :: s) as cs eqn:Hcs. revert s Hcs.
  induction H as [|p c0 Hp|r1 r2 s1 s2 H1 IH1 H2 IH2|r1 r2 s0 H0 IH0
                  |r1 r2 s0 H0 IH0|r0|r0 s1 s2 H1 IH1 H2 IH2];
    intros u Hcs; simpl; try discriminate.
  - injection Hcs as -> <-. rewrite Hp. constructor.
  - destruct s1 as [|c1 s1].
    + simpl in Hcs. subst s2. apply MAltR.
      rewrite (Matches_nil_nullable _ H1). auto.
    + injection Hcs as -> <-. apply MAltL. constructor; auto.
  - apply MAltL; auto.
  - apply MAltR; auto.
  - destruct s1 as [|c1 s1].
    + simpl in Hcs. auto.
    + injection Hcs as -> <-. constructor; auto.
Qed.

Lemma test_Matches r s : test r s = true <-> Matches r s.
Proof.
  revert r. induction s as [|c s IH]; intros r; simpl.
  - split; [apply nullable_Matches_nil | apply Matches_nil_nullable].
  - rewrite IH. split; [apply deriv_sound | apply deriv_complete].
Qed.

Lemma Matches_Cat r1 r2 s :
  Matches (Cat r1 r2) s <-> exists s1 s2, s = s1 ++ s2 /\ Matches r1 s1 /\ Matches r2 s2.
Proof.
  split.
  - intros H. inversion H; subst. eauto.
  - intros (s1 & s2 & -> & H1 & H2). now constructor.
Qed.

Lemma Matches_Cls p s : Matches (Cls p) s <-> exists c, s = [c] /\ p c = true.
Proof.
  split.
  - intros H. inversion H; subst. eauto.
  - intros (c & -> & H). now constructor.
Qed.

Lemma Matches_Star_Cls p s :
  Matches (Star (Cls p)) s <-> Forall (fun c => p c = true) s.
Proof.
  split.
  - intros H. remember (Star (Cls p)) as r eqn:Hr.
    induction H; try discriminate.
    + constructor.
    + injection Hr as ->. inversion H; subst. simpl. constructor; auto.
  - induction 1 as [|c s Hc _ IH].
    + constructor.
    + change (c :: s) with ([c] ++ s). constructor; auto. now constructor.
Qed.

Lemma Matches_Plus_Cls p s :
  Matches (Plus (Cls p)) s <-> s <> [] /\ Forall (fun c => p c = true) s.
Proof.
  unfold Plus. rewrite Matches_Cat. split.
  - intros (s1 & s2 & -> & H1 & H2).
    apply Matches_Cls in H1 as (c & -> & Hc). apply Matches_Star_Cls in H2.
    split; [discriminate | constructor; auto].
  - intros [Hne H]. destruct s as [|c s]; [congruence|].
    inversion H; subst. exists [c], s. split; [reflexivity|].
    split; [now constructor | now apply Matches_Star_Cls].
Qed.

Lemma notSpaceAt_true c :
  notSpaceAt c = true <-> isWhiteSpace c = false /\ c <> 64%N.
Proof.
  unfold notSpaceAt. rewrite negb_true_iff, orb_false_iff, N.eqb_neq. tauto.
Qed.

Lemma plain_Plus s : Matches (Plus (Cls notSpaceAt)) s <-> plain s.
Proof.
  rewrite Matches_Plus_Cls. unfold plain.
  split; intros [Hne H]; split; auto;
    eapply Forall_impl; try exact H; intros c Hc; now apply notSpaceAt_true.
Qed.

Lemma validateEmail_shape s : validateEmail s = true <-> emailShape s.
Proof.
  unfold validateEmail, emailShape, emailRe. rewrite test_Matches.
  split.
  - intros H.
    apply Matches_Cat in H as (l & s1 & -> & Hl & H).
    apply Matches_Cat in H as (a & s2 & -> & Ha & H).
    apply Matches_Cat in H as (d & s3 & -> & Hd & H).
    apply Matches_Cat in H as (p & t & -> & Hp & Ht).
    apply Matches_Cls in Ha as (ca & -> & Hca).
    apply Matches_Cls in Hp as (cp & -> & Hcp).
    apply N.eqb_eq in Hca, Hcp. subst.
    exists l, d, t. rewrite plain_Plus in Hl, Hd, Ht. auto.
  - intros (l & d & t & -> & Hl & Hd & Ht).
    rewrite <- plain_Plus in Hl, Hd, Ht.
    repeat (constructor; auto).
Qed.

End RegexFacts.

(** ** validateForm *)

Section ValidateForm.

Variable M : gmap string (list N).

Lemma checkField_lookup (e : gmap string (list N)) (f g : string) :
  checkField M e f !! g =
  if decide (g = f)
  then match fieldError M f with Some m => Some m | None => e !! f end
  else e !! g.
Proof.
  unfold checkField, fieldError.
  generalize (bool_decide (f = "password")) (bool_decide (f = "email"))
    (truthy (M !! f)) (isBlank (M !! f)) (validateEmail (strOf (M !! f)))
    (Z.of_nat (length (strOf (M !! f))) <? 8).
  intros p m t b ve l.
  destruct (decide (g = f)) as [->|Hne].
  - destruct p, m, t, b, ve, l; cbn [andb orb negb];
      rewrite ?lookup_insert_eq; reflexivity.
  - destruct p, m, t, b, ve, l; cbn [andb orb negb];
      rewrite ?lookup_insert_ne by congruence; reflexivity.
Qed.

Lemma foldl_checkField_lookup (R : list string) :
  forall (e : gmap string (list N)) (g : string),
    foldl (checkField M) e R !! g =
    match (if decide (g ∈ R) then fieldError M g else None) with
    | Some m => Some m
    | None => e !! g
    end.
Proof.
  induction R as [|f R IH]; intros e g; simpl.
  - destruct (decide (g ∈ [])) as [Hin|_]; [inversion Hin | reflexivity].
  - rewrite IH, checkField_lookup.
    destruct (decide (g ∈ f :: R)) as [Hin|Hin], (decide (g ∈ R)) as [HR|HR].
    + destruct (decide (g = f)) as [->|Hne];
        destruct (fieldError M _); reflexivity.
    + apply elem_of_cons in Hin as [->|Hin]; [|contradiction].
      rewrite decide_True by reflexivity. reflexivity.
    + exfalso. apply Hin, elem_of_cons. auto.
    + rewrite decide_False; [reflexivity|].
      intros ->. apply Hin, elem_of_cons. auto.
Qed.

Lemma errors_lookup (R : list string) (g : string) :
  errors (validateForm M R) !! g = if decide (g ∈ R) then fieldError M g else None.
Proof.
  unfold validateForm. simpl. rewrite foldl_checkField_lookup, lookup_empty.
  destruct (decide (g ∈ R)); [destruct (fieldError M g)|]; reflexivity.
Qed.

Lemma isValid_errors (R : list string) :
  isValid (validateForm M R) = true <-> errors (validateForm M R) = ∅.
Proof.
  unfold validateForm. simpl. rewrite bool_decide_eq_true. apply map_size_empty_iff.
Qed.

Lemma isValid_fieldError (R : list string) :
  isValid (validateForm M R) = true <-> forall f, f ∈ R -> fieldError M f = None.
Proof.
  rewrite isValid_errors, map_empty.
  split; intros H f.
  - intros Hf. specialize (H f). rewrite errors_lookup in H.
    destruct (decide (f ∈ R)); [assumption | contradiction].
  - rewrite errors_lookup. destruct (decide (f ∈ R)); auto.
Qed.

Lemma truthy_Some (v : option (list N)) :
  truthy v = true <-> exists s, v = Some s /\ s <> [].
Proof.
  destruct v as [[|c s]|]; simpl; split; try discriminate.
  - intros (s & [= <-] & Hs). congruence.
  - intros _. eexists; split; [reflexivity | discriminate].
  - intros (s0 & [= <-] & Hs). reflexivity.
  - intros (s & Hs & _). discriminate.
Qed.

Lemma trim_nil_of_nil : trim [] = [].
Proof. reflexivity. Qed.

Lemma fieldError_None (f : string) :
  fieldError M f = None <->
  nonEmptyTrimmed M f
  /\ (f = "email" -> exists v, M !! f = Some v /\ emailShape v)
  /\ (f = "password" -> exists v, M !! f = Some v /\ (8 <= length v)%nat).
Proof.
  unfold fieldError, nonEmptyTrimmed.
  destruct (M !! f) as [v|] eqn:Hv; simpl.
  2:{ rewrite !andb_false_r. simpl. split; [discriminate|].
      intros [(v & Hv' & _) _]. discriminate. }
  destruct v as [|c v]; simpl.
  { rewrite !andb_false_r. simpl. split; [discriminate|].
    intros [(v & [= <-] & Hne) _]. exfalso. apply Hne. reflexivity. }
  rewrite !andb_true_r.
  destruct (bool_decide (f = "password")) eqn:Hp;
    destruct (bool_decide (f = "email")) eqn:He; simpl;
    try apply bool_decide_eq_true in Hp; try apply bool_decide_eq_true in He;
    try apply bool_decide_eq_false in Hp; try apply bool_decide_eq_false in He;
    try (subst f; discriminate).
  - destruct (Z.of_nat (S (length v)) <? 8) eqn:Hlen.
    + split; [discriminate|]. intros (_ & _ & H3).
      destruct (H3 Hp) as (v' & [= <-] & Hl). simpl in Hl.
      apply Z.ltb_lt in Hlen. lia.
    + apply Z.ltb_ge in Hlen.
      destruct (bool_decide (trim (c :: v) = [])) eqn:Hb.
      * split; [discriminate|]. intros [(v' & [= <-] & Hne) _].
        apply bool_decide_eq_true in Hb. contradiction.
      * apply bool_decide_eq_false in Hb. split; [intros _|reflexivity].
        split; [eauto|]. split; [congruence|].
        intros _. eexists; split; [reflexivity|]. simpl. lia.
  - destruct (validateEmail (c :: v)) eqn:Hm; simpl.
    + apply validateEmail_shape in Hm.
      destruct (bool_decide (trim (c :: v) = [])) eqn:Hb.
      * split; [discriminate|]. intros [(v' & [= <-] & Hne) _].
        apply bool_decide_eq_true in Hb. contradiction.
      * apply bool_decide_eq_false in Hb. split; [intros _|reflexivity].
        split; [eauto|]. split; [eauto | congruence].
    + split; [discriminate|]. intros (_ & H2 & _).
      destruct (H2 He) as (v' & [= <-] & Hs).
      apply validateEmail_shape in Hs. congruence.
  - destruct (bool_decide (trim (c :: v) = [])) eqn:Hb.
    + split; [discriminate|]. intros [(v' & [= <-] & Hne) _].
      apply bool_decide_eq_true in Hb. contradiction.
    + apply bool_decide_eq_false in Hb. split; [intros _|reflexivity].
      split; [eauto|]. split; congruence.
Qed.

Lemma fieldError_offending (f : string) :
  is_Some (fieldError M f) <-> offending M f.
Proof.
  rewrite <- not_eq_None_Some, fieldError_None. unfold offending, nonEmptyTrimmed.
  split.
  - intros H.
    destruct (M !! f) as [v|] eqn:Hv.
    2:{ left. intros (v & Hv' & _). discriminate. }
    destruct (decide (trim v = [])) as [Ht|Ht].
    { left. intros (v' & [= <-] & Hne). contradiction. }
    destruct (decide (f = "email")) as [He|He].
    { destruct (validateEmail v) eqn:Hm.
      - exfalso. apply H. apply validateEmail_shape in Hm.
        split; [eauto|]. split; [eauto|].
        intros Hp. subst f. discriminate.
      - right. left. split; [assumption|]. intros v' [= <-] Hs.
        apply validateEmail_shape in Hs. congruence. }
    destruct (decide (f = "password")) as [Hp|Hp].
    { destruct (decide (length v < 8)%nat) as [Hl|Hl].
      - right. right. split; [assumption|]. intros v' [= <-]. assumption.
      - exfalso. apply H. split; [eauto|].
        split; [congruence|]. intros _. exists v. split; [reflexivity | lia]. }
    exfalso. apply H. split; [eauto|]. split; congruence.
  - intros [H|[[He H]|[Hp H]]] (Hn & H2 & H3).
    + contradiction.
    + destruct (H2 He) as (v & Hv & Hs). exact (H v Hv Hs).
    + destruct (H3 Hp) as (v & Hv & Hl). specialize (H v Hv). lia.
Qed.

End ValidateForm.

Lemma errors_offending (M : gmap string (list N)) (R : list string) (f : string) :
  is_Some (errors (validateForm M R) !! f) <-> f ∈ R /\ offending M f.
Proof.
  rewrite errors_lookup, <- fieldError_offending.
  destruct (decide (f ∈ R)) as [Hin|Hin]; [tauto|].
  split; [intros [x Hx]; discriminate | tauto].
Qed.

(** C1.  For every map of field values [M] and every list of required
    field names [R] that holds no name inherited from [Object.prototype]
    (for such a name [formData[field]] is no string), [validateForm M R]
    is valid exactly when every field of [R] is non-empty after trimming,
    the email (if required) has the shape local@domain.tld and the
    password (if required) has at least 8 code units; and the result holds
    an error message for a field exactly when the field is in [R] and
    offends one of these rules, so that an invalid result carries a
    message for each offending field. *)
Theorem validateForm_isValid_iff (M : gmap string (list N)) (R : list string) :
  ownFields R ->
  (isValid (validateForm M R) = true <->
     (forall f, f ∈ R -> nonEmptyTrimmed M f)
     /\ ("email" ∈ R -> exists v, M !! "email" = Some v /\ emailShape v)
     /\ ("password" ∈ R ->
         exists v, M !! "password" = Some v /\ (8 <= length v)%nat))
  /\ (isValid (validateForm M R) = false ->
      forall f, f ∈ R -> offending M f -> is_Some (errors (validateForm M R) !! f))
  /\ (forall f, is_Some (errors (validateForm M R) !! f) <-> f ∈ R /\ offending M f).
Proof.
  intros _.
  assert (Herr : forall f, is_Some (errors (validateForm M R) !! f) <->
                           f ∈ R /\ offending M f)
    by (intros f; apply errors_offending).
  split; [|split].
  - rewrite isValid_fieldError. split.
    + intros H. split; [|split].
      * intros f Hf. apply (fieldError_None M f). auto.
      * intros Hf. apply (fieldError_None M "email"); auto.
      * intros Hf. apply (fieldError_None M "password"); auto.
    + intros (H1 & H2 & H3) f Hf. apply fieldError_None.
      split; [auto|]. split; intros ->; auto.
  - intros _ f Hf Hoff. apply Herr. auto.
  - exact Herr.
Qed.

(** ** The statement monad *)

Section Monad.

Context {A B : Type}.

Lemma after_bind (m : JS A) (k : A -> JS B) (w : World) (a : A) :
  outcome m w = Normal a ->
  after (bind m k) w = after (k a) (after m w)
  /\ outcome (bind m k) w = outcome (k a) (after m w).
Proof.
  unfold after, outcome, bind. destruct (m w) as [[a'|e] w1]; simpl; intros H.
  - injection H as ->. auto.
  - discriminate.
Qed.

Lemma after_bind_throw (m : JS A) (k : A -> JS B) (w : World) (e : Error) :
  outcome m w = Throw e ->
  after (bind m k) w = after m w /\ outcome (bind m k) w = Throw e.
Proof.
  unfold after, outcome, bind. destruct (m w) as [[a'|e'] w1]; simpl; intros H.
  - discriminate.
  - injection H as ->. auto.
Qed.

Lemma bind_cases (m : JS A) (k : A -> JS B) (w : World) :
  (exists a, outcome m w = Normal a
             /\ after (bind m k) w = after (k a) (after m w)
             /\ outcome (bind m k) w = outcome (k a) (after m w))
  \/ (exists e, outcome m w = Throw e
                /\ after (bind m k) w = after m w
                /\ outcome (bind m k) w = Throw e).
Proof.
  destruct (outcome m w) as [a|e] eqn:H.
  - left. exists a. split; [reflexivity|]. now apply after_bind.
  - right. exists e. split; [reflexivity|]. now apply after_bind_throw.
Qed.

Lemma after_eq (m m' : JS A) (w w' : World) :
  m w = m' w' -> after m w = after m' w' /\ outcome m w = outcome m' w'.
Proof. unfold after, outcome. now intros ->. Qed.

Lemma run_eq (m : JS A) (w : World) : m w = (outcome m w, after m w).
Proof. unfold outcome, after. now destruct (m w). Qed.

End Monad.

(** ** Frame properties *)

Section Frames.

Lemma skel_refl d : skel d d.
Proof. split; [reflexivity | tauto]. Qed.

Lemma skel_trans d1 d2 d3 : skel d1 d2 -> skel d2 d3 -> skel d1 d3.
Proof.
  intros [H1 M1] [H2 M2]. split.
  - intros id. now rewrite H2, H1.
  - tauto.
Qed.

Lemma domRel_refl w : domRel w w.
Proof. split; [now destruct w | apply skel_refl]. Qed.

Lemma domRel_trans w1 w2 w3 : domRel w1 w2 -> domRel w2 w3 -> domRel w1 w3.
Proof.
  intros [E1 S1] [E2 S2]. split.
  - rewrite E2 at 1. rewrite E1 at 1. reflexivity.
  - eapply skel_trans; eassumption.
Qed.

Lemma evolves_refl w : evolves w w.
Proof.
  do 9 (split; [reflexivity|]).
  split; [|apply skel_refl].
  exists []. now rewrite app_nil_r.
Qed.

Lemma evolves_trans w1 w2 w3 : evolves w1 w2 -> evolves w2 w3 -> evolves w1 w3.
Proof.
  intros (a1 & b1 & c1 & d1 & e1 & f1 & g1 & h1 & i1 & [t1 j1] & k1)
         (a2 & b2 & c2 & d2 & e2 & f2 & g2 & h2 & i2 & [t2 j2] & k2).
  do 9 (split; [congruence|]).
  split; [|eapply skel_trans; eassumption].
  exists (t1 ++ t2). rewrite j2, j1. now rewrite app_assoc.
Qed.

Lemma domRel_evolves w w' : domRel w w' -> evolves w w'.
Proof.
  intros [E S]. rewrite E. destruct w; simpl in *.
  do 9 (split; [reflexivity|]).
  split; [|exact S].
  exists []. now rewrite app_nil_r.
Qed.

Context {A B : Type}.

Lemma Dom_bind (m : JS A) (k : A -> JS B) :
  Dom m -> (forall a, Dom (k a)) -> Dom (bind m k).
Proof.
  intros Hm Hk w. destruct (bind_cases m k w) as [(a & _ & E & _)|(e & _ & E & _)];
    rewrite E.
  - eapply domRel_trans; [apply Hm | apply Hk].
  - apply Hm.
Qed.

Lemma Evolves_bind (m : JS A) (k : A -> JS B) :
  Evolves m -> (forall a, Evolves (k a)) -> Evolves (bind m k).
Proof.
  intros Hm Hk w. destruct (bind_cases m k w) as [(a & _ & E & _)|(e & _ & E & _)];
    rewrite E.
  - eapply evolves_trans; [apply Hm | apply Hk].
  - apply Hm.
Qed.

Lemma Dom_Evolves (m : JS A) : Dom m -> Evolves m.
Proof. intros H w. apply domRel_evolves, H. Qed.

Lemma Dom_ret (a : A) : Dom (ret a).
Proof. intros w. apply domRel_refl. Qed.

Lemma Dom_throw (e : Error) : Dom (@throw A e).
Proof. intros w. apply domRel_refl. Qed.

Lemma Dom_gets (f : World -> A) : Dom (gets f).
Proof. intros w. apply domRel_refl. Qed.

Lemma Dom_nonNull (what : string) (o : option A) : Dom (nonNull what o).
Proof. destruct o; [apply Dom_ret | apply Dom_throw]. Qed.

End Frames.

Section DocumentPrimitives.

Lemma skel_alter d id f :
  cosmetic f -> skel d (setById (alter f id (byId d)) d).
Proof.
  intros Hf. split; [|auto]. intros j. simpl.
  rewrite lookup_alter. destruct (decide (id = j)) as [->|Hne]; [|reflexivity].
  destruct (byId d !! j) as [e|]; simpl; [now rewrite Hf | reflexivity].
Qed.

Lemma skel_fmap d (sel : Element -> bool) f :
  cosmetic f ->
  skel d (setById ((fun e => if sel e then f e else e) <$> byId d) d).
Proof.
  intros Hf. split; [|auto]. intros j. simpl.
  rewrite lookup_fmap. destruct (byId d !! j) as [e|]; simpl; [|reflexivity].
  destruct (sel e); [now rewrite Hf | reflexivity].
Qed.

Lemma skel_same_byId d d' :
  byId d' = byId d -> (is_Some (mobileMenu d) -> is_Some (mobileMenu d')) -> skel d d'.
Proof. intros E M. split; [intros id; now rewrite E | exact M]. Qed.

Lemma Dom_modifyDocument f : (forall d, skel d (f d)) -> Dom (modifyDocument f).
Proof.
  intros Hf w. split; [now destruct w | apply Hf].
Qed.

Lemma Dom_getElementById id : Dom (getElementById id).
Proof. apply Dom_gets. Qed.

Lemma Dom_updateElement id f : cosmetic f -> Dom (updateElement id f).
Proof. intros Hf. apply Dom_modifyDocument. intros d. now apply skel_alter. Qed.

Lemma Dom_updateAll sel f : cosmetic f -> Dom (updateAll sel f).
Proof. intros Hf. apply Dom_modifyDocument. intros d. now apply skel_fmap. Qed.

Lemma Dom_updateRef r f : cosmetic f -> Dom (updateRef r f).
Proof.
  intros Hf. destruct r as [id|i]; simpl.
  - now apply Dom_updateElement.
  - apply Dom_modifyDocument. intros d. now apply skel_same_byId.
Qed.

Lemma Dom_mutate id f : cosmetic f -> Dom (mutate id f).
Proof.
  intros Hf. unfold mutate.
  apply Dom_bind; [apply Dom_getElementById | intros el].
  apply Dom_bind; [apply Dom_nonNull | intros _].
  now apply Dom_updateElement.
Qed.

Lemma Dom_forEach {X : Type} (f : X -> JS unit) (l : list X) :
  (forall x, Dom (f x)) -> Dom (forEach f l).
Proof.
  intros Hf. induction l as [|x l IH]; simpl.
  - apply Dom_ret.
  - apply Dom_bind; [apply Hf | intros _; apply IH].
Qed.

Lemma Evolves_forEach {X : Type} (f : X -> JS unit) (l : list X) :
  (forall x, Evolves (f x)) -> Evolves (forEach f l).
Proof.
  intros Hf. induction l as [|x l IH]; simpl.
  - apply Dom_Evolves, Dom_ret.
  - apply Evolves_bind; [apply Hf | intros _; apply IH].
Qed.

Lemma cosmetic_addClass c : cosmetic (addClass c).
Proof. intros e. reflexivity. Qed.

Lemma cosmetic_removeClass c : cosmetic (removeClass c).
Proof. intros e. reflexivity. Qed.

Lemma cosmetic_setClassName cs : cosmetic (setClassName cs).
Proof. intros e. reflexivity. Qed.

Lemma cosmetic_setTextContent s : cosmetic (setTextContent s).
Proof. intros e. reflexivity. Qed.

Lemma cosmetic_setInnerHTML c : cosmetic (setInnerHTML c).
Proof. intros e. reflexivity. Qed.

Lemma cosmetic_appendChild n : cosmetic (appendChild n).
Proof. intros e. reflexivity. Qed.

Lemma cosmetic_compose f g : cosmetic f -> cosmetic g -> cosmetic (fun e => f (g e)).
Proof. intros Hf Hg e. now rewrite Hf, Hg. Qed.

End DocumentPrimitives.

Create HintDb dom.

#[local] Hint Resolve cosmetic_addClass cosmetic_removeClass cosmetic_setClassName
  cosmetic_setTextContent cosmetic_setInnerHTML cosmetic_appendChild
  cosmetic_compose : dom.

#[local] Hint Resolve Dom_getElementById Dom_updateElement Dom_updateAll Dom_updateRef
  Dom_mutate Dom_gets Dom_ret Dom_throw Dom_nonNull : dom.

(** Proves [Dom m] for a statement built from statements known to be [Dom]. *)
Ltac dom :=
  repeat first
    [ solve [auto with dom]
    | apply Dom_bind; [|intros ?]
    | apply Dom_forEach; intros ?
    | apply Dom_modifyDocument; intros ?; apply skel_same_byId; [reflexivity | auto]
    | match goal with
      | |- Dom (match ?x with _ => _ end) => destruct x
      | |- Dom (if ?b then _ else _) => destruct b
      end ].

Section UtilityFrames.

Lemma Dom_clearFormErrors formId : Dom (clearFormErrors formId).
Proof. unfold clearFormErrors. dom. Qed.

Lemma Dom_showFormErrors errs : Dom (showFormErrors errs).
Proof. unfold showFormErrors, showFieldError. dom. Qed.

Lemma Dom_updateActiveNav sectionId : Dom (updateActiveNav sectionId).
Proof. unfold updateActiveNav. dom. Qed.

Lemma Dom_openAdminTab tabName : Dom (openAdminTab tabName).
Proof. unfold openAdminTab. dom. Qed.

End UtilityFrames.

#[local] Hint Resolve Dom_clearFormErrors Dom_showFormErrors Dom_updateActiveNav
  Dom_openAdminTab : dom.

Section UIFrames.

Lemma Dom_updateDashboard : Dom updateDashboard.
Proof. unfold updateDashboard. dom. Qed.

Lemma Dom_updateAuthButtons : Dom updateAuthButtons.
Proof. unfold updateAuthButtons. dom. Qed.

Lemma Dom_renderProfile editMode : Dom (renderProfile editMode).
Proof. unfold renderProfile. dom. Qed.

Lemma Dom_renderAnnouncements : Dom renderAnnouncements.
Proof. unfold renderAnnouncements. dom. Qed.

Lemma Dom_renderEvents : Dom renderEvents.
Proof. unfold renderEvents. dom. Qed.

Lemma Dom_renderSchedules : Dom renderSchedules.
Proof. unfold renderSchedules. dom. Qed.

Lemma Dom_renderUsers : Dom renderUsers.
Proof. unfold renderUsers. dom. Qed.

End UIFrames.

#[local] Hint Resolve Dom_updateDashboard Dom_updateAuthButtons Dom_renderProfile
  Dom_renderAnnouncements Dom_renderEvents Dom_renderSchedules Dom_renderUsers : dom.

Section MoreFrames.

Lemma Dom_onSectionShow sectionId : Dom (onSectionShow sectionId).
Proof. unfold onSectionShow. dom. Qed.

Lemma Dom_showLoggedIn u : Dom (showLoggedIn u).
Proof. unfold showLoggedIn. dom. Qed.

Lemma Evolves_setTimeout cb delay : Evolves (setTimeout cb delay).
Proof.
  intros w. unfold after, setTimeout, modify. simpl.
  do 9 (split; [reflexivity|]). split; [eauto | apply skel_refl].
Qed.

Lemma Evolves_setLoading b : Evolves (setLoading b).
Proof.
  intros w. unfold after, setLoading, bind, modify, modifyDocument. simpl.
  do 9 (split; [reflexivity|]). split; [exists []; now rewrite app_nil_r|].
  now apply skel_same_byId.
Qed.

Lemma Evolves_updateUserActivity : Evolves updateUserActivity.
Proof.
  intros w. unfold after, updateUserActivity, modify. simpl.
  do 9 (split; [reflexivity|]). split; [exists []; now rewrite app_nil_r|].
  apply skel_refl.
Qed.

End MoreFrames.

#[local] Hint Resolve Dom_onSectionShow Dom_showLoggedIn : dom.

Create HintDb evo.

#[local] Hint Resolve Evolves_setTimeout Evolves_setLoading Evolves_updateUserActivity : evo.

(** Proves [Evolves m] for a statement built from [Dom] and [Evolves] parts. *)
Ltac evo :=
  repeat first
    [ solve [auto with evo]
    | solve [apply Dom_Evolves; dom]
    | apply Evolves_bind; [|intros ?]
    | apply Evolves_forEach; intros ?
    | match goal with
      | |- Evolves (match ?x with _ => _ end) => destruct x
      | |- Evolves (if ?b then _ else _) => destruct b
      end ].

Section NotificationFrames.

Lemma Dom_queryNotificationArea : Dom queryNotificationArea.
Proof. apply Dom_gets. Qed.

Lemma Evolves_showNotification message type elementId :
  Evolves (showNotification message type elementId).
Proof.
  unfold showNotification.
  apply Evolves_bind.
  - destruct elementId as [[|c rest]|]; evo.
  - intros element. evo.
Qed.

Lemma showSection_evolves sectionId w :
  evolves (enter sectionId w) (after (showSection sectionId) w).
Proof.
  unfold showSection.
  destruct (after_bind (modify (fun w0 => enter sectionId w0))
              (fun _ =>
                 updateAll (fun e => bool_decide (tagName e = "section")) (addClass "hidden") >>
                 let* targetSection := getElementById sectionId in
                 match targetSection with
                 | Some _ =>
                     updateElement sectionId (removeClass "hidden") >>
                     updateActiveNav sectionId >>
                     onSectionShow sectionId
                 | None => ret tt
                 end >>
                 mutate "main-nav" (removeClass "active") >>
                 let* menu := gets (fun w => mobileMenu (document w)) in
                 nonNull ".mobile-menu" menu >>
                 modifyDocument (setMobileMenu (Some "false")) >>
                 updateUserActivity) w tt eq_refl) as [E _].
  unfold enter in E at 1. rewrite E.
  change (after (modify (fun w0 => enter sectionId w0)) w) with (enter sectionId w).
  match goal with |- evolves ?w0 (after ?m ?w0) => assert (Hm : Evolves m); [|apply Hm] end.
  evo.
Qed.

End NotificationFrames.

#[local] Hint Resolve Evolves_showNotification : evo.

Section ReadOnlyFacts.

Context {A B : Type}.

Lemma ReadOnly_bind (m : JS A) (k : A -> JS B) :
  ReadOnly m -> (forall a, ReadOnly (k a)) -> ReadOnly (bind m k).
Proof.
  intros Hm Hk w. destruct (bind_cases m k w) as [(a & _ & E & _)|(e & _ & E & _)];
    rewrite E.
  - rewrite Hm. apply Hk.
  - apply Hm.
Qed.

Lemma ReadOnly_ret (a : A) : ReadOnly (ret a).
Proof. intros w. reflexivity. Qed.

Lemma ReadOnly_gets (f : World -> A) : ReadOnly (gets f).
Proof. intros w. reflexivity. Qed.

Lemma ReadOnly_nonNull what (o : option A) : ReadOnly (nonNull what o).
Proof. destruct o; intros w; reflexivity. Qed.

End ReadOnlyFacts.

Section FormReading.

Lemma ReadOnly_valueOf id : ReadOnly (valueOf id).
Proof.
  unfold valueOf. apply ReadOnly_bind; [apply ReadOnly_gets | intros el].
  apply ReadOnly_bind; [apply ReadOnly_nonNull | intros e]. apply ReadOnly_ret.
Qed.

Lemma ReadOnly_trimmedValueOf id : ReadOnly (trimmedValueOf id).
Proof.
  unfold trimmedValueOf. apply ReadOnly_bind; [apply ReadOnly_valueOf | intros v].
  apply ReadOnly_bind; [apply ReadOnly_nonNull | intros e]. apply ReadOnly_ret.
Qed.

Lemma ReadOnly_formData f : ReadOnly (formData f).
Proof.
  destruct f;
    cbv [formData loginFormData registerFormData announcementFormData eventFormData
           scheduleFormData userFormData];
    repeat first [ apply ReadOnly_trimmedValueOf
                 | apply ReadOnly_valueOf
                 | apply ReadOnly_ret
                 | apply ReadOnly_bind; [|intros ?] ].
Qed.

(** What a form reads depends on the skeleton of the document only. *)
Lemma valueOf_skel id w w' :
  skel (document w) (document w') -> outcome (valueOf id) w' = outcome (valueOf id) w.
Proof.
  intros [H _]. specialize (H id). unfold outcome, valueOf, bind, getElementById, gets.
  simpl. destruct (byId (document w') !! id) as [e'|], (byId (document w) !! id) as [e|];
    simpl in *; try discriminate; [|reflexivity].
  injection H as _ _ _ Hv. now rewrite Hv.
Qed.

Lemma trimmedValueOf_skel id w w' :
  skel (document w) (document w') ->
  outcome (trimmedValueOf id) w' = outcome (trimmedValueOf id) w.
Proof.
  intros H. unfold trimmedValueOf.
  destruct (bind_cases (valueOf id) (fun v => let* s := nonNull (id +:+ ".value") v in ret (trim s)) w)
    as [(a & Ea & _ & ->)|(e & Ee & _ & ->)];
    destruct (bind_cases (valueOf id) (fun v => let* s := nonNull (id +:+ ".value") v in ret (trim s)) w')
    as [(a' & Ea' & _ & ->)|(e' & Ee' & _ & ->)];
    rewrite (valueOf_skel id w w' H) in *; try congruence.
  rewrite !ReadOnly_valueOf. assert (a' = a) as -> by congruence.
  destruct a; reflexivity.
Qed.

End FormReading.

Section FormReadingSkel.

Lemma outcome_bind_congr {A B : Type} (m : JS A) (k : A -> JS B) w w' :
  ReadOnly m ->
  outcome m w' = outcome m w ->
  (forall a, outcome (k a) w' = outcome (k a) w) ->
  outcome (bind m k) w' = outcome (bind m k) w.
Proof.
  intros Hro Hm Hk.
  destruct (bind_cases m k w) as [(a & Ea & _ & ->)|(e & Ee & _ & ->)];
    destruct (bind_cases m k w') as [(a' & Ea' & _ & ->)|(e' & Ee' & _ & ->)];
    try congruence.
Qed.

Lemma readForm_skel f w w' :
  skel (document w) (document w') -> readForm f w' = readForm f w.
Proof.
  intros H. unfold readForm. change (outcome (formData f) w' = outcome (formData f) w).
  destruct f;
    cbv [formData loginFormData registerFormData announcementFormData eventFormData
           scheduleFormData userFormData];
    repeat first
      [ reflexivity
      | apply outcome_bind_congr;
        [ first [apply ReadOnly_trimmedValueOf | apply ReadOnly_valueOf]
        | first [now apply trimmedValueOf_skel | now apply valueOf_skel]
        | intros ? ] ].
Qed.

End FormReadingSkel.

(** ** Statements that never throw, statements that keep the store *)

Section TotalStore.

Context {A B : Type}.

Lemma Total_bind (m : JS A) (k : A -> JS B) :
  Total m -> (forall a, Total (k a)) -> Total (bind m k).
Proof.
  intros Hm Hk w. destruct (Hm w) as [a Ha].
  destruct (after_bind m k w a Ha) as [_ E]. unfold ok. rewrite E. apply Hk.
Qed.

Lemma Total_ret (a : A) : Total (ret a).
Proof. intros w. now exists a. Qed.

Lemma Total_gets (f : World -> A) : Total (gets f).
Proof. intros w. now exists (f w). Qed.

Lemma Total_modify f : Total (modify f).
Proof. intros w. now exists tt. Qed.

Lemma Store_bind (m : JS A) (k : A -> JS B) :
  Store m -> (forall a, Store (k a)) -> Store (bind m k).
Proof.
  intros Hm Hk w. destruct (bind_cases m k w) as [(a & _ & E & _)|(e & _ & E & _)];
    rewrite E.
  - destruct (Hm w) as (a1 & b1 & c1), (Hk a (after m w)) as (a2 & b2 & c2).
    repeat split; congruence.
  - apply Hm.
Qed.

Lemma Evolves_Store (m : JS A) : Evolves m -> Store m.
Proof. intros H w. destruct (H w) as (a & b & c & _). now repeat split. Qed.

Lemma total_unit (m : JS unit) w : Total m -> outcome m w = Normal tt.
Proof. intros H. destruct (H w) as [[] E]. exact E. Qed.

End TotalStore.

Lemma Total_forEach {X : Type} (f : X -> JS unit) (l : list X) :
  (forall x, Total (f x)) -> Total (forEach f l).
Proof.
  intros Hf. induction l as [|x l IH]; simpl.
  - apply Total_ret.
  - apply Total_bind; [apply Hf | intros _; apply IH].
Qed.

Lemma Total_modifyDocument f : Total (modifyDocument f).
Proof. apply Total_modify. Qed.

Lemma Total_updateElement id f : Total (updateElement id f).
Proof. apply Total_modify. Qed.

Lemma Total_updateAll sel f : Total (updateAll sel f).
Proof. apply Total_modify. Qed.

Lemma Total_updateRef r f : Total (updateRef r f).
Proof. destruct r; apply Total_modify. Qed.

Lemma Total_getElementById id : Total (getElementById id).
Proof. apply Total_gets. Qed.

Lemma Total_setTimeout cb delay : Total (setTimeout cb delay).
Proof. apply Total_modify. Qed.

Create HintDb total.

#[local] Hint Resolve Total_ret Total_gets Total_modify Total_modifyDocument
  Total_updateElement Total_updateAll Total_updateRef Total_getElementById
  Total_setTimeout : total.

(** Proves [Total m] for a statement without an unguarded dereference. *)
Ltac total :=
  repeat first
    [ solve [auto with total]
    | apply Total_bind; [|intros ?]
    | apply Total_forEach; intros ?
    | match goal with
      | |- Total (match ?x with _ => _ end) => destruct x
      | |- Total (if ?b then _ else _) => destruct b
      end ].

Section TotalFunctions.

Lemma Total_showNotification message type elementId :
  Total (showNotification message type elementId).
Proof.
  unfold showNotification. apply Total_bind.
  - destruct elementId as [[|c rest]|]; unfold queryNotificationArea; total.
  - intros element. total.
Qed.

Lemma Total_clearFormErrors formId : Total (clearFormErrors formId).
Proof. unfold clearFormErrors. total. Qed.

Lemma Total_showFieldError errs field : Total (showFieldError errs field).
Proof. unfold showFieldError. total. Qed.

Lemma Total_showFormErrors errs : Total (showFormErrors errs).
Proof. unfold showFormErrors. apply Total_forEach. apply Total_showFieldError. Qed.

Lemma Total_renderAnnouncements : Total renderAnnouncements.
Proof. unfold renderAnnouncements. total. Qed.

Lemma Total_renderEvents : Total renderEvents.
Proof. unfold renderEvents. total. Qed.

Lemma Total_renderSchedules : Total renderSchedules.
Proof. unfold renderSchedules. total. Qed.

Lemma Total_renderUsers : Total renderUsers.
Proof. unfold renderUsers. total. Qed.

Lemma Total_setLoading b : Total (setLoading b).
Proof. unfold setLoading. total. Qed.

Lemma Total_updateActiveNav sectionId : Total (updateActiveNav sectionId).
Proof. unfold updateActiveNav. total. Qed.

Lemma Total_openAdminTab tabName : Total (openAdminTab tabName).
Proof. unfold openAdminTab. total. Qed.

Lemma Store_reset formId : Store (reset formId).
Proof.
  intros w. unfold after, reset, bind, getElementById, gets, nonNull. simpl.
  destruct (byId (document w) !! formId) as [f|]; simpl; [|now repeat split].
  destruct (bool_decide (tagName f = "form")); simpl; now repeat split.
Qed.

End TotalFunctions.

#[local] Hint Resolve Total_showNotification Total_clearFormErrors Total_showFormErrors
  Total_renderAnnouncements Total_renderEvents Total_renderSchedules Total_renderUsers
  Total_setLoading Total_updateActiveNav Total_openAdminTab : total.

(** ** Deleting by id *)

Section Delete.

Lemma map_filter_id {X : Type} (f : X -> Record) (g : X -> Z) (id : Z) (l : list X) :
  (forall x, recordId (f x) = g x) ->
  map f (filter (fun x => g x ≠ id) l) = filter (fun r => recordId r ≠ id) (map f l).
Proof.
  intros Hg. induction l as [|x l IH]; [reflexivity|]. simpl.
  rewrite !filter_cons.
  destruct (decide (g x ≠ id)) as [H|H], (decide (recordId (f x) ≠ id)) as [H'|H'];
    rewrite Hg in H'; try contradiction; simpl; now rewrite IH.
Qed.

Lemma filter_absent (id : Z) (l : list Record) :
  id ∉ map recordId l -> filter (fun r => recordId r ≠ id) l = l.
Proof.
  induction l as [|r l IH]; [reflexivity|]. simpl. intros Hn.
  rewrite filter_cons. rewrite decide_True.
  - rewrite IH; [reflexivity|]. intros Hin. apply Hn. now right.
  - intros E. apply Hn. rewrite E. now left.
Qed.

Lemma filter_unique (id : Z) (l : list Record) :
  NoDup (map recordId l) -> id ∈ map recordId l ->
  removesExactlyOne l (filter (fun r => recordId r ≠ id) l) id.
Proof.
  induction l as [|r l IH]; simpl; intros Hnd Hin.
  - inversion Hin.
  - apply NoDup_cons in Hnd as [Hr Hnd]. rewrite filter_cons.
    destruct (decide (recordId r ≠ id)) as [Hne|He].
    + apply elem_of_cons in Hin as [->|Hin]; [congruence|].
      destruct (IH Hnd Hin) as (l1 & x & l2 & -> & Hx & E).
      exists (r :: l1), x, l2. rewrite E. auto.
    + assert (recordId r = id) as E by (destruct (decide (recordId r = id)); tauto).
      exists [], r, l. split; [reflexivity|]. split; [assumption|].
      simpl. apply filter_absent. now rewrite <- E.
Qed.

Lemma confirm_yes message w rest :
  answers w = true :: rest ->
  confirm message w = (Normal true, setDialog rest (asked w ++ [message]) w).
Proof. intros H. unfold confirm. now rewrite H. Qed.

Lemma confirm_no message w rest :
  answers w = false :: rest ->
  confirm message w = (Normal false, setDialog rest (asked w ++ [message]) w).
Proof. intros H. unfold confirm. now rewrite H. Qed.

Lemma confirmed message (body : JS unit) w rest :
  answers w = true :: rest ->
  (let* yes := confirm message in if yes then body else ret tt) w
  = body (setDialog rest (asked w ++ [message]) w).
Proof. intros H. unfold bind. now rewrite (confirm_yes _ _ _ H). Qed.

Lemma declined message (body : JS unit) w rest :
  answers w = false :: rest ->
  (let* yes := confirm message in if yes then body else ret tt) w
  = (Normal tt, setDialog rest (asked w ++ [message]) w).
Proof. intros H. unfold bind. now rewrite (confirm_no _ _ _ H). Qed.

(** After the confirmation, each delete function assigns the filtered
    collection, renders and notifies; the last two keep the store. *)
Lemma delete_tail (render : JS unit) message (g : World -> World) w :
  Dom render -> Total render ->
  let m := modify g >> render >> showNotification message "success" None in
  outcome m w = Normal tt /\ database (after m w) = database (g w).
Proof.
  intros Hd Ht m.
  assert (Hm : Total m) by (unfold m; total; apply Ht).
  split; [now apply total_unit|].
  unfold m. destruct (after_bind (modify g)
                        (fun _ => render >> showNotification message "success" None)
                        w tt eq_refl) as [-> _].
  change (after (modify g) w) with (g w).
  assert (He : Evolves (render >> showNotification message "success" None)) by evo.
  apply (He (g w)).
Qed.

End Delete.

(** C2 (amended).  With the confirmation accepted, deleting by id removes
    from the collection every record whose id equals the given id and
    nothing else, keeps the remaining records in their order, and leaves
    the other collections alone.  So no record is removed when the id is
    absent, and exactly one is removed when the id is present and the ids
    of the collection are pairwise distinct. *)
Theorem deleteById_removes_matching (c : Collection) (id : Z) (w : World)
    (rest : list bool) :
  answers w = true :: rest ->
  let w' := after (deleteById c id) w in
  outcome (deleteById c id) w = Normal tt
  /\ records c w' = filter (fun r => recordId r ≠ id) (records c w)
  /\ sublist (records c w') (records c w)
  /\ (forall c', c' <> c -> records c' w' = records c' w)
  /\ (id ∉ ids c w -> records c w' = records c w)
  /\ (NoDup (ids c w) -> id ∈ ids c w ->
      removesExactlyOne (records c w) (records c w') id).
Proof.
  intros Hyes w'.
  assert (Hkey : outcome (deleteById c id) w = Normal tt
                 /\ records c w' = filter (fun r => recordId r ≠ id) (records c w)
                 /\ (forall c', c' <> c -> records c' w' = records c' w)).
  { subst w'. unfold after, outcome.
    destruct c; simpl deleteById;
      [ unfold deleteAnnouncement | unfold deleteEvent
      | unfold deleteSchedule | unfold deleteUser ];
      rewrite (confirmed _ _ _ _ Hyes);
      match goal with
      | |- context [bind (modify ?g) (fun _ => bind ?r (fun _ => showNotification ?msg _ _)) ?w0] =>
          destruct (delete_tail r msg g w0) as [Ho Hdb];
          [auto with dom | auto with total |]
      end;
      unfold after, outcome in Ho, Hdb;
      (split; [exact Ho|]);
      unfold records; rewrite Hdb; simpl;
      (split; [ now apply map_filter_id
              | intros c' Hc'; destruct c'; try reflexivity; congruence ]). }
  destruct Hkey as (Ho & Hrec & Hoth).
  split; [exact Ho|]. split; [exact Hrec|].
  split; [rewrite Hrec; apply sublist_filter|].
  split; [exact Hoth|].
  split.
  - intros Hn. rewrite Hrec. now apply filter_absent.
  - intros Hnd Hin. rewrite Hrec. now apply filter_unique.
Qed.

(** ** The submit handlers *)

Section Handlers.

Lemma after_gets {A B : Type} (f : World -> A) (k : A -> JS B) w :
  after (bind (gets f) k) w = after (k (f w)) w.
Proof. reflexivity. Qed.

Lemma outcome_gets {A B : Type} (f : World -> A) (k : A -> JS B) w :
  outcome (bind (gets f) k) w = outcome (k (f w)) w.
Proof. reflexivity. Qed.

Lemma after_modify {B : Type} (g : World -> World) (k : unit -> JS B) w :
  after (bind (modify g) k) w = after (k tt) (g w).
Proof. reflexivity. Qed.

Lemma outcome_modify {B : Type} (g : World -> World) (k : unit -> JS B) w :
  outcome (bind (modify g) k) w = outcome (k tt) (g w).
Proof. reflexivity. Qed.

Lemma after_ret {A B : Type} (a : A) (k : A -> JS B) w :
  after (bind (ret a) k) w = after (k a) w.
Proof. reflexivity. Qed.

Lemma outcome_ret {A B : Type} (a : A) (k : A -> JS B) w :
  outcome (bind (ret a) k) w = outcome (k a) w.
Proof. reflexivity. Qed.

Lemma domRel_fields w w' :
  domRel w w' ->
  currentUser w' = currentUser w /\ database w' = database w
  /\ userProfileData w' = userProfileData w /\ appState w' = appState w
  /\ clock w' = clock w /\ timers w' = timers w /\ answers w' = answers w
  /\ asked w' = asked w /\ host w' = host w.
Proof. intros [E _]. rewrite E. now repeat split. Qed.

(** The common head of the six handlers: the old error texts are cleared
    and the form is read; clearing does not change what is read. *)
Lemma handler_head (f : Form) {X : Type} (K : gmap string (list N) -> JS X) w fd :
  readForm f w = Normal fd ->
  let w1 := after (clearFormErrors (formId f)) w in
  domRel w w1
  /\ after (clearFormErrors (formId f) >> let* formData := formData f in K formData) w
     = after (K fd) w1
  /\ outcome (clearFormErrors (formId f) >> let* formData := formData f in K formData) w
     = outcome (K fd) w1.
Proof.
  intros Hread w1.
  assert (Hdom : domRel w w1) by apply Dom_clearFormErrors.
  split; [exact Hdom|].
  destruct (after_bind (clearFormErrors (formId f))
              (fun _ => let* formData := formData f in K formData) w tt
              (total_unit _ _ (Total_clearFormErrors _))) as [-> ->].
  cbv beta. fold w1.
  assert (Hread1 : outcome (formData f) w1 = Normal fd).
  { change (readForm f w1 = Normal fd). rewrite (readForm_skel f w w1); [exact Hread|].
    apply Hdom. }
  destruct (after_bind (formData f) K w1 fd Hread1) as [E1 E2].
  rewrite ReadOnly_formData in E1, E2. split; [exact E1 | exact E2].
Qed.

Lemma Store_tail (render : JS unit) message elementId formId :
  Dom render ->
  Store (render >> showNotification message "success" elementId >> reset formId).
Proof.
  intros Hr. apply Store_bind; [apply Evolves_Store, Dom_Evolves, Hr | intros _].
  apply Store_bind; [apply Evolves_Store, Evolves_showNotification | intros _].
  apply Store_reset.
Qed.

Lemma validates_email f fd :
  validates f fd = true -> "email" ∈ requiredFields f ->
  validateEmail (prop fd "email") = true.
Proof.
  unfold validates. rewrite isValid_fieldError. intros H Hin.
  apply H in Hin. apply fieldError_None in Hin as (_ & He & _).
  destruct (He eq_refl) as (v & Hv & Hs). unfold prop. rewrite Hv. simpl.
  now apply validateEmail_shape.
Qed.

End Handlers.

(** Opens a handler: names the world [w1] after the head and rewrites the
    goal to the body of the handler run on the form data. *)
Ltac open_handler f Hread w1 Hdom :=
  match goal with
  | |- context [bind (clearFormErrors _) (fun _ => bind _ ?K)] =>
      let Ha := fresh "Hafter" in
      let Ho := fresh "Hout" in
      destruct (handler_head f K _ _ Hread) as (Hdom & Ha & Ho);
      cbv [formId formData] in Ha, Ho;
      rewrite ?Ha, ?Ho; clear Ha Ho;
      set (w1 := after (clearFormErrors _) _) in *
  end.

(** C4 (amended).  A submission of a CRUD form that passes validation (for
    the event form also the date rule; for the announcement and event
    forms with a user logged in) puts the new record at index 0 of its
    collection, in front of the records stored before, which keep their
    order; the other collections are untouched.  The id of the new record
    is the clock reading at submission: it is distinct from the ids
    already stored whenever no stored id equals that reading, and then
    pairwise distinct ids stay pairwise distinct. *)
Theorem submit_inserts_at_front (c : Collection) (w : World)
    (fd : gmap string (list N)) :
  readForm (crudForm c) w = Normal fd ->
  validates (crudForm c) fd = true ->
  (c = Events -> dateInPast w fd = false) ->
  (c = Announcements \/ c = Events -> is_Some (currentUser w)) ->
  let w' := after (submit (crudForm c)) w in
  (exists r, records c w' = r :: records c w /\ recordId r = clock w)
  /\ (forall c', c' <> c -> records c' w' = records c' w)
  /\ (clock w ∉ ids c w -> NoDup (ids c w) -> NoDup (ids c w')).
Proof.
  intros Hread Hvalid Hdate Huser w'.
  assert (Hkey : (exists r, records c w' = r :: records c w /\ recordId r = clock w)
                 /\ (forall c', c' <> c -> records c' w' = records c' w)).
  { subst w'. destruct c; cbv [crudForm submit] in *.
    - unfold announcementSubmit. open_handler AnnouncementForm Hread w1 Hdom.
      apply domRel_fields in Hdom as (Hu & Hdb & _ & _ & Hclock & _).
      cbv [validates requiredFields] in Hvalid. cbv zeta. rewrite Hvalid.
      cbn [negb]. unfold dateNow. rewrite !after_gets.
      destruct Huser as [u Hu']; [auto|]. rewrite Hu, Hu'. cbn [nonNull].
      rewrite after_ret, after_modify.
      match goal with
      | |- context [after ?T ?w2] =>
          destruct (Store_tail renderAnnouncements
                      (js "Announcement posted successfully!")
                      (Some "announcementSuccessMessage") "announcementForm"
                      Dom_renderAnnouncements w2) as (_ & Hdb2 & _)
      end.
      unfold records. rewrite Hdb2. simpl. rewrite Hdb, Hclock.
      split; [eexists; split; [reflexivity|reflexivity]|].
      intros c' Hc'; destruct c'; try reflexivity; congruence.
    - unfold eventSubmit. open_handler EventForm Hread w1 Hdom.
      apply domRel_fields in Hdom as (Hu & Hdb & _ & _ & Hclock & _ & _ & _ & Hhost).
      cbv [validates requiredFields] in Hvalid. cbv zeta. rewrite Hvalid.
      cbn [negb]. unfold dateNow. rewrite !after_gets.
      specialize (Hdate eq_refl). unfold dateInPast in Hdate.
      rewrite Hhost, Hclock, Hdate.
      rewrite !after_gets.
      destruct Huser as [u Hu']; [auto|]. rewrite Hu, Hu'. cbn [nonNull].
      rewrite after_ret, after_modify.
      match goal with
      | |- context [after ?T ?w2] =>
          destruct (Store_tail renderEvents (js "Event added successfully!")
                      (Some "eventSuccessMessage") "eventForm"
                      Dom_renderEvents w2) as (_ & Hdb2 & _)
      end.
      unfold records. rewrite Hdb2. simpl. rewrite Hdb, Hclock.
      split; [eexists; split; [reflexivity|reflexivity]|].
      intros c' Hc'; destruct c'; try reflexivity; congruence.
    - unfold scheduleSubmit. open_handler ScheduleForm Hread w1 Hdom.
      apply domRel_fields in Hdom as (Hu & Hdb & _ & _ & Hclock & _).
      cbv [validates requiredFields] in Hvalid. cbv zeta. rewrite Hvalid.
      cbn [negb]. unfold dateNow. rewrite !after_gets, after_modify.
      match goal with
      | |- context [after ?T ?w2] =>
          destruct (Store_tail renderSchedules (js "Schedule updated successfully!")
                      (Some "scheduleSuccessMessage") "scheduleForm"
                      Dom_renderSchedules w2) as (_ & Hdb2 & _)
      end.
      unfold records. rewrite Hdb2. simpl. rewrite Hdb, Hclock.
      split; [eexists; split; [reflexivity|reflexivity]|].
      intros c' Hc'; destruct c'; try reflexivity; congruence.
    - unfold userSubmit. open_handler UserForm Hread w1 Hdom.
      apply domRel_fields in Hdom as (Hu & Hdb & _ & _ & Hclock & _).
      pose proof (validates_email UserForm fd Hvalid) as Hmail.
      cbv [validates requiredFields] in Hvalid. cbv zeta. rewrite Hvalid.
      rewrite Hmail by (cbn; set_solver).
      cbn [negb]. unfold dateNow. rewrite !after_gets, after_modify.
      match goal with
      | |- context [after ?T ?w2] =>
          destruct (Store_tail renderUsers (js "User added successfully!")
                      (Some "userSuccessMessage") "userForm"
                      Dom_renderUsers w2) as (_ & Hdb2 & _)
      end.
      unfold records. rewrite Hdb2. simpl. rewrite Hdb, Hclock.
      split; [eexists; split; [reflexivity|reflexivity]|].
      intros c' Hc'; destruct c'; try reflexivity; congruence. }
  destruct Hkey as ((r & Hr & Hid) & Hoth).
  split; [eauto|]. split; [exact Hoth|].
  intros Hfresh Hnd. unfold ids. rewrite Hr. simpl. rewrite Hid.
  apply NoDup_cons. auto.
Qed.

(** ** Validation failures *)

Section Failures.

Lemma append_length (a b : string) :
  String.length (a +:+ b) = (String.length a + String.length b)%nat.
Proof.
  induction a as [|c a IH]; [reflexivity|].
  change (S (String.length (a +:+ b)) = S (String.length a + String.length b)).
  now rewrite IH.
Qed.

Lemma append_inj_suffix (s : string) : forall a b, a +:+ s = b +:+ s -> a = b.
Proof.
  induction a as [|c a IH]; intros [|d b] H; simpl in *.
  - reflexivity.
  - apply (f_equal String.length) in H. rewrite !append_length in H. simpl in H. lia.
  - apply (f_equal String.length) in H. rewrite !append_length in H. simpl in H. lia.
  - change (String c (a +:+ s) = String d (b +:+ s)) in H.
    injection H as -> H. f_equal. now apply IH.
Qed.

Lemma showFieldError_lookup errs field w j :
  byId (document (after (showFieldError errs field) w)) !! j =
  if decide (j = field +:+ "Error")
  then (fun e => removeClass "hidden" (setTextContent (strOf (errs !! field)) e))
         <$> byId (document w) !! j
  else byId (document w) !! j.
Proof.
  unfold after, showFieldError, bind, getElementById, gets, updateElement,
    modifyDocument, modify. simpl.
  destruct (byId (document w) !! (field +:+ "Error")) as [e|] eqn:He; simpl.
  - destruct (decide (j = field +:+ "Error")) as [->|Hne].
    + rewrite !lookup_alter_eq, He. reflexivity.
    + rewrite !lookup_alter_ne by congruence. reflexivity.
  - destruct (decide (j = field +:+ "Error")) as [->|Hne]; [|reflexivity].
    now rewrite He.
Qed.

Lemma forEach_cons_after {X : Type} (f : X -> JS unit) x l w :
  Total (f x) ->
  after (forEach f (x :: l)) w = after (forEach f l) (after (f x) w).
Proof.
  intros Ht. simpl.
  destruct (after_bind (f x) (fun _ => forEach f l) w tt (total_unit _ _ Ht)) as [E _].
  exact E.
Qed.

Lemma showFieldErrors_untouched errs l : forall w j,
  (forall g, g ∈ l -> g +:+ "Error" <> j) ->
  byId (document (after (forEach (showFieldError errs) l) w)) !! j
  = byId (document w) !! j.
Proof.
  induction l as [|x l IH]; intros w j Hj; [reflexivity|].
  rewrite forEach_cons_after by apply Total_showFieldError.
  rewrite IH by (intros g Hg; apply Hj; now right).
  rewrite showFieldError_lookup. rewrite decide_False; [reflexivity|].
  intros ->. apply (Hj x); [now left | reflexivity].
Qed.

Lemma showFieldErrors_surfaces errs l : forall w field e,
  NoDup l -> field ∈ l ->
  byId (document w) !! (field +:+ "Error") = Some e ->
  byId (document (after (forEach (showFieldError errs) l) w)) !! (field +:+ "Error")
  = Some (removeClass "hidden" (setTextContent (strOf (errs !! field)) e)).
Proof.
  induction l as [|x l IH]; intros w field e Hnd Hin He; [inversion Hin|].
  apply NoDup_cons in Hnd as [Hx Hnd].
  rewrite forEach_cons_after by apply Total_showFieldError.
  destruct (decide (x = field)) as [->|Hne].
  - rewrite showFieldErrors_untouched.
    + rewrite showFieldError_lookup, decide_True by reflexivity. now rewrite He.
    + intros g Hg E. apply append_inj_suffix in E. congruence.
  - apply elem_of_cons in Hin as [->|Hin]; [congruence|].
    apply IH; [assumption | assumption |].
    rewrite showFieldError_lookup, decide_False; [exact He|].
    intros E. apply append_inj_suffix in E. congruence.
Qed.

Lemma elem_of_keys (errs : gmap string (list N)) field :
  field ∈ keys errs <-> is_Some (errs !! field).
Proof.
  unfold keys. change (map fst (map_to_list errs)) with ((map_to_list errs).*1).
  rewrite list_elem_of_fmap. split.
  - intros ([k v] & -> & H). apply elem_of_map_to_list in H. simpl. eauto.
  - intros [v H]. exists (field, v). split; [reflexivity|].
    now apply elem_of_map_to_list.
Qed.

Lemma showFormErrors_surfaces errs w field msg e :
  errs !! field = Some msg ->
  byId (document w) !! (field +:+ "Error") = Some e ->
  byId (document (after (showFormErrors errs) w)) !! (field +:+ "Error")
  = Some (removeClass "hidden" (setTextContent msg e)).
Proof.
  intros Hm He. unfold showFormErrors.
  rewrite (showFieldErrors_surfaces errs (keys errs) w field e).
  - now rewrite Hm.
  - apply NoDup_fst_map_to_list.
  - apply elem_of_keys. eauto.
  - exact He.
Qed.

Lemma errors_nonempty M R field msg :
  errors (validateForm M R) !! field = Some msg -> msg <> [].
Proof.
  rewrite errors_lookup. destruct (decide (field ∈ R)); [|discriminate].
  unfold fieldError.
  repeat match goal with
         | |- context [if ?b then _ else _] => destruct b
         end; intros [= <-]; try discriminate.
  intros H. apply app_eq_nil in H as [_ H]. discriminate.
Qed.

Lemma isValid_false_errors f fd :
  validates f fd = false ->
  negb (isValid (validateForm fd (requiredFields f))) = true.
Proof. unfold validates. now intros ->. Qed.

End Failures.

(** C10.  The announcement and event handlers read [currentUser.name]
    without a guard: when no user is logged in, a submission of either form
    that passes validation (and, for the event form, the date rule) ends in
    an uncaught [TypeError] at that read, and no record is stored. *)
Theorem creation_dereferences_absent_user (c : Collection) (w : World)
    (fd : gmap string (list N)) :
  c = Announcements \/ c = Events ->
  currentUser w = None ->
  readForm (crudForm c) w = Normal fd ->
  validates (crudForm c) fd = true ->
  (c = Events -> dateInPast w fd = false) ->
  outcome (submit (crudForm c)) w = Throw (TypeError "currentUser")
  /\ database (after (submit (crudForm c)) w) = database w.
Proof.
  intros Hc Hnone Hread Hvalid Hdate.
  destruct Hc as [-> | ->]; cbv [crudForm submit] in *.
  - unfold announcementSubmit. open_handler AnnouncementForm Hread w1 Hdom.
    apply domRel_fields in Hdom as (Hu & Hdb & _ & _ & Hclock & _).
    cbv [validates requiredFields] in Hvalid. cbv zeta. rewrite Hvalid.
    cbn [negb]. unfold dateNow. rewrite !after_gets, !outcome_gets.
    rewrite Hu, Hnone. cbn [nonNull]. split; [reflexivity | exact Hdb].
  - unfold eventSubmit. open_handler EventForm Hread w1 Hdom.
    apply domRel_fields in Hdom as (Hu & Hdb & _ & _ & Hclock & _ & _ & _ & Hhost).
    cbv [validates requiredFields] in Hvalid. cbv zeta. rewrite Hvalid.
    cbn [negb]. unfold dateNow. rewrite !after_gets, !outcome_gets.
    specialize (Hdate eq_refl). unfold dateInPast in Hdate.
    rewrite Hhost, Hclock, Hdate. rewrite !after_gets, !outcome_gets.
    rewrite Hu, Hnone. cbn [nonNull]. split; [reflexivity | exact Hdb].
Qed.

(** C7.  A submission of any of the six forms whose fields fail validation
    returns normally and changes neither the four collections, nor the
    current user, nor the profile records, nor [appState], nor the pending
    callbacks; the result of [validateForm] holds a message for each
    offending required field, and each message is written into the element
    [<field>Error] of the page, which is no longer hidden. *)
Theorem invalid_submission_changes_nothing (f : Form) (w : World)
    (fd : gmap string (list N)) :
  readForm f w = Normal fd ->
  validates f fd = false ->
  let w' := after (submit f) w in
  let errs := errors (validateForm fd (requiredFields f)) in
  outcome (submit f) w = Normal tt
  /\ database w' = database w
  /\ currentUser w' = currentUser w
  /\ userProfileData w' = userProfileData w
  /\ appState w' = appState w
  /\ timers w' = timers w
  /\ (forall field, field ∈ requiredFields f -> offending fd field ->
                    is_Some (errs !! field))
  /\ (forall field msg, errs !! field = Some msg ->
        hasElement (field +:+ "Error") w ->
        exists e, byId (document w') !! (field +:+ "Error") = Some e
                  /\ children e = [Text msg] /\ "hidden" ∉ classList e).
Proof.
  intros Hread Hinvalid w' errs.
  assert (Hkey : outcome (submit f) w = Normal tt
                 /\ w' = after (showFormErrors errs) (after (clearFormErrors (formId f)) w)).
  { subst w' errs. apply isValid_false_errors in Hinvalid.
    destruct f; cbv [submit formId requiredFields] in *;
      [ unfold loginSubmit; open_handler LoginForm Hread w1 Hdom
      | unfold registerSubmit; open_handler RegisterForm Hread w1 Hdom
      | unfold announcementSubmit; open_handler AnnouncementForm Hread w1 Hdom
      | unfold eventSubmit; open_handler EventForm Hread w1 Hdom
      | unfold scheduleSubmit; open_handler ScheduleForm Hread w1 Hdom
      | unfold userSubmit; open_handler UserForm Hread w1 Hdom ];
      cbv zeta; rewrite Hinvalid;
      (split; [apply total_unit, Total_showFormErrors | reflexivity]). }
  destruct Hkey as [Ho Hw']. split; [exact Ho|].
  set (w1 := after (clearFormErrors (formId f)) w) in *.
  assert (H1 : domRel w w1) by apply Dom_clearFormErrors.
  assert (H2 : domRel w1 w') by (rewrite Hw'; apply Dom_showFormErrors).
  destruct (domRel_fields _ _ (domRel_trans _ _ _ H1 H2))
    as (Hu & Hdb & Hp & Ha & _ & Ht & _).
  do 5 (split; [assumption|]).
  split.
  - intros field Hin Hoff. subst errs.
    apply errors_offending. auto.
  - intros field msg Hmsg [e He].
    assert (He1 : exists e1, byId (document w1) !! (field +:+ "Error") = Some e1).
    { destruct H1 as [_ [Hs _]]. specialize (Hs (field +:+ "Error")).
      rewrite He in Hs. destruct (byId (document w1) !! (field +:+ "Error")); [eauto|].
      discriminate. }
    destruct He1 as [e1 He1].
    exists (removeClass "hidden" (setTextContent msg e1)).
    split; [rewrite Hw'; now apply showFormErrors_surfaces|].
    split.
    + simpl. destruct msg; [|reflexivity].
      exfalso. now apply (errors_nonempty _ _ _ _ Hmsg).
    + simpl. set_solver.
Qed.

(** ** Showing a section *)

Section ShowSection.

Lemma updateActiveNav_run sectionId w :
  updateActiveNav sectionId w
  = (Normal tt,
     setDocument (setNavLinks (activate sectionId (navLinks (document w))) (document w)) w).
Proof.
  unfold updateActiveNav, activate, bind, modifyDocument, modify, gets. simpl.
  destruct (list_find _ _) as [[i l]|]; reflexivity.
Qed.

Lemma onSectionShow_plain sectionId w :
  currentUser w = None \/ (sectionId <> "profile" /\ sectionId <> "dashboard") ->
  onSectionShow sectionId w = (Normal tt, w).
Proof.
  intros H. unfold onSectionShow, bind, gets.
  destruct (bool_decide (sectionId = "profile")) eqn:Hp.
  { apply bool_decide_eq_true in Hp. destruct H as [->|[H _]]; [reflexivity | contradiction]. }
  destruct (bool_decide (sectionId = "dashboard")) eqn:Hd; [|reflexivity].
  apply bool_decide_eq_true in Hd. destruct H as [->|[_ H]]; [reflexivity | contradiction].
Qed.

Lemma bind_run {A B : Type} (m : JS A) (k : A -> JS B) w a w1 :
  m w = (Normal a, w1) -> bind m k w = k a w1.
Proof. intros H. unfold bind. now rewrite H. Qed.

Lemma mutate_run id f w :
  hasElement id w ->
  mutate id f w
  = (Normal tt, setDocument (setById (alter f id (byId (document w))) (document w)) w).
Proof.
  intros [e He]. unfold mutate, bind, getElementById, gets. simpl. rewrite He. reflexivity.
Qed.

Lemma hasElement_alter id j f (m : gmap string Element) :
  is_Some (m !! id) -> is_Some (alter f j m !! id).
Proof. intros H. apply lookup_alter_is_Some. exact H. Qed.

Lemma hasElement_hideSections id (m : gmap string Element) :
  is_Some (m !! id) -> is_Some (hideSections m !! id).
Proof. intros [e He]. unfold hideSections. rewrite lookup_fmap, He. simpl. eauto. Qed.

(** [showSection] when the section has no renderer to run, on a page with
    the navigation bar and the menu button. *)
Lemma showSection_plain sectionId w :
  currentUser w = None \/ (sectionId <> "profile" /\ sectionId <> "dashboard") ->
  hasElement "main-nav" w ->
  is_Some (mobileMenu (document w)) ->
  showSection sectionId w = (Normal tt, shown sectionId w).
Proof.
  intros Hplain Hnav [menu Hmenu].
  unfold showSection, shown.
  rewrite (bind_run (modify _) _ w tt (enter sectionId w) eq_refl).
  rewrite (bind_run (updateAll _ _) _ _ tt
             (setDocument (setById (hideSections (byId (document w))) (document w))
                (enter sectionId w)) eq_refl).
  rewrite (bind_run (getElementById sectionId) _ _
             (hideSections (byId (document w)) !! sectionId) _ eq_refl).
  set (hidden := hideSections (byId (document w))).
  assert (Hstep :
    forall links,
      (mutate "main-nav" (removeClass "active") >>
       let* menu := gets (fun w => mobileMenu (document w)) in
       nonNull ".mobile-menu" menu >>
       modifyDocument (setMobileMenu (Some "false")) >>
       updateUserActivity)
        (setDocument
           (setNavLinks links
              (setById (alter (removeClass "hidden") sectionId hidden) (document w)))
           (enter sectionId w))
      = (Normal tt,
         mkWorld (currentUser w)
           (mkAppState (isLoading (appState w)) (clock w)
              (sessionTimeout (appState w)) sectionId)
           (database w) (userProfileData w)
           (mkDocument
              (alter (removeClass "active") "main-nav"
                 (alter (removeClass "hidden") sectionId hidden))
              links (Some "false") (submitButtons (document w))
              (adminTabs (document w)) (floating (document w)))
           (clock w) (timers w) (answers w) (asked w) (host w))).
  { intros links.
    match goal with
    | |- bind _ _ ?w0 = _ =>
        assert (Hn2 : hasElement "main-nav" w0)
          by (unfold hasElement; simpl;
              apply hasElement_alter, hasElement_hideSections, Hnav)
    end.
    rewrite (bind_run (mutate _ _) _ _ _ _ (mutate_run _ _ _ Hn2)).
    unfold bind, gets. simpl. rewrite Hmenu. reflexivity. }
  destruct (hidden !! sectionId) as [target|] eqn:Ht.
  - rewrite (bind_run _ _ _ tt
               (setDocument
                  (setNavLinks (activate sectionId (navLinks (document w)))
                     (setById (alter (removeClass "hidden") sectionId hidden) (document w)))
                  (enter sectionId w))).
    + apply Hstep.
    + rewrite (bind_run (updateElement _ _) _ _ tt _ eq_refl).
      rewrite (bind_run (updateActiveNav _) _ _ tt _ (updateActiveNav_run _ _)).
      apply onSectionShow_plain. exact Hplain.
  - rewrite (bind_run (ret tt) _ _ tt _ eq_refl).
    assert (Hsame : alter (removeClass "hidden") sectionId hidden = hidden).
    { apply map_eq. intros j. rewrite lookup_alter.
      destruct (decide (sectionId = j)) as [<-|]; [now rewrite Ht | reflexivity]. }
    specialize (Hstep (navLinks (document w))). rewrite Hsame in Hstep |- *.
    exact Hstep.
Qed.

End ShowSection.

Section Projections.

Context {X : Type}.

Lemma lookup_alter_fmap (f : Element -> Element) i (m : gmap string Element) j :
  alter f i m !! j = (if decide (i = j) then f else fun e => e) <$> m !! j.
Proof.
  rewrite lookup_alter. destruct (decide (i = j)) as [->|_]; [reflexivity|].
  now destruct (m !! j).
Qed.

Lemma proj_alter (g : Element -> X) f i (m : gmap string Element) j :
  (forall e, g (f e) = g e) -> g <$> alter f i m !! j = g <$> m !! j.
Proof.
  intros H. rewrite lookup_alter. destruct (decide (i = j)) as [->|_]; [|reflexivity].
  destruct (m !! j) as [el|]; [|reflexivity].
  change (Some (g (f el)) = Some (g el)). now rewrite H.
Qed.

Lemma proj_fmap (g : Element -> X) f (m : gmap string Element) j :
  (forall e, g (f e) = g e) -> g <$> (f <$> m) !! j = g <$> m !! j.
Proof.
  intros H. rewrite lookup_fmap. destruct (m !! j) as [el|]; [|reflexivity].
  change (Some (g (f el)) = Some (g el)). now rewrite H.
Qed.

End Projections.

(** C8.  With no user logged in, [showSection('profile')] on a page with
    the navigation bar and the menu button returns normally and writes no
    content: every element keeps the children it had, nothing is appended
    to the body, and the profile renderer called in either mode returns
    at once, leaving the world as it was. *)
Theorem profile_navigation_without_user (w : World) :
  currentUser w = None ->
  hasElement "main-nav" w ->
  is_Some (mobileMenu (document w)) ->
  let w' := after (showSection "profile") w in
  outcome (showSection "profile") w = Normal tt
  /\ currentSection (appState w') = "profile"
  /\ (forall id, children <$> byId (document w') !! id
                 = children <$> byId (document w) !! id)
  /\ floating (document w') = floating (document w)
  /\ (forall editMode, renderProfile editMode w = (Normal tt, w)).
Proof.
  intros Hnone Hnav Hmenu w'. subst w'. unfold after, outcome.
  rewrite (showSection_plain "profile" w (or_introl Hnone) Hnav Hmenu).
  split; [reflexivity|]. split; [reflexivity|]. split; [|split; [reflexivity|]].
  - intros id. simpl. unfold hideSections.
    rewrite !proj_alter by reflexivity. apply proj_fmap.
    intros e. destruct (bool_decide _); reflexivity.
  - intros editMode. unfold renderProfile, bind, getElementById, gets.
    now rewrite Hnone.
Qed.

(** ** Logging out *)

Section Logout.

Lemma keeps_refl w : keeps w w.
Proof. split; [reflexivity | apply skel_refl]. Qed.

Lemma keeps_trans w1 w2 w3 : keeps w1 w2 -> keeps w2 w3 -> keeps w1 w3.
Proof.
  intros [a1 b1] [a2 b2]. split; [congruence | eapply skel_trans; eassumption].
Qed.

Lemma Keeps_bind {A B : Type} (m : JS A) (k : A -> JS B) :
  Keeps m -> (forall a, Keeps (k a)) -> Keeps (bind m k).
Proof.
  intros Hm Hk w. destruct (bind_cases m k w) as [(a & _ & E & _)|(e & _ & E & _)];
    rewrite E.
  - eapply keeps_trans; [apply Hm | apply Hk].
  - apply Hm.
Qed.

Lemma Evolves_Keeps {A : Type} (m : JS A) : Evolves m -> Keeps m.
Proof.
  intros H w. destruct (H w) as (a & _ & _ & _ & _ & _ & _ & _ & _ & _ & s).
  now split.
Qed.

Lemma Keeps_showSection sectionId : Keeps (showSection sectionId).
Proof.
  intros w. destruct (showSection_evolves sectionId w)
    as (a & _ & _ & _ & _ & _ & _ & _ & _ & _ & s).
  split; [exact a | exact s].
Qed.

Lemma reset_run formId w :
  isFormElement formId w -> reset formId w = (Normal tt, resetWorld formId w).
Proof.
  intros (f & Hf & Htag). unfold reset, bind, getElementById, gets. simpl.
  rewrite Hf. simpl. rewrite bool_decide_eq_true_2 by exact Htag. reflexivity.
Qed.

Lemma resetElement_tag formId e : tagName (resetElement formId e) = tagName e.
Proof.
  unfold resetElement. destruct (bool_decide _); [|reflexivity].
  destruct (value e); reflexivity.
Qed.

Lemma isFormElement_resetWorld formId g w :
  isFormElement g w -> isFormElement g (resetWorld formId w).
Proof.
  intros (f & Hf & Htag). exists (resetElement formId f). simpl.
  rewrite lookup_fmap, Hf. simpl. split; [reflexivity|].
  now rewrite resetElement_tag.
Qed.


Lemma skeleton_eq e e' :
  skeleton e' = skeleton e ->
  tagName e' = tagName e /\ ownerForm e' = ownerForm e
  /\ defaultValue e' = defaultValue e /\ value e' = value e.
Proof. unfold skeleton. intros H. injection H as -> -> -> ->. auto. Qed.

Lemma skel_lookup d d' id e :
  skel d d' -> byId d !! id = Some e ->
  exists e', byId d' !! id = Some e' /\ skeleton e' = skeleton e.
Proof.
  intros [H _] He. specialize (H id). rewrite He in H.
  destruct (byId d' !! id) as [e'|]; [|discriminate].
  exists e'. split; [reflexivity|]. simpl in H. congruence.
Qed.

Lemma skel_lookup_inv d d' id e' :
  skel d d' -> byId d' !! id = Some e' ->
  exists e, byId d !! id = Some e /\ skeleton e' = skeleton e.
Proof.
  intros [H _] He. specialize (H id). rewrite He in H.
  destruct (byId d !! id) as [e|]; [|discriminate].
  exists e. split; [reflexivity|]. simpl in H. congruence.
Qed.

Lemma isFormElement_skel g w w' :
  skel (document w) (document w') -> isFormElement g w -> isFormElement g w'.
Proof.
  intros Hs (f & Hf & Htag). destruct (skel_lookup _ _ _ _ Hs Hf) as (f' & Hf' & E).
  exists f'. split; [exact Hf'|]. apply skeleton_eq in E as (-> & _). exact Htag.
Qed.

Lemma hasElement_skel id w w' :
  skel (document w) (document w') -> hasElement id w -> hasElement id w'.
Proof.
  intros Hs [e He]. destruct (skel_lookup _ _ _ _ Hs He) as (e' & He' & _).
  now exists e'.
Qed.

Lemma isFormElement_cleared fs : forall g w,
  isFormElement g w -> isFormElement g (cleared fs w).
Proof.
  induction fs as [|f fs IH]; intros g w H; [exact H|]. simpl. apply IH.
  eapply isFormElement_skel; [apply Dom_clearFormErrors|].
  now apply isFormElement_resetWorld.
Qed.


Lemma resetIn_skel fs w w' :
  skel (document w) (document w') -> resetIn fs w -> resetIn fs w'.
Proof.
  intros Hs H id e' formId v He' Hown Hin Hv.
  destruct (skel_lookup_inv _ _ _ _ Hs He') as (e & He & E).
  apply skeleton_eq in E as (_ & Eo & Ed & Ev).
  rewrite Ed. apply (H id e formId v He); congruence.
Qed.

Lemma resetIn_resetWorld fs f w :
  resetIn fs w -> resetIn (fs ++ [f]) (resetWorld f w).
Proof.
  intros H id e' formId v He' Hown Hin Hv. simpl in He'.
  rewrite lookup_fmap in He'.
  destruct (byId (document w) !! id) as [e|] eqn:He; [|discriminate].
  injection He' as <-. unfold resetElement in *.
  destruct (bool_decide (ownerForm e = Some f)) eqn:Hb.
  - destruct (value e) as [v0|] eqn:Hval.
    + simpl in Hv |- *. congruence.
    + rewrite Hval in Hv. discriminate.
  - apply bool_decide_eq_false in Hb.
    apply elem_of_app in Hin as [Hin|Hin].
    + exact (H id e formId v He Hown Hin Hv).
    + apply list_elem_of_singleton in Hin. congruence.
Qed.

Lemma resetIn_cleared fs : forall done w,
  resetIn done w -> resetIn (done ++ fs) (cleared fs w).
Proof.
  induction fs as [|f fs IH]; intros done w H.
  - now rewrite app_nil_r.
  - simpl. change (f :: fs) with ([f] ++ fs). rewrite app_assoc. apply IH.
    eapply resetIn_skel; [apply Dom_clearFormErrors|].
    now apply resetIn_resetWorld.
Qed.

Lemma cleared_fields fs : forall w,
  cleared fs w = setDocument (document (cleared fs w)) w.
Proof.
  induction fs as [|f fs IH]; intros w; [now destruct w|]. simpl.
  rewrite IH at 1.
  destruct (Dom_clearFormErrors f (resetWorld f w)) as [E _].
  rewrite E at 2. reflexivity.
Qed.

Lemma cleared_app a b w : cleared (a ++ b) w = cleared b (cleared a w).
Proof. unfold cleared. apply foldl_app. Qed.

Lemma cleared_single f w :
  cleared [f] w = after (clearFormErrors f) (resetWorld f w).
Proof. reflexivity. Qed.

Lemma clearForms_run w :
  (forall f, isFormElement (formId f) w) ->
  clearForms w = (Normal tt, cleared sixForms w).
Proof.
  intros Hforms. unfold clearForms, sixForms, allForms.
  assert (Hstep : forall f (k : JS unit) w0 r,
    isFormElement f w0 ->
    k (cleared [f] w0) = r ->
    (reset f >> clearFormErrors f >> k) w0 = r).
  { intros f k w0 r Hf Hk.
    rewrite (bind_run (reset f) _ _ tt _ (reset_run _ _ Hf)).
    rewrite (bind_run (clearFormErrors f) _ _ tt
               (after (clearFormErrors f) (resetWorld f w0))); [exact Hk|].
    rewrite run_eq. now rewrite (total_unit _ _ (Total_clearFormErrors f)). }
  pose proof (Hforms LoginForm) as H1. pose proof (Hforms RegisterForm) as H2.
  pose proof (Hforms AnnouncementForm) as H3. pose proof (Hforms EventForm) as H4.
  pose proof (Hforms ScheduleForm) as H5. pose proof (Hforms UserForm) as H6.
  cbv [formId] in H1, H2, H3, H4, H5, H6.
  change (map formId [LoginForm; RegisterForm; AnnouncementForm; EventForm;
                      ScheduleForm; UserForm])
    with (["loginForm"] ++ ["registerForm"] ++ ["announcementForm"] ++ ["eventForm"]
          ++ ["scheduleForm"] ++ ["userForm"]).
  rewrite !cleared_app.
  apply (Hstep _ _ _ _ H1).
  apply (Hstep _ _ _ _ (isFormElement_cleared ["loginForm"] _ _ H2)).
  apply (Hstep _ _ _ _
           (isFormElement_cleared ["registerForm"] _ _
              (isFormElement_cleared ["loginForm"] _ _ H3))).
  apply (Hstep _ _ _ _
           (isFormElement_cleared ["announcementForm"] _ _
              (isFormElement_cleared ["registerForm"] _ _
                 (isFormElement_cleared ["loginForm"] _ _ H4)))).
  apply (Hstep _ _ _ _
           (isFormElement_cleared ["eventForm"] _ _
              (isFormElement_cleared ["announcementForm"] _ _
                 (isFormElement_cleared ["registerForm"] _ _
                    (isFormElement_cleared ["loginForm"] _ _ H5))))).
  pose proof (isFormElement_cleared ["scheduleForm"] _ _
                (isFormElement_cleared ["eventForm"] _ _
                   (isFormElement_cleared ["announcementForm"] _ _
                      (isFormElement_cleared ["registerForm"] _ _
                         (isFormElement_cleared ["loginForm"] _ _ H6))))) as H6'.
  rewrite (bind_run (reset "userForm") _ _ tt _ (reset_run _ _ H6')).
  rewrite run_eq. rewrite (total_unit _ _ (Total_clearFormErrors "userForm")).
  rewrite !cleared_single. reflexivity.
Qed.

Lemma formId_sixForms f : formId f ∈ sixForms.
Proof.
  apply list_elem_of_In. unfold sixForms, allForms.
  destruct f; cbn [map formId In]; auto 10.
Qed.

Lemma formsReset_cleared w : formsReset (cleared sixForms w).
Proof.
  assert (H0 : resetIn [] w) by (intros ? ? ? ? _ _ Hin; inversion Hin).
  pose proof (resetIn_cleared sixForms [] w H0) as H. rewrite app_nil_l in H.
  intros id e f v He Hown Hv.
  exact (H id e (formId f) v He Hown (formId_sixForms f) Hv).
Qed.

Lemma formsReset_skel w w' :
  skel (document w) (document w') -> formsReset w -> formsReset w'.
Proof.
  intros Hs H id e' f v He' Hown Hv.
  destruct (skel_lookup_inv _ _ _ _ Hs He') as (e & He & E).
  apply skeleton_eq in E as (_ & Eo & Ed & Ev).
  rewrite Ed. apply (H id e f v He); congruence.
Qed.

End Logout.

Section Session.

Lemma updateAuthButtons_run w :
  hasElement "authButtons" w -> hasElement "heroButtons" w ->
  exists w', updateAuthButtons w = (Normal tt, w') /\ domRel w w'.
Proof.
  intros [a Ha] [h Hh].
  exists (after updateAuthButtons w). split; [|apply Dom_updateAuthButtons].
  rewrite run_eq. f_equal.
  unfold outcome, updateAuthButtons, bind, getElementById, gets. simpl.
  rewrite Ha, Hh. destruct (currentUser w); reflexivity.
Qed.



Lemma onlyShown_shown sectionId w : onlyShown sectionId (shown sectionId w).
Proof.
  assert (Hne : "hidden" <> "active") by discriminate.
  assert (Hlook : forall id e,
    byId (document (shown sectionId w)) !! id = Some e ->
    exists e0, byId (document w) !! id = Some e0 /\ tagName e = tagName e0
      /\ ("hidden" ∈ classList e <->
          id <> sectionId /\ (tagName e0 = "section" \/ "hidden" ∈ classList e0))).
  { intros id e He. simpl in He. unfold hideSections in He.
    rewrite !lookup_alter_fmap, lookup_fmap in He.
    destruct (byId (document w) !! id) as [e0|]; simpl in He; [|discriminate].
    exists e0. split; [reflexivity|].
    destruct (decide ("main-nav" = id)) as [Hn|Hn],
             (decide (sectionId = id)) as [Hs|Hs];
      simpl in He; injection He as <-;
      destruct (bool_decide (tagName e0 = "section")) eqn:Hb;
      try apply bool_decide_eq_true in Hb; try apply bool_decide_eq_false in Hb;
      simpl; (split; [reflexivity|]);
      rewrite ?elem_of_difference, ?elem_of_union, ?elem_of_singleton;
      split; intros H; intuition congruence. }
  split.
  - intros id e He Htag. destruct (Hlook id e He) as (e0 & _ & Ht & Hh).
    rewrite Hh. rewrite <- Ht, Htag. tauto.
  - intros e He. destruct (Hlook sectionId e He) as (e0 & _ & _ & Hh).
    rewrite Hh. tauto.
Qed.

Lemma logout_confirmed w rest :
  answers w = true :: rest ->
  logout w
  = (modify (setCurrentUser None) >>
     clearForms >>
     updateAuthButtons >>
     showSection "home" >>
     showNotification (js "Logged out successfully") "success" None)
      (setDialog rest (asked w ++ [js "Are you sure you want to logout?"]) w).
Proof. intros H. unfold logout. now apply confirmed. Qed.

Lemma Keeps_logout_tail :
  Keeps (updateAuthButtons >>
         showSection "home" >>
         showNotification (js "Logged out successfully") "success" None).
Proof.
  apply Keeps_bind; [apply Evolves_Keeps, Dom_Evolves, Dom_updateAuthButtons | intros _].
  apply Keeps_bind; [apply Keeps_showSection | intros _].
  apply Evolves_Keeps, Evolves_showNotification.
Qed.

Lemma currentUser_cleared fs w : currentUser (cleared fs w) = currentUser w.
Proof. rewrite cleared_fields. reflexivity. Qed.

Lemma logout_after w rest :
  answers w = true :: rest ->
  (forall f, isFormElement (formId f) w) ->
  logout w
  = (updateAuthButtons >>
     showSection "home" >>
     showNotification (js "Logged out successfully") "success" None)
      (cleared sixForms
         (setCurrentUser None
            (setDialog rest (asked w ++ [js "Are you sure you want to logout?"]) w))).
Proof.
  intros Hyes Hforms. rewrite (logout_confirmed w rest Hyes).
  assert (Hforms0 : forall f,
    isFormElement (formId f)
      (setCurrentUser None
         (setDialog rest (asked w ++ [js "Are you sure you want to logout?"]) w))).
  { intros f. destruct (Hforms f) as (e & He & Ht). exists e. split; assumption. }
  rewrite (bind_run (modify (setCurrentUser None)) _ _ tt _ eq_refl).
  cbv beta.
  rewrite (bind_run clearForms _ _ tt _ (clearForms_run _ Hforms0)).
  reflexivity.
Qed.

(** After a confirmed logout no user is logged in and the six forms are
    reset, whether or not the rest of the page is complete. *)
Lemma logout_resets w rest :
  answers w = true :: rest ->
  (forall f, isFormElement (formId f) w) ->
  currentUser (after logout w) = None /\ formsReset (after logout w).
Proof.
  intros Hyes Hforms.
  rewrite (proj1 (after_eq _ _ _ _ (logout_after w rest Hyes Hforms))).
  match goal with
  | |- currentUser (after _ ?w2) = _ /\ _ =>
      destruct (Keeps_logout_tail w2) as [Hu Hs]
  end.
  split.
  - rewrite Hu. rewrite currentUser_cleared. reflexivity.
  - eapply formsReset_skel; [exact Hs | apply formsReset_cleared].
Qed.

Lemma response_user (user : User.t) (rest : JS unit) w :
  Evolves rest ->
  currentUser (after (setLoading false >> modify (setCurrentUser (Some user)) >> rest) w)
  = Some user.
Proof.
  intros Hrest.
  destruct (after_bind (setLoading false)
              (fun _ => modify (setCurrentUser (Some user)) >> rest) w tt
              (total_unit _ _ (Total_setLoading false))) as [-> _].
  rewrite after_modify.
  destruct (Hrest (setCurrentUser (Some user) (after (setLoading false) w)))
    as (-> & _).
  reflexivity.
Qed.

Lemma loginResponse_user fd w :
  currentUser (after (loginResponse fd) w)
  = Some (User.mk (if bool_decide (fd !! "userType" = Some (js "admin"))
                   then js "Admin User" else js "Carl Kitusa")
            (prop fd "email") (prop fd "userType")).
Proof. unfold loginResponse. cbv zeta. apply response_user. evo. Qed.

Lemma registerResponse_user fd w :
  currentUser (after (registerResponse fd) w)
  = Some (User.mk (prop fd "name") (prop fd "email") (prop fd "userType")).
Proof. unfold registerResponse. cbv zeta. apply response_user. evo. Qed.

(** The valid branch of the login and register handlers. *)
Lemma schedule_response cb w :
  after (setLoading true >> setTimeout cb 1000) w
  = setTimers (timers w ++ [(clock w + 1000, cb)]) (after (setLoading true) w)
  /\ outcome (setLoading true >> setTimeout cb 1000) w = Normal tt.
Proof. split; reflexivity. Qed.

End Session.

(** C6.  A login or register submission whose fields pass validation
    leaves the current user absent while the simulated delay runs and
    registers exactly one callback, due one second later; whenever that
    callback runs, the current user is present afterwards.  A logout whose
    confirmation is accepted, on a page that has the six forms, leaves the
    current user absent and every control of the six forms at the value the
    page shipped with (so empty where that value is empty). *)
Theorem session_transitions :
  (forall (f : Form) (w : World) (fd : gmap string (list N)),
      f = LoginForm \/ f = RegisterForm ->
      readForm f w = Normal fd ->
      validates f fd = true ->
      currentUser w = None ->
      outcome (submit f) w = Normal tt
      /\ currentUser (after (submit f) w) = None
      /\ exists cb,
           timers (after (submit f) w) = timers w ++ [(clock w + 1000, cb)]
           /\ forall w2, is_Some (currentUser (after (runCallback cb) w2)))
  /\ (forall (w : World) (rest : list bool),
        answers w = true :: rest ->
        (forall f, isFormElement (formId f) w) ->
        currentUser (after logout w) = None
        /\ formsReset (after logout w)
        /\ (forall id e f v,
              byId (document (after logout w)) !! id = Some e ->
              ownerForm e = Some (formId f) ->
              defaultValue e = [] -> value e = Some v -> v = [])).
Proof.
  split.
  - intros f w fd Hf Hread Hvalid Hnone.
    destruct Hf as [-> | ->]; cbv [submit] in *.
    + unfold loginSubmit. open_handler LoginForm Hread w1 Hdom.
      apply domRel_fields in Hdom as (Hu & _ & _ & _ & Hclock & Htimers & _).
      cbv [validates requiredFields] in Hvalid. cbv zeta. rewrite Hvalid.
      cbn [negb].
      destruct (schedule_response (LoginResponse fd) w1) as [-> ->].
      split; [reflexivity|]. split; [simpl; congruence|].
      exists (LoginResponse fd). split; [simpl; congruence|].
      intros w2. simpl runCallback. rewrite loginResponse_user. eauto.
    + unfold registerSubmit. open_handler RegisterForm Hread w1 Hdom.
      apply domRel_fields in Hdom as (Hu & _ & _ & _ & Hclock & Htimers & _).
      cbv [validates requiredFields] in Hvalid. cbv zeta. rewrite Hvalid.
      cbn [negb].
      destruct (schedule_response (RegisterResponse fd) w1) as [-> ->].
      split; [reflexivity|]. split; [simpl; congruence|].
      exists (RegisterResponse fd). split; [simpl; congruence|].
      intros w2. simpl runCallback. rewrite registerResponse_user. eauto.
  - intros w rest Hyes Hforms.
    destruct (logout_resets w rest Hyes Hforms) as [Hu Hr].
    split; [exact Hu|]. split; [exact Hr|].
    intros id e f v He Hown Hd Hv. rewrite <- Hd. exact (Hr id e f v He Hown Hv).
Qed.

Section Timeout.

Lemma run_after {A : Type} (m : JS A) w r w' :
  m w = (r, w') -> outcome m w = r /\ after m w = w'.
Proof. unfold outcome, after. now intros ->. Qed.





End Timeout.


(** ** The login scenario *)

(** Steps over the first statement of a sequence, given its outcome. *)
Ltac outcome_step T :=
  match goal with
  | |- outcome (bind ?m ?k) ?w0 = _ =>
      let E := fresh "E" in
      destruct (after_bind m k w0 _ T) as [_ E]; rewrite E; clear E; cbv beta
  end.

Section Scenario.

Lemma present_skel ids w w' :
  skel (document w) (document w') -> present ids w -> present ids w'.
Proof.
  intros Hs H. unfold present in *. eapply Forall_impl; [exact H|].
  intros id. now apply hasElement_skel.
Qed.

Lemma present_elem ids id w : present ids w -> In id ids -> hasElement id w.
Proof.
  unfold present. rewrite Forall_forall. intros H Hin. apply H.
  now apply list_elem_of_In.
Qed.

Lemma ok_step (m k : JS unit) ids w :
  Dom m -> outcome m w = Normal tt ->
  present ids w ->
  (forall w', present ids w' -> ok k w') ->
  ok (m >> k) w.
Proof.
  intros Hd Ho Hp Hk. unfold ok.
  destruct (after_bind m (fun _ => k) w tt Ho) as [_ ->].
  apply Hk. eapply present_skel; [apply Hd | exact Hp].
Qed.

Lemma mutate_outcome id f w : hasElement id w -> outcome (mutate id f) w = Normal tt.
Proof. intros H. unfold outcome. now rewrite (mutate_run id f w H). Qed.

Lemma updateDashboard_outcome w :
  hasElement "studentDashboard" w -> hasElement "adminDashboard" w ->
  outcome updateDashboard w = Normal tt.
Proof.
  intros [s Hs] [a Ha]. unfold updateDashboard, getElementById.
  rewrite !outcome_gets. rewrite Hs, Ha. cbn [nonNull].
  destruct (isAdminUser (currentUser w)); apply total_unit; total.
Qed.

Lemma updateAuthButtons_outcome w :
  hasElement "authButtons" w -> hasElement "heroButtons" w ->
  outcome updateAuthButtons w = Normal tt.
Proof.
  intros Ha Hh. destruct (updateAuthButtons_run w Ha Hh) as (w' & E & _).
  unfold outcome. now rewrite E.
Qed.

Lemma showLoggedIn_outcome u w :
  present loggedInIds w -> outcome (showLoggedIn u) w = Normal tt.
Proof.
  intros Hp.
  assert (Hok : ok (showLoggedIn u) w).
  { unfold showLoggedIn. unfold ok. rewrite outcome_gets.
    change (ok (mutate "userName" (setTextContent (User.name u)) >>
                mutate "userRole" (setTextContent (roleLabel u)) >>
                mutate "userAvatar" (setTextContent (generateAvatar (host w) (User.name u))) >>
                mutate "profileName" (setTextContent (User.name u)) >>
                mutate "profileRole" (setTextContent (roleLabel u)) >>
                mutate "profileEmail" (setTextContent (User.email u)) >>
                mutate "profileAvatar"
                  (setTextContent (generateAvatar (host w) (User.name u))) >>
                updateDashboard >> updateAuthButtons) w).
    repeat (apply (ok_step _ _ loggedInIds);
            [ auto with dom
            | first [ apply mutate_outcome | apply updateDashboard_outcome ];
              (eapply present_elem; [eassumption | cbn; auto 20])
            | assumption
            | intros ? ? ]).
    exists tt. apply updateAuthButtons_outcome;
      (eapply present_elem; [eassumption | cbn; auto 20]). }
  destruct Hok as [[] H]. exact H.
Qed.

Lemma showNotification_timers message type elementId w :
  exists X,
    timers (after (showNotification message type elementId) w) = timers w ++ X
    /\ Forall (fun t => fst t = clock w + 3000) X.
Proof.
  unfold after, showNotification, queryNotificationArea, bind, getElementById, gets,
    modifyDocument, modify, updateRef, updateElement, setTimeout, ret.
  destruct elementId as [[|c id]|]; simpl.
  - destruct (list_find _ _) as [[i e]|]; simpl;
      (eexists; split; [reflexivity | repeat constructor]).
  - destruct (byId (document w) !! String c id); simpl.
    + eexists; split; [reflexivity | repeat constructor].
    + exists []. split; [now rewrite app_nil_r | constructor].
  - destruct (list_find _ _) as [[i e]|]; simpl;
      (eexists; split; [reflexivity | repeat constructor]).
Qed.

(** The response callback of a login, on a page that has the elements it
    writes to. *)
Lemma loginResponse_run fd w :
  present loggedInIds w ->
  let w' := after (loginResponse fd) w in
  outcome (loginResponse fd) w = Normal tt
  /\ clock w' = clock w
  /\ exists X, timers w' = timers w ++ X ++ [(clock w + 1000, ShowDashboard)]
               /\ Forall (fun t => fst t = clock w + 3000) X.
Proof.
  intros Hp w'. subst w'. unfold loginResponse. cbv zeta.
  set (user := User.mk _ _ _).
  destruct (after_bind (setLoading false)
              (fun _ => modify (setCurrentUser (Some user)) >>
                        showLoggedIn user >>
                        showNotification (js "Login successful!") "success"
                          (Some "loginSuccessMessage") >>
                        setTimeout ShowDashboard 1000) w tt
              (total_unit _ _ (Total_setLoading false))) as [-> ->].
  rewrite after_modify, outcome_modify.
  set (w1 := setCurrentUser (Some user) (after (setLoading false) w)).
  assert (Hp1 : present loggedInIds w1).
  { eapply present_skel; [|exact Hp]. apply (Evolves_setLoading false w). }
  assert (Hc1 : clock w1 = clock w /\ timers w1 = timers w) by (split; reflexivity).
  destruct Hc1 as [Hc1 Ht1].
  destruct (after_bind (showLoggedIn user)
              (fun _ => showNotification (js "Login successful!") "success"
                          (Some "loginSuccessMessage") >>
                        setTimeout ShowDashboard 1000) w1 tt
              (showLoggedIn_outcome user w1 Hp1)) as [-> ->].
  destruct (domRel_fields _ _ (Dom_showLoggedIn user w1))
    as (_ & _ & _ & _ & Hc2 & Ht2 & _).
  set (w2 := after (showLoggedIn user) w1) in *.
  destruct (after_bind (showNotification (js "Login successful!") "success"
                          (Some "loginSuccessMessage"))
              (fun _ => setTimeout ShowDashboard 1000) w2 tt
              (total_unit _ _ (Total_showNotification _ _ _))) as [-> ->].
  destruct (showNotification_timers (js "Login successful!") "success"
              (Some "loginSuccessMessage") w2) as (X & HX & HF).
  destruct (Evolves_showNotification (js "Login successful!") "success"
              (Some "loginSuccessMessage") w2) as (_ & _ & _ & Hc3 & _).
  set (w3 := after (showNotification (js "Login successful!") "success"
                      (Some "loginSuccessMessage")) w2) in *.
  split; [reflexivity|]. split; [simpl; congruence|].
  exists X. split.
  - simpl. rewrite HX, Hc3, Hc2, Ht2, Hc1, Ht1. now rewrite <- app_assoc.
  - rewrite Hc2, Hc1 in HF. exact HF.
Qed.

Lemma earliest_last T d cb :
  Forall (fun t => d < fst t) T ->
  earliest (T ++ [(d, cb)]) = Some (length T, (d, cb)).
Proof.
  induction 1 as [|t T Ht _ IH]; [reflexivity|].
  simpl. rewrite IH. simpl.
  destruct (d <? fst t) eqn:E; [reflexivity|]. apply Z.ltb_ge in E. lia.
Qed.

Lemma tick_last T d cb w :
  Forall (fun t => d < fst t) T ->
  timers w = T ++ [(d, cb)] ->
  tick w = Some (runCallback cb (setTimers T (setClock (Z.max (clock w) d) w))).
Proof.
  intros HF Ht. unfold tick. rewrite Ht, (earliest_last _ _ _ HF).
  now rewrite delete_middle, app_nil_r.
Qed.

Lemma readLogin w :
  holds "loginEmail" "a@b.com" w ->
  holds "loginPassword" "12345678" w ->
  holds "loginUserType" "student" w ->
  readForm LoginForm w
  = Normal {[ "email" := js "a@b.com"; "password" := js "12345678";
              "userType" := js "student" ]}.
Proof.
  intros (e1 & H1 & V1) (e2 & H2 & V2) (e3 & H3 & V3).
  assert (T1 : outcome (trimmedValueOf "loginEmail") w = Normal (js "a@b.com")).
  { unfold outcome, trimmedValueOf, valueOf, bind, getElementById, gets.
    rewrite H1. cbn [nonNull ret]. rewrite V1. reflexivity. }
  assert (T2 : outcome (trimmedValueOf "loginPassword") w = Normal (js "12345678")).
  { unfold outcome, trimmedValueOf, valueOf, bind, getElementById, gets.
    rewrite H2. cbn [nonNull ret]. rewrite V2. reflexivity. }
  assert (T3 : outcome (valueOf "loginUserType") w = Normal (Some (js "student"))).
  { unfold outcome, valueOf, bind, getElementById, gets.
    rewrite H3. cbn [nonNull ret]. rewrite V3. reflexivity. }
  unfold readForm. change (outcome loginFormData w = Normal
    {[ "email" := js "a@b.com"; "password" := js "12345678";
       "userType" := js "student" ]}).
  unfold loginFormData.
  outcome_step T1. rewrite ReadOnly_trimmedValueOf.
  outcome_step T2. rewrite ReadOnly_trimmedValueOf.
  outcome_step T3. reflexivity.
Qed.

End Scenario.

(** C9.  With "a@b.com", "12345678" and "student" in the three controls of
    the login form, the submission passes validation and returns normally;
    when no other callback falls due within the next two seconds and the
    page has the elements the response writes to, the first callback to
    run, one second later, sets the current user to
    {name: "Carl Kitusa", email: "a@b.com", type: "student"}, and the next
    one, another second later, makes "dashboard" the current section. *)
Theorem login_scenario (w : World) :
  holds "loginEmail" "a@b.com" w ->
  holds "loginPassword" "12345678" w ->
  holds "loginUserType" "student" w ->
  present loggedInIds w ->
  Forall (fun t => clock w + 2000 < fst t) (timers w) ->
  let carl := User.mk (js "Carl Kitusa") (js "a@b.com") (js "student") in
  exists fd,
    readForm LoginForm w = Normal fd
    /\ validates LoginForm fd = true
    /\ outcome loginSubmit w = Normal tt
    /\ exists w2 r w3,
         tick (after loginSubmit w) = Some (Normal tt, w2)
         /\ clock w2 = clock w + 1000
         /\ currentUser w2 = Some carl
         /\ tick w2 = Some (r, w3)
         /\ clock w3 = clock w + 2000
         /\ currentUser w3 = Some carl
         /\ currentSection (appState w3) = "dashboard".
Proof.
  intros H1 H2 H3 Hp HF carl.
  pose proof (readLogin w H1 H2 H3) as Hread.
  set (fd := {[ "email" := js "a@b.com"; "password" := js "12345678";
                "userType" := js "student" ]} : gmap string (list N)) in *.
  assert (Hvalid : validates LoginForm fd = true) by (vm_compute; reflexivity).
  exists fd. split; [exact Hread|]. split; [exact Hvalid|].
  (* the submission *)
  assert (Hsub : outcome loginSubmit w = Normal tt
                 /\ clock (after loginSubmit w) = clock w
                 /\ timers (after loginSubmit w)
                    = timers w ++ [(clock w + 1000, LoginResponse fd)]
                 /\ present loggedInIds (after loginSubmit w)).
  { unfold loginSubmit. open_handler LoginForm Hread w1 Hdom.
    cbv [validates requiredFields] in Hvalid. cbv zeta. rewrite Hvalid. cbn [negb].
    destruct (schedule_response (LoginResponse fd) w1) as [-> ->].
    pose proof (domRel_fields _ _ Hdom) as (_ & _ & _ & _ & Hc & Ht & _).
    split; [reflexivity|]. split; [simpl; congruence|]. split; [simpl; congruence|].
    apply (present_skel loggedInIds (after (setLoading true) w1)); [apply skel_refl|].
    eapply present_skel; [apply (Evolves_setLoading true w1)|].
    eapply present_skel; [apply Hdom | exact Hp]. }
  destruct Hsub as (Hout & Hclock & Htimers & Hpres).
  split; [exact Hout|].
  set (ws := after loginSubmit w) in *.
  (* the response callback *)
  assert (HF1 : Forall (fun t => clock w + 1000 < fst t) (timers w)).
  { eapply Forall_impl; [exact HF|]. intros t Ht. simpl in Ht. lia. }
  pose proof (tick_last _ _ _ ws HF1 Htimers) as Htick1.
  rewrite Hclock, Z.max_r in Htick1 by lia.
  set (wr := setTimers (timers w) (setClock (clock w + 1000) ws)) in Htick1.
  assert (Hpr : present loggedInIds wr) by exact Hpres.
  destruct (loginResponse_run fd wr Hpr) as (Ho2 & Hc2 & X & Ht2 & HX).
  pose proof (loginResponse_user fd wr) as Hu2.
  change (runCallback (LoginResponse fd) wr) with (loginResponse fd wr) in Htick1.
  rewrite (run_eq (loginResponse fd) wr), Ho2 in Htick1.
  set (w2 := after (loginResponse fd) wr) in *.
  change (clock wr) with (clock w + 1000) in Hc2, Ht2, HX.
  change (timers wr) with (timers w) in Ht2.
  assert (Hcarl : currentUser w2 = Some carl) by (rewrite Hu2; vm_compute; reflexivity).
  (* the redirect callback *)
  assert (HF2 : Forall (fun t => clock w + 2000 < fst t) (timers w ++ X)).
  { apply Forall_app. split; [exact HF|].
    eapply Forall_impl; [exact HX|]. intros t Ht. simpl in Ht. lia. }
  assert (Ht2' : timers w2 = (timers w ++ X) ++ [(clock w + 2000, ShowDashboard)]).
  { rewrite Ht2, <- app_assoc.
    replace (clock w + 1000 + 1000) with (clock w + 2000) by lia. reflexivity. }
  pose proof (tick_last _ _ _ w2 HF2 Ht2') as Htick2.
  rewrite Hc2, Z.max_r in Htick2 by lia.
  set (wd := setTimers (timers w ++ X) (setClock (clock w + 2000) w2)) in Htick2.
  change (runCallback ShowDashboard wd) with (showSection "dashboard" wd) in Htick2.
  rewrite (run_eq (showSection "dashboard") wd) in Htick2.
  destruct (showSection_evolves "dashboard" wd)
    as (Hu3 & _ & _ & Hc3 & _ & _ & _ & _ & Hs3 & _).
  exists w2, (outcome (showSection "dashboard") wd), (after (showSection "dashboard") wd).
  split; [exact Htick1|]. split; [exact Hc2|]. split; [exact Hcarl|].
  split; [exact Htick2|]. split; [exact Hc3|]. split; [rewrite Hu3; exact Hcarl|].
  exact Hs3.
Qed.

(** ** The date rule of the event form *)

Section DateRule.

(** In a zone at a fixed offset east of Greenwich (less than a day), the
    rule compares days: a date is refused exactly when its day lies before
    the local day of the clock. *)
Lemma date_rule_east (offset now day : Z) :
  0 <= offset < msPerDay ->
  dateLt (Some (day * msPerDay)) (setHours0 (fixedZone offset) now) = true
  <-> day < (now + offset) / msPerDay.
Proof.
  intros Hoff. unfold dateLt, setHours0. simpl. rewrite Z.ltb_lt.
  unfold msPerDay in *. generalize ((now + offset) / 86400000). intros today. lia.
Qed.

(** West of Greenwich the rule refuses the local day of the clock itself. *)
Lemma date_rule_west (offset now : Z) :
  - msPerDay < offset < 0 ->
  dateLt (Some ((now + offset) / msPerDay * msPerDay))
    (setHours0 (fixedZone offset) now) = true.
Proof.
  intros Hoff. unfold dateLt, setHours0. simpl. rewrite Z.ltb_lt.
  unfold msPerDay in *. lia.
Qed.

End DateRule.

(** C3.  The event handler refuses a date exactly when the date, read as
    midnight UTC, lies before the local midnight of the current day.  In
    New York on 20 December 2025 at 3 pm, an administrator's event dated
    2025-12-20, the current day there, passes validation and is refused:
    the handler returns normally, writes "Event date must be in the future"
    into [eventDateError] and stores nothing.  The same submission at noon
    in Nairobi is stored at the front of the events. *)
Theorem event_today_refused_west_of_utc :
  civilFromDays ((clock todayInNewYork + localTZA newYork (clock todayInNewYork) true)
                 / msPerDay) = (2025, 12, 20)
  /\ is_Some (currentUser todayInNewYork)
  /\ readForm EventForm todayInNewYork = Normal (eventData "2025-12-20")
  /\ validates EventForm (eventData "2025-12-20") = true
  /\ dateInPast todayInNewYork (eventData "2025-12-20") = true
  /\ outcome eventSubmit todayInNewYork = Normal tt
  /\ events (database (after eventSubmit todayInNewYork))
     = events (database todayInNewYork)
  /\ children <$> byId (document (after eventSubmit todayInNewYork)) !! "eventDateError"
     = Some [Text (js "Event date must be in the future")]
  /\ dateInPast todayInNairobi (eventData "2025-12-20") = false
  /\ ids Events (after eventSubmit todayInNairobi)
     = clock todayInNairobi :: ids Events todayInNairobi.
Proof.
  split; [vm_compute; reflexivity|].
  split; [vm_compute; eauto|].
  do 7 (split; [vm_compute; reflexivity|]).
  vm_compute; reflexivity.
Qed.

(** ** Examples *)

Section Examples.

Example parseDateOnly_2025_12_20 : parseDateOnly (js "2025-12-20") = Some 1766188800000.
Proof. reflexivity. Qed.

Example parseDateOnly_epoch : parseDateOnly (js "1970-01-01") = Some 0.
Proof. reflexivity. Qed.

Example parseDateOnly_leap_day : parseDateOnly (js "2024-02-29") = Some 1709164800000.
Proof. reflexivity. Qed.

Example parseDateOnly_no_leap_day : parseDateOnly (js "2025-02-29") = None.
Proof. reflexivity. Qed.

Example validateEmail_plain : validateEmail (js "a@b.com") = true.
Proof. reflexivity. Qed.

Example validateEmail_no_dot : validateEmail (js "a@b") = false.
Proof. reflexivity. Qed.

Example validateEmail_space : validateEmail (js "a b@c.d") = false.
Proof. reflexivity. Qed.

Example validateEmail_two_dots : validateEmail (js "a@b.c.d") = true.
Proof. reflexivity. Qed.

Example validateEmail_two_ats : validateEmail (js "a@@b.c") = false.
Proof. reflexivity. Qed.

Example trim_both_ends : trim (js "  a b  ") = js "a b".
Proof. reflexivity. Qed.

Example validateForm_login_errors :
  errors (validateForm {[ "email" := js " "; "password" := js "1234" ]}
            ["email"; "password"; "userType"])
  = {[ "email" := js "Please enter a valid email address";
       "password" := js "Password must be at least 8 characters";
       "userType" := js "userType is required" ]}.
Proof. vm_compute. reflexivity. Qed.

Lemma removesExactlyOne_length before after0 id :
  removesExactlyOne before after0 id -> length before = S (length after0).
Proof.
  intros (l1 & r & l2 & -> & _ & ->). rewrite !length_app. simpl. lia.
Qed.

End Examples.

(** C1, example: the login form with a password of seven code units. *)
Lemma validateForm_isValid_iff_witness :
  let M : gmap string (list N) :=
    {[ "email" := js "a@b.com"; "password" := js "1234567";
       "userType" := js "student" ]} in
  let R := ["email"; "password"; "userType"] in
  ownFields R
  /\ isValid (validateForm M R) = false
  /\ is_Some (errors (validateForm M R) !! "password")
  /\ errors (validateForm M R) !! "email" = None.
Proof.
  set (M := {[ "email" := js "a@b.com"; "password" := js "1234567";
               "userType" := js "student" ]} : gmap string (list N)).
  set (R := ["email"; "password"; "userType"]).
  assert (Hown : ownFields R)
    by (refine (bool_decide_unpack _ _); vm_compute; exact I).
  assert (Hinvalid : isValid (validateForm M R) = false) by (vm_compute; reflexivity).
  destruct (validateForm_isValid_iff M R Hown) as (_ & Hmessages & _).
  split; [exact Hown|]. split; [exact Hinvalid|]. split.
  - apply (Hmessages Hinvalid "password").
    + apply list_elem_of_In. simpl. tauto.
    + right. right. split; [reflexivity|]. intros v Hv.
      assert (E : M !! "password" = Some (js "1234567")) by (vm_compute; reflexivity).
      rewrite E in Hv. injection Hv as <-. simpl. lia.
  - vm_compute. reflexivity.
Defined.

(** C2, example: deleting announcement 2 of the sample data. *)
Lemma deleteById_removes_matching_witness :
  let w := answering [true] (initialWorld nairobi noonNairobi) in
  answers w = [true]
  /\ (let w' := after (deleteById Announcements 2) w in
      outcome (deleteById Announcements 2) w = Normal tt
      /\ records Announcements w'
         = filter (fun r => recordId r ≠ 2) (records Announcements w)
      /\ sublist (records Announcements w') (records Announcements w)
      /\ (forall c', c' <> Announcements -> records c' w' = records c' w)
      /\ (2 ∉ ids Announcements w -> records Announcements w' = records Announcements w)
      /\ (NoDup (ids Announcements w) -> 2 ∈ ids Announcements w ->
          removesExactlyOne (records Announcements w) (records Announcements w') 2)).
Proof.
  split; [reflexivity|].
  apply (deleteById_removes_matching Announcements 2
           (answering [true] (initialWorld nairobi noonNairobi)) []).
  reflexivity.
Defined.

(** C2, as stated, fails: two schedules created in the same millisecond
    carry the same id, and deleting by that id removes both. *)
Lemma deleteById_exactly_one_counterexample :
  answers twoAtOnce = [true]
  /\ ids Schedules twoAtOnce = [noonNairobi; noonNairobi; 1; 2; 3]
  /\ ~ removesExactlyOne (records Schedules twoAtOnce)
         (records Schedules (after (deleteById Schedules noonNairobi) twoAtOnce))
         noonNairobi.
Proof.
  split; [reflexivity|]. split; [vm_compute; reflexivity|].
  intros H. apply removesExactlyOne_length in H. vm_compute in H. discriminate.
Qed.

(** C4, example: the administrator's event of the current day, in
    Nairobi. *)
Lemma submit_inserts_at_front_witness :
  readForm (crudForm Events) todayInNairobi = Normal (eventData "2025-12-20")
  /\ validates (crudForm Events) (eventData "2025-12-20") = true
  /\ dateInPast todayInNairobi (eventData "2025-12-20") = false
  /\ is_Some (currentUser todayInNairobi)
  /\ (let w' := after (submit (crudForm Events)) todayInNairobi in
      (exists r, records Events w' = r :: records Events todayInNairobi
                 /\ recordId r = clock todayInNairobi)
      /\ (forall c', c' <> Events -> records c' w' = records c' todayInNairobi)
      /\ (clock todayInNairobi ∉ ids Events todayInNairobi ->
          NoDup (ids Events todayInNairobi) -> NoDup (ids Events w'))).
Proof.
  assert (Hread : readForm (crudForm Events) todayInNairobi
                  = Normal (eventData "2025-12-20"))
    by (vm_compute; reflexivity).
  assert (Hvalid : validates (crudForm Events) (eventData "2025-12-20") = true)
    by (vm_compute; reflexivity).
  assert (Hdate : dateInPast todayInNairobi (eventData "2025-12-20") = false)
    by (vm_compute; reflexivity).
  assert (Huser : is_Some (currentUser todayInNairobi))
    by (vm_compute; eexists; reflexivity).
  split; [exact Hread|]. split; [exact Hvalid|]. split; [exact Hdate|].
  split; [exact Huser|].
  apply (submit_inserts_at_front Events todayInNairobi (eventData "2025-12-20")
           Hread Hvalid).
  - intros _. exact Hdate.
  - intros _. exact Huser.
Defined.

(** C4, as stated, fails: a second submission in the same millisecond
    passes validation and the record it inserts has the id of the record
    already stored. *)
Lemma fresh_id_counterexample :
  readForm (crudForm Schedules) secondDraft = Normal scheduleDraftData
  /\ validates (crudForm Schedules) scheduleDraftData = true
  /\ ~ insertsFresh Schedules secondDraft.
Proof.
  split; [vm_compute; reflexivity|]. split; [vm_compute; reflexivity|].
  intros (r & Hr & Hfresh). apply Hfresh.
  pose proof (f_equal (fun l => hd_error l) Hr) as Hhead.
  vm_compute in Hhead. injection Hhead as <-.
  apply list_elem_of_In. vm_compute. auto.
Qed.

Ltac form_present :=
  let f := fresh "f" in
  intros f; destruct f; eexists; (split; [vm_compute; reflexivity | reflexivity]).

Ltac all_present :=
  repeat (apply Forall_cons; split; [vm_compute; eexists; reflexivity|]); apply Forall_nil_2.



(** C6, example: the login of the scenario, and the administrator's
    logout. *)
Lemma session_transitions_witness :
  (readForm LoginForm loginDraft = Normal loginData
   /\ validates LoginForm loginData = true
   /\ currentUser loginDraft = None
   /\ outcome (submit LoginForm) loginDraft = Normal tt
   /\ currentUser (after (submit LoginForm) loginDraft) = None
   /\ exists cb,
        timers (after (submit LoginForm) loginDraft)
        = timers loginDraft ++ [(clock loginDraft + 1000, cb)]
        /\ forall w2, is_Some (currentUser (after (runCallback cb) w2)))
  /\ (let w := answering [true] (adminSession nairobi noonNairobi) in
      answers w = [true]
      /\ currentUser (after logout w) = None
      /\ formsReset (after logout w)
      /\ (forall id e f v,
            byId (document (after logout w)) !! id = Some e ->
            ownerForm e = Some (formId f) ->
            defaultValue e = [] -> value e = Some v -> v = [])).
Proof.
  assert (Hread : readForm LoginForm loginDraft = Normal loginData)
    by (vm_compute; reflexivity).
  assert (Hvalid : validates LoginForm loginData = true)
    by (vm_compute; reflexivity).
  split.
  - split; [exact Hread|]. split; [exact Hvalid|]. split; [reflexivity|].
    apply (proj1 session_transitions LoginForm loginDraft loginData
             (or_introl eq_refl) Hread Hvalid eq_refl).
  - split; [reflexivity|].
    apply (proj2 session_transitions
             (answering [true] (adminSession nairobi noonNairobi)) [] eq_refl).
    form_present.
Defined.

(** C7, example: the login form submitted as the page ships it. *)
Lemma invalid_submission_changes_nothing_witness :
  let w := initialWorld nairobi noonNairobi in
  readForm LoginForm w = Normal emptyLoginData
  /\ validates LoginForm emptyLoginData = false
  /\ (let w' := after (submit LoginForm) w in
      let errs := errors (validateForm emptyLoginData (requiredFields LoginForm)) in
      outcome (submit LoginForm) w = Normal tt
      /\ database w' = database w
      /\ currentUser w' = currentUser w
      /\ userProfileData w' = userProfileData w
      /\ appState w' = appState w
      /\ timers w' = timers w
      /\ (forall field, field ∈ requiredFields LoginForm ->
                        offending emptyLoginData field -> is_Some (errs !! field))
      /\ (forall field msg, errs !! field = Some msg ->
            hasElement (field +:+ "Error") w ->
            exists e, byId (document w') !! (field +:+ "Error") = Some e
                      /\ children e = [Text msg] /\ "hidden" ∉ classList e)).
Proof.
  assert (Hread : readForm LoginForm (initialWorld nairobi noonNairobi)
                  = Normal emptyLoginData)
    by (vm_compute; reflexivity).
  assert (Hinvalid : validates LoginForm emptyLoginData = false)
    by (vm_compute; reflexivity).
  split; [exact Hread|]. split; [exact Hinvalid|].
  apply (invalid_submission_changes_nothing LoginForm
           (initialWorld nairobi noonNairobi) emptyLoginData Hread Hinvalid).
Defined.

(** C8, example: the page as it ships, nobody logged in. *)
Lemma profile_navigation_without_user_witness :
  let w := initialWorld nairobi noonNairobi in
  currentUser w = None
  /\ (let w' := after (showSection "profile") w in
      outcome (showSection "profile") w = Normal tt
      /\ currentSection (appState w') = "profile"
      /\ (forall id, children <$> byId (document w') !! id
                     = children <$> byId (document w) !! id)
      /\ floating (document w') = floating (document w)
      /\ (forall editMode, renderProfile editMode w = (Normal tt, w))).
Proof.
  split; [reflexivity|].
  apply (profile_navigation_without_user (initialWorld nairobi noonNairobi)).
  - reflexivity.
  - vm_compute; eexists; reflexivity.
  - vm_compute; eexists; reflexivity.
Defined.

(** C9, example: the scenario on the page as it ships. *)
Lemma login_scenario_witness :
  holds "loginEmail" "a@b.com" loginDraft
  /\ holds "loginPassword" "12345678" loginDraft
  /\ holds "loginUserType" "student" loginDraft
  /\ timers loginDraft = []
  /\ (let carl := User.mk (js "Carl Kitusa") (js "a@b.com") (js "student") in
      exists fd,
        readForm LoginForm loginDraft = Normal fd
        /\ validates LoginForm fd = true
        /\ outcome loginSubmit loginDraft = Normal tt
        /\ exists w2 r w3,
             tick (after loginSubmit loginDraft) = Some (Normal tt, w2)
             /\ clock w2 = clock loginDraft + 1000
             /\ currentUser w2 = Some carl
             /\ tick w2 = Some (r, w3)
             /\ clock w3 = clock loginDraft + 2000
             /\ currentUser w3 = Some carl
             /\ currentSection (appState w3) = "dashboard").
Proof.
  assert (H1 : holds "loginEmail" "a@b.com" loginDraft)
    by (eexists; split; vm_compute; reflexivity).
  assert (H2 : holds "loginPassword" "12345678" loginDraft)
    by (eexists; split; vm_compute; reflexivity).
  assert (H3 : holds "loginUserType" "student" loginDraft)
    by (eexists; split; vm_compute; reflexivity).
  split; [exact H1|]. split; [exact H2|]. split; [exact H3|].
  split; [reflexivity|].
  apply (login_scenario loginDraft H1 H2 H3).
  - all_present.
  - apply Forall_nil_2.
Defined.

(** C10, example: an announcement submitted while nobody is logged in. *)
Lemma creation_dereferences_absent_user_witness :
  currentUser announcementDraft = None
  /\ readForm (crudForm Announcements) announcementDraft = Normal announcementData
  /\ validates (crudForm Announcements) announcementData = true
  /\ outcome (submit (crudForm Announcements)) announcementDraft
     = Throw (TypeError "currentUser")
  /\ database (after (submit (crudForm Announcements)) announcementDraft)
     = database announcementDraft.
Proof.
  assert (Hread : readForm (crudForm Announcements) announcementDraft
                  = Normal announcementData)
    by (vm_compute; reflexivity).
  assert (Hvalid : validates (crudForm Announcements) announcementData = true)
    by (vm_compute; reflexivity).
  split; [reflexivity|]. split; [exact Hread|]. split; [exact Hvalid|].
  apply (creation_dereferences_absent_user Announcements announcementDraft
           announcementData (or_introl eq_refl) eq_refl Hread Hvalid).
  discriminate.
Defined.

(** * Properties of single functions *)

(** ** [generateAvatar] *)

Section Avatar.

Lemma split_not_nil sep s : split sep s <> [].
Proof.
  destruct s as [|c s]; simpl; [discriminate|].
  destruct (c =? sep)%N; [discriminate|].
  destruct (split sep s); discriminate.
Qed.

Lemma split_plain sep p : sep ∉ p -> split sep p = [p].
Proof.
  induction p as [|c p IH]; intros Hp; simpl; [reflexivity|].
  apply not_elem_of_cons in Hp as [Hc Hp].
  destruct (N.eqb_spec c sep) as [->|_]; [contradiction|].
  now rewrite (IH Hp).
Qed.

Lemma split_part sep p s : sep ∉ p -> split sep (p ++ sep :: s) = p :: split sep s.
Proof.
  induction p as [|c p IH]; intros Hp; simpl.
  - now rewrite N.eqb_refl.
  - apply not_elem_of_cons in Hp as [Hc Hp].
    destruct (N.eqb_spec c sep) as [->|_]; [contradiction|].
    now rewrite (IH Hp).
Qed.

Lemma split_joinWith sep parts :
  parts <> [] -> Forall (fun p => sep ∉ p) parts ->
  split sep (joinWith sep parts) = parts.
Proof.
  induction parts as [|p parts IH]; intros Hne Hall; [contradiction|].
  apply Forall_cons in Hall as [Hp Hall].
  destruct parts as [|q parts].
  - simpl. now apply split_plain.
  - change (joinWith sep (p :: q :: parts)) with (p ++ sep :: joinWith sep (q :: parts)).
    rewrite split_part by assumption. f_equal. apply IH; [discriminate | assumption].
Qed.

Lemma split_parts sep s : Forall (fun p => sep ∉ p) (split sep s).
Proof.
  induction s as [|c s IH]; simpl.
  - apply Forall_cons. split; [apply not_elem_of_nil | apply Forall_nil_2].
  - destruct (N.eqb_spec c sep) as [->|Hc].
    + apply Forall_cons. split; [apply not_elem_of_nil | exact IH].
    + destruct (split sep s) as [|part parts] eqn:E.
      * apply Forall_cons. split; [|apply Forall_nil_2].
        intros H. apply list_elem_of_singleton in H. congruence.
      * apply Forall_cons in IH as [Hp Hps]. apply Forall_cons. split; [|exact Hps].
        intros H. apply elem_of_cons in H as [H|H]; [congruence | contradiction].
Qed.

Lemma joinWith_split sep s : joinWith sep (split sep s) = s.
Proof.
  induction s as [|c s IH]; simpl; [reflexivity|].
  destruct (N.eqb_spec c sep) as [->|Hc].
  - pose proof (split_not_nil sep s) as Hne.
    destruct (split sep s) as [|part parts]; [contradiction|].
    simpl. simpl in IH. now rewrite IH.
  - pose proof (split_not_nil sep s) as Hne.
    destruct (split sep s) as [|part parts]; [contradiction|].
    destruct parts as [|q parts]; simpl in *; now rewrite IH.
Qed.

End Avatar.

(** X1.  Every name is the join, with single spaces, of parts that hold no
    space; for such parts, empty ones included (doubled, leading or
    trailing spaces), [generateAvatar] is the upper-casing of the first
    code units of the non-empty parts, in order: an empty part adds
    nothing. *)
Theorem generateAvatar_initials (h : Host) (parts : list (list N)) :
  parts <> [] ->
  Forall (fun p => 32%N ∉ p) parts ->
  generateAvatar h (joinWith 32 parts) = toUpperCase h (concat (map (take 1) parts))
  /\ (forall name, joinWith 32 (split 32 name) = name
                   /\ split 32 name <> []
                   /\ Forall (fun p => 32%N ∉ p) (split 32 name)).
Proof.
  intros Hne Hall. split.
  - unfold generateAvatar. now rewrite split_joinWith.
  - intros name. split; [apply joinWith_split|].
    split; [apply split_not_nil | apply split_parts].
Qed.

Lemma generateAvatar_initials_witness :
  generateAvatar nairobi (js " carl  kitusa") = js "CK".
Proof.
  change (js " carl  kitusa") with (joinWith 32 [[]; js "carl"; []; js "kitusa"]).
  rewrite (proj1 (generateAvatar_initials nairobi [[]; js "carl"; []; js "kitusa"]
                    ltac:(discriminate)
                    ltac:(repeat (apply Forall_cons; split;
                                  [vm_compute; intros H; apply list_elem_of_In in H;
                                   simpl in H; intuition discriminate|]);
                          apply Forall_nil_2))).
  reflexivity.
Defined.

(** ** [validateEmail] *)

Section EmailFacts.

Lemma plain_count s : plain s -> count_occ N.eq_dec s 64%N = 0%nat.
Proof.
  intros [_ H]. apply count_occ_not_In. intros Hin.
  rewrite Forall_forall in H. apply list_elem_of_In in Hin.
  destruct (H _ Hin) as [_ Hne]. now apply Hne.
Qed.

Lemma plain_no_space s : plain s -> Forall (fun c => isWhiteSpace c = false) s.
Proof. intros [_ H]. eapply Forall_impl; [exact H|]. now intros c [Hc _]. Qed.

Lemma plain_length s : plain s -> (1 <= length s)%nat.
Proof. intros [Hne _]. destruct s; [contradiction | simpl; lia]. Qed.

End EmailFacts.

(** X2.  An address that [validateEmail] accepts holds exactly one "@", no
    white space and at least five code units; the "@" is not its first
    unit, and some "." stands at least two places after the "@" and is not
    the last unit. *)
Theorem validateEmail_accepts_only (s : list N) :
  validateEmail s = true ->
  count_occ N.eq_dec s 64%N = 1%nat
  /\ Forall (fun c => isWhiteSpace c = false) s
  /\ (5 <= length s)%nat
  /\ exists i j, s !! i = Some 64%N /\ s !! j = Some 46%N
                 /\ (0 < i)%nat /\ (i + 1 < j)%nat /\ (j + 1 < length s)%nat.
Proof.
  intros H. apply validateEmail_shape in H as (l & d & t & -> & Hl & Hd & Ht).
  pose proof (plain_length _ Hl). pose proof (plain_length _ Hd).
  pose proof (plain_length _ Ht).
  split; [|split; [|split]].
  - rewrite !count_occ_app, (plain_count l), (plain_count d), (plain_count t)
      by assumption.
    reflexivity.
  - repeat (apply Forall_app; split); try (now apply plain_no_space);
      (apply Forall_cons; split; [reflexivity | apply Forall_nil_2]).
  - rewrite !length_app. simpl. lia.
  - exists (length l), (length l + 1 + length d)%nat.
    split; [|split; [|split; [|split]]]; try lia.
    + rewrite lookup_app_r by lia. now rewrite Nat.sub_diag.
    + rewrite lookup_app_r by lia. simpl.
      replace (length l + 1 + length d - length l)%nat with (S (length d)) by lia.
      simpl. rewrite lookup_app_r by lia. now rewrite Nat.sub_diag.
    + rewrite !length_app. simpl. lia.
Qed.

Lemma validateEmail_accepts_only_witness :
  validateEmail (js "a@b.com") = true
  /\ count_occ N.eq_dec (js "a@b.com") 64%N = 1%nat.
Proof.
  split; [reflexivity|].
  apply (validateEmail_accepts_only (js "a@b.com")). reflexivity.
Defined.

(** ** [showNotification] *)

Section Notification.







End Notification.



Section NotificationArea.




End NotificationArea.



(** ** Observations that a statement leaves alone *)

Section PreservesFacts.

Context {A B X : Type} (g : World -> X).

Lemma Preserves_bind (m : JS A) (k : A -> JS B) :
  Preserves g m -> (forall a, Preserves g (k a)) -> Preserves g (bind m k).
Proof.
  intros Hm Hk w. destruct (bind_cases m k w) as [(a & _ & E & _)|(e & _ & E & _)];
    rewrite E.
  - now rewrite Hk, Hm.
  - apply Hm.
Qed.

Lemma Preserves_ret (a : A) : Preserves g (ret a).
Proof. intros w. reflexivity. Qed.

Lemma Preserves_throw (e : Error) : Preserves g (@throw A e).
Proof. intros w. reflexivity. Qed.

Lemma Preserves_gets (f : World -> A) : Preserves g (gets f).
Proof. intros w. reflexivity. Qed.

Lemma Preserves_nonNull (what : string) (o : option A) : Preserves g (nonNull what o).
Proof. intros w. destruct o; reflexivity. Qed.

Lemma Preserves_modify (f : World -> World) :
  (forall w, g (f w) = g w) -> Preserves g (modify f).
Proof. intros H w. apply H. Qed.

End PreservesFacts.

Lemma Preserves_forEach {X Y : Type} (g : World -> X) (f : Y -> JS unit) (l : list Y) :
  (forall y, Preserves g (f y)) -> Preserves g (forEach f l).
Proof.
  intros Hf. induction l as [|y l IH]; simpl.
  - apply Preserves_ret.
  - apply Preserves_bind; [apply Hf | intros _; apply IH].
Qed.

(** Proves [Preserves g m] for a statement built from the primitives; [tac]
    proves that a single update leaves [g] alone. *)
Ltac preserves tac :=
  repeat first
    [ apply Preserves_ret
    | apply Preserves_gets
    | apply Preserves_throw
    | apply Preserves_nonNull
    | apply Preserves_forEach; intros ?
    | match goal with
      | |- Preserves _ (match ?x with _ => _ end) => destruct x
      | |- Preserves _ (if ?b then _ else _) => destruct b
      | |- Preserves _ (bind _ _) => apply Preserves_bind; [|intros ?]
      | |- Preserves _ (modify _) => apply Preserves_modify; intros ?; tac
      end
    | progress unfold getElementById, modifyDocument, updateElement, updateAll, updateRef,
        mutate, setTimeout, queryNotificationArea, dateNow
    | progress unfold showNotification, clearFormErrors, showFormErrors, showFieldError,
        updateActiveNav, openAdminTab, updateDashboard, updateAuthButtons, showLoggedIn,
        renderProfile, renderAnnouncements, renderEvents, renderSchedules, renderUsers,
        updateUserActivity ].

(** ** [setLoading] and the two responses *)

Section Loading.

Lemma Preserves_loading_showLoggedIn u : Preserves loadingState (showLoggedIn u).
Proof. preserves ltac:(idtac; reflexivity). Qed.

Lemma Preserves_loading_showNotification message type elementId :
  Preserves loadingState (showNotification message type elementId).
Proof. preserves ltac:(idtac; reflexivity). Qed.

Lemma setLoading_run b w :
  setLoading b w
  = (Normal tt,
     setDocument
       (setSubmitButtons
          (map (fun s =>
                  if b then mkSubmitButton (buttonClasses s ∪ {["loading"]}) true
                  else mkSubmitButton (buttonClasses s ∖ {["loading"]}) false)
             (submitButtons (document w))) (document w))
       (setAppState (mkAppState b (lastActivity (appState w))
                       (sessionTimeout (appState w)) (currentSection (appState w))) w)).
Proof. reflexivity. Qed.

Lemma response_loading (user : User.t) (rest : JS unit) w :
  Preserves loadingState rest ->
  loadingState (after (setLoading false >> modify (setCurrentUser (Some user)) >> rest) w)
  = loadingState (after (setLoading false) w).
Proof.
  intros Hrest.
  destruct (after_bind (setLoading false)
              (fun _ => modify (setCurrentUser (Some user)) >> rest) w tt eq_refl)
    as [E _].
  rewrite E.
  assert (H : Preserves loadingState (modify (setCurrentUser (Some user)) >> rest)).
  { apply Preserves_bind; [apply Preserves_modify; reflexivity | intros _; exact Hrest]. }
  apply H.
Qed.

End Loading.

Section LoadingSubmit.

Lemma Preserves_loading_clearFormErrors formId :
  Preserves loadingState (clearFormErrors formId).
Proof. preserves ltac:(idtac; reflexivity). Qed.

Lemma loading_on w :
  let w1 := after (setLoading true) w in
  isLoading (appState w1) = true
  /\ submitButtons (document w1)
     = map (fun b => mkSubmitButton (buttonClasses b ∪ {["loading"]}) true)
         (submitButtons (document w)).
Proof. split; reflexivity. Qed.

Lemma loading_off w :
  loadingState (after (setLoading false) w)
  = (false,
     map (fun b => mkSubmitButton (buttonClasses b ∖ {["loading"]}) false)
       (submitButtons (document w))).
Proof. reflexivity. Qed.

Lemma submitted_loading cb w0 w1 :
  loadingState w1 = loadingState w0 ->
  let w' := after (setLoading true >> setTimeout cb 1000) w1 in
  isLoading (appState w') = true
  /\ submitButtons (document w')
     = map (fun b => mkSubmitButton (buttonClasses b ∪ {["loading"]}) true)
         (submitButtons (document w0)).
Proof.
  intros H. injection H as _ Hb. cbv zeta.
  destruct (schedule_response cb w1) as [-> _]. simpl. now rewrite Hb.
Qed.

Lemma response_buttons cb w2 :
  loadingState (after (runCallback cb) w2) = loadingState (after (setLoading false) w2) ->
  let w3 := after (runCallback cb) w2 in
  isLoading (appState w3) = false
  /\ length (submitButtons (document w3)) = length (submitButtons (document w2))
  /\ Forall (fun b => disabled b = false /\ "loading" ∉ buttonClasses b)
       (submitButtons (document w3)).
Proof.
  intros H. rewrite loading_off in H. injection H as Hl Hb. cbv zeta.
  split; [exact Hl|]. rewrite Hb. split; [now rewrite length_map|].
  apply Forall_map. apply Forall_forall. intros b _. simpl.
  split; [reflexivity | set_solver].
Qed.

End LoadingSubmit.

(** X5.  A login or register submission that passes validation sets
    [appState.isLoading], disables every submit button of the page and
    gives it the class [loading], and registers its response 1000 ms
    ahead.  The response, in whatever state it runs and whether or not it
    completes, first clears the flag and enables every submit button,
    also those that were disabled before the submission. *)
Theorem loading_brackets_response (f : Form) (w : World) (fd : gmap string (list N)) :
  f = LoginForm \/ f = RegisterForm ->
  readForm f w = Normal fd ->
  validates f fd = true ->
  let w1 := after (submit f) w in
  isLoading (appState w1) = true
  /\ submitButtons (document w1)
     = map (fun b => mkSubmitButton (buttonClasses b ∪ {["loading"]}) true)
         (submitButtons (document w))
  /\ timers w1 = timers w ++ [(clock w + 1000, response f fd)]
  /\ forall w2,
       let w3 := after (runCallback (response f fd)) w2 in
       isLoading (appState w3) = false
       /\ length (submitButtons (document w3)) = length (submitButtons (document w2))
       /\ Forall (fun b => disabled b = false /\ "loading" ∉ buttonClasses b)
            (submitButtons (document w3)).
Proof.
  intros Hf Hread Hvalid.
  destruct Hf as [-> | ->]; cbv [submit response] in *.
  - unfold loginSubmit. open_handler LoginForm Hread w1 Hdom.
    pose proof (Preserves_loading_clearFormErrors "loginForm" w) as Hl. fold w1 in Hl.
    apply domRel_fields in Hdom as (_ & _ & _ & _ & Hclock & Htimers & _).
    cbv [validates requiredFields] in Hvalid. cbv zeta. rewrite Hvalid. cbn [negb].
    destruct (submitted_loading (LoginResponse fd) w w1 Hl) as [H1 H2].
    split; [exact H1|]. split; [exact H2|]. split.
    + destruct (schedule_response (LoginResponse fd) w1) as [-> _]. simpl. congruence.
    + intros w2. apply response_buttons. simpl runCallback. unfold loginResponse.
      apply response_loading.
      preserves ltac:(idtac; reflexivity).
  - unfold registerSubmit. open_handler RegisterForm Hread w1 Hdom.
    pose proof (Preserves_loading_clearFormErrors "registerForm" w) as Hl. fold w1 in Hl.
    apply domRel_fields in Hdom as (_ & _ & _ & _ & Hclock & Htimers & _).
    cbv [validates requiredFields] in Hvalid. cbv zeta. rewrite Hvalid. cbn [negb].
    destruct (submitted_loading (RegisterResponse fd) w w1 Hl) as [H1 H2].
    split; [exact H1|]. split; [exact H2|]. split.
    + destruct (schedule_response (RegisterResponse fd) w1) as [-> _]. simpl. congruence.
    + intros w2. apply response_buttons. simpl runCallback. unfold registerResponse.
      apply response_loading.
      preserves ltac:(idtac; reflexivity).
Qed.

Lemma loading_brackets_response_witness :
  readForm LoginForm loginDraft = Normal loginData
  /\ validates LoginForm loginData = true
  /\ isLoading (appState (after (submit LoginForm) loginDraft)) = true.
Proof.
  assert (Hread : readForm LoginForm loginDraft = Normal loginData)
    by (vm_compute; reflexivity).
  assert (Hvalid : validates LoginForm loginData = true)
    by (vm_compute; reflexivity).
  split; [exact Hread|]. split; [exact Hvalid|].
  exact (proj1 (loading_brackets_response LoginForm loginDraft loginData
                  (or_introl eq_refl) Hread Hvalid)).
Defined.

(** ** [clearFormErrors] *)

Section ClearErrors.

Lemma clearFormErrors_run formId w :
  is_Some (byId (document w) !! formId) ->
  clearFormErrors formId w
  = (Normal tt,
     setDocument
       (setById
          ((fun e =>
              if bool_decide (ownerForm e = Some formId) && hasClass "error-message" e
              then addClass "hidden" (setTextContent [] e) else e)
             <$> byId (document w)) (document w)) w).
Proof.
  intros [form Hform]. unfold clearFormErrors, bind, getElementById, gets.
  now rewrite Hform.
Qed.

Lemma clearFormErrors_missing formId w :
  byId (document w) !! formId = None -> clearFormErrors formId w = (Normal tt, w).
Proof.
  intros Hform. unfold clearFormErrors, bind, getElementById, gets.
  now rewrite Hform.
Qed.

End ClearErrors.

(** X6.  [clearFormErrors]: when the page has no element with the form's
    id nothing changes.  Otherwise the call returns normally, every element
    inside the form that carries the class [error-message] ends with no
    content and with the class [hidden], and every other element of the
    page is exactly as before; nothing but the document changes. *)
Theorem clearFormErrors_slots (formId : string) (w : World) :
  (byId (document w) !! formId = None -> clearFormErrors formId w = (Normal tt, w))
  /\ (is_Some (byId (document w) !! formId) ->
      let w' := after (clearFormErrors formId) w in
      outcome (clearFormErrors formId) w = Normal tt
      /\ w' = setDocument (setById (byId (document w')) (document w)) w
      /\ (forall id e, byId (document w) !! id = Some e ->
            ownerForm e = Some formId -> "error-message" ∈ classList e ->
            exists e', byId (document w') !! id = Some e'
                       /\ children e' = [] /\ "hidden" ∈ classList e'
                       /\ classList e' = classList e ∪ {["hidden"]}
                       /\ skeleton e' = skeleton e)
      /\ (forall id e, byId (document w) !! id = Some e ->
            ownerForm e <> Some formId \/ "error-message" ∉ classList e ->
            byId (document w') !! id = Some e)
      /\ (forall id, byId (document w) !! id = None -> byId (document w') !! id = None)).
Proof.
  split; [apply clearFormErrors_missing|].
  intros Hform w'.
  destruct (run_after _ _ _ _ (clearFormErrors_run formId w Hform)) as [Ho Hw'].
  fold w' in Hw'. split; [exact Ho|]. rewrite Hw'. simpl.
  split; [reflexivity|]. split; [|split].
  - intros id e He Hown Hcls. rewrite lookup_fmap, He. simpl.
    unfold hasClass. rewrite !bool_decide_eq_true_2 by assumption. simpl.
    eexists. split; [reflexivity|]. simpl.
    split; [reflexivity|]. split; [set_solver|]. split; reflexivity.
  - intros id e He Hnot. rewrite lookup_fmap, He. simpl. unfold hasClass.
    destruct Hnot as [Hnot|Hnot].
    + now rewrite (bool_decide_eq_false_2 _ Hnot).
    + rewrite (bool_decide_eq_false_2 _ Hnot). now rewrite andb_false_r.
  - intros id He. now rewrite lookup_fmap, He.
Qed.

Lemma clearFormErrors_slots_witness :
  let w := after loginSubmit (initialWorld nairobi noonNairobi) in
  (children <$> byId (document w) !! "emailError" = Some [Text (js "email is required")])
  /\ (children <$> byId (document (after (clearFormErrors "loginForm") w)) !! "emailError"
      = Some []).
Proof.
  set (w := after loginSubmit (initialWorld nairobi noonNairobi)).
  split; [vm_compute; reflexivity|].
  assert (Hform : is_Some (byId (document w) !! "loginForm"))
    by (vm_compute; eexists; reflexivity).
  destruct (proj2 (clearFormErrors_slots "loginForm" w) Hform) as (_ & _ & Hslots & _).
  assert (He : byId (document w) !! "emailError"
               = Some (removeClass "hidden"
                         (setTextContent (js "email is required") (errorSlot "loginForm"))))
    by (vm_compute; reflexivity).
  destruct (Hslots "emailError" _ He) as (e' & -> & Hc & _).
  - reflexivity.
  - refine (bool_decide_unpack _ _); vm_compute; exact I.
  - simpl. now rewrite Hc.
Defined.

(** ** [showSection] *)

Section ShowSectionMore.



Lemma shown_facts sectionId w :
  let w' := shown sectionId w in
  currentSection (appState w') = sectionId
  /\ lastActivity (appState w') = clock w
  /\ mobileMenu (document w') = Some "false"
  /\ (forall nav, byId (document w') !! "main-nav" = Some nav -> "active" ∉ classList nav)
  /\ currentUser w' = currentUser w
  /\ database w' = database w
  /\ userProfileData w' = userProfileData w
  /\ timers w' = timers w.
Proof.
  cbv zeta. do 3 (split; [reflexivity|]). split; [|repeat split].
  intros nav Hnav. simpl in Hnav. rewrite lookup_alter_eq in Hnav.
  destruct (alter _ sectionId _ !! "main-nav") as [e|]; simpl in Hnav; [|discriminate].
  injection Hnav as <-. simpl. set_solver.
Qed.

End ShowSectionMore.

(** X7.  [showSection] on a page with the [main-nav] element and the menu
    button, for a section other than "profile" and "dashboard", or for any
    section while nobody is logged in (the id being one that can stand in
    the selector of [updateActiveNav] as it is): the call returns normally, the
    section becomes [appState.currentSection], the time of the last
    activity becomes the current time, the menu is closed, and of all
    [section] elements exactly the requested one is left without the class
    [hidden]; the store and the pending callbacks are as before. *)
Theorem showSection_shows_only (sectionId : string) (w : World) :
  selectorSafe sectionId ->
  currentUser w = None \/ (sectionId <> "profile" /\ sectionId <> "dashboard") ->
  hasElement "main-nav" w ->
  is_Some (mobileMenu (document w)) ->
  let w' := after (showSection sectionId) w in
  outcome (showSection sectionId) w = Normal tt
  /\ onlyShown sectionId w'
  /\ currentSection (appState w') = sectionId
  /\ lastActivity (appState w') = clock w
  /\ mobileMenu (document w') = Some "false"
  /\ (forall nav, byId (document w') !! "main-nav" = Some nav -> "active" ∉ classList nav)
  /\ currentUser w' = currentUser w
  /\ database w' = database w
  /\ userProfileData w' = userProfileData w
  /\ timers w' = timers w.
Proof.
  intros _ Hplain Hnav Hmenu w'.
  destruct (run_after _ _ _ _ (showSection_plain sectionId w Hplain Hnav Hmenu))
    as [Ho Hw'].
  fold w' in Hw'. split; [exact Ho|]. rewrite Hw'.
  split; [apply onlyShown_shown | apply shown_facts].
Qed.

Lemma showSection_shows_only_witness :
  let w := adminSession nairobi noonNairobi in
  let w' := after (showSection "features") w in
  is_Some (currentUser w)
  /\ currentSection (appState w') = "features"
  /\ onlyShown "features" w'.
Proof.
  split; [vm_compute; eexists; reflexivity|].
  destruct (showSection_shows_only "features" (adminSession nairobi noonNairobi))
    as (_ & Hshown & Hsect & _).
  - refine (bool_decide_unpack _ _); vm_compute; exact I.
  - right. split; discriminate.
  - vm_compute; eexists; reflexivity.
  - vm_compute; eexists; reflexivity.
  - split; [exact Hsect | exact Hshown].
Defined.



(** ** [updateActiveNav] *)

Section ActiveNav.

Lemma lookup_map {X Y : Type} (f : X -> Y) (l : list X) (i : nat) :
  map f l !! i = f <$> l !! i.
Proof. revert i. induction l as [|x l IH]; intros [|i]; simpl; auto. Qed.

Lemma firstMatch_unique sectionId links i j :
  firstMatch sectionId links i -> firstMatch sectionId links j -> i = j.
Proof.
  intros [(l & Hl & Hp) Hi] [(l' & Hl' & Hp') Hj].
  destruct (lt_eq_lt_dec i j) as [[Hlt|Heq]|Hgt]; [|exact Heq|].
  - rewrite (Hj i l Hl Hlt) in Hp. discriminate.
  - rewrite (Hi j l' Hl' Hgt) in Hp'. discriminate.
Qed.

Lemma activate_lookup sectionId links i l' :
  activate sectionId links !! i = Some l' ->
  exists l, links !! i = Some l
            /\ onclick l' = onclick l
            /\ linkClasses l' ∖ {["active"]} = linkClasses l ∖ {["active"]}
            /\ ("active" ∈ linkClasses l' <-> firstMatch sectionId links i).
Proof.
  unfold activate.
  set (cleared := map (fun l => mkNavLink (onclick l) (linkClasses l ∖ {["active"]})) links).
  assert (Hc : forall j x, cleared !! j = Some x ->
                 exists l, links !! j = Some l /\ onclick x = onclick l
                           /\ linkClasses x = linkClasses l ∖ {["active"]}).
  { intros j x Hx. unfold cleared in Hx. rewrite lookup_map in Hx.
    destruct (links !! j) as [l|]; [|discriminate]. injection Hx as <-. eauto. }
  assert (Hp : forall x l, onclick x = onclick l ->
                 onclickContains sectionId x = onclickContains sectionId l).
  { intros x l E. unfold onclickContains. now rewrite E. }
  destruct (list_find _ cleared) as [[i0 x0]|] eqn:Hfind.
  - apply list_find_Some in Hfind as (Hx0 & Px0 & Hbefore).
    destruct (Hc _ _ Hx0) as (l0 & Hl0 & Ho0 & _).
    assert (Hfirst : firstMatch sectionId links i0).
    { split.
      - exists l0. split; [exact Hl0|]. now rewrite <- (Hp _ _ Ho0).
      - intros j l Hl Hlt.
        assert (Hj : cleared !! j
                     = Some (mkNavLink (onclick l) (linkClasses l ∖ {["active"]})))
          by (unfold cleared; now rewrite lookup_map, Hl).
        specialize (Hbefore _ _ Hj Hlt).
        rewrite (Hp (mkNavLink (onclick l) (linkClasses l ∖ {["active"]})) l eq_refl)
          in Hbefore.
        now destruct (onclickContains sectionId l). }
    intros Hl'. rewrite list_lookup_alter in Hl'.
    destruct (decide (i0 = i)) as [<-|Hne].
    + rewrite Hx0 in Hl'. injection Hl' as <-.
      destruct (Hc _ _ Hx0) as (l & Hl & Ho & Hcl).
      exists l. split; [exact Hl|]. split; [exact Ho|]. simpl. rewrite Hcl.
      split; [set_solver|]. split; [intros _; exact Hfirst | set_solver].
    + destruct (Hc _ _ Hl') as (l & Hl & Ho & Hcl).
      exists l. split; [exact Hl|]. split; [exact Ho|]. rewrite Hcl.
      split; [set_solver|]. split; [set_solver|].
      intros Hi. exfalso. apply Hne. now apply (firstMatch_unique sectionId links).
  - apply list_find_None in Hfind. rewrite Forall_forall in Hfind.
    intros Hl'. destruct (Hc _ _ Hl') as (l & Hl & Ho & Hcl).
    exists l. split; [exact Hl|]. split; [exact Ho|]. rewrite Hcl.
    split; [set_solver|]. split; [set_solver|].
    intros [(l1 & Hl1 & Hp1) _]. exfalso.
    assert (l1 = l) by congruence. subst l1.
    apply (Hfind l'); [now apply list_elem_of_lookup_2 with i|].
    now rewrite (Hp _ _ Ho).
Qed.

Lemma activate_length sectionId links :
  length (activate sectionId links) = length links.
Proof.
  unfold activate. destruct (list_find _ _) as [[i x]|];
    now rewrite ?length_alter, length_map.
Qed.

End ActiveNav.

(** X9.  [updateActiveNav], for an id that can stand in the selector as it
    is, never throws and changes only the navigation links: their number, their [onclick] attributes and their classes other
    than [active] stay as they are, and afterwards a link carries [active]
    exactly when it is the first link, in document order, whose [onclick]
    attribute holds the section id as a substring.  So at most one link is
    active, and none when no link matches or the id is empty. *)
Theorem updateActiveNav_first_match (sectionId : string) (w : World) :
  selectorSafe sectionId ->
  let w' := after (updateActiveNav sectionId) w in
  let links := navLinks (document w) in
  let links' := navLinks (document w') in
  outcome (updateActiveNav sectionId) w = Normal tt
  /\ w' = setDocument (setNavLinks links' (document w)) w
  /\ length links' = length links
  /\ (forall i l', links' !! i = Some l' ->
        exists l, links !! i = Some l
                  /\ onclick l' = onclick l
                  /\ linkClasses l' ∖ {["active"]} = linkClasses l ∖ {["active"]}
                  /\ ("active" ∈ linkClasses l' <-> firstMatch sectionId links i))
  /\ (forall i j a b, links' !! i = Some a -> links' !! j = Some b ->
        "active" ∈ linkClasses a -> "active" ∈ linkClasses b -> i = j)
  /\ (sectionId = EmptyString ->
      forall i l', links' !! i = Some l' -> "active" ∉ linkClasses l').
Proof.
  intros _ w' links links'.
  destruct (run_after _ _ _ _ (updateActiveNav_run sectionId w)) as [Ho Hw'].
  fold w' in Hw'. split; [exact Ho|].
  assert (Hlinks : links' = activate sectionId links) by (unfold links'; now rewrite Hw').
  split; [rewrite Hlinks; exact Hw'|].
  split; [rewrite Hlinks; apply activate_length|].
  assert (Hlook : forall i l', links' !! i = Some l' ->
            exists l, links !! i = Some l
                      /\ onclick l' = onclick l
                      /\ linkClasses l' ∖ {["active"]} = linkClasses l ∖ {["active"]}
                      /\ ("active" ∈ linkClasses l' <-> firstMatch sectionId links i)).
  { intros i l' Hl'. rewrite Hlinks in Hl'. now apply activate_lookup. }
  split; [exact Hlook|]. split.
  - intros i j a b Ha Hb Hact Hbct.
    destruct (Hlook i a Ha) as (_ & _ & _ & _ & Hi).
    destruct (Hlook j b Hb) as (_ & _ & _ & _ & Hj).
    apply (firstMatch_unique sectionId links); tauto.
  - intros -> i l' Hl' Hact.
    destruct (Hlook i l' Hl') as (_ & _ & _ & _ & Hi).
    apply Hi in Hact as [(l & _ & Hp) _]. unfold onclickContains in Hp. discriminate.
Qed.

Lemma updateActiveNav_first_match_witness :
  let w := initialWorld nairobi noonNairobi in
  selectorSafe "features"
  /\ map (fun l => bool_decide ("active" ∈ linkClasses l))
       (navLinks (document (after (updateActiveNav "features") w)))
     = [false; true; false]
  /\ length (navLinks (document (after (updateActiveNav "features") w)))
     = length (navLinks (document w)).
Proof.
  assert (Hsafe : selectorSafe "features")
    by (refine (bool_decide_unpack _ _); vm_compute; exact I).
  split; [exact Hsafe|]. split; [vm_compute; reflexivity|].
  apply (updateActiveNav_first_match "features" (initialWorld nairobi noonNairobi) Hsafe).
Defined.

(** ** [openAdminTab] *)

Section AdminTabs.

Lemma alter_missing (f : Element -> Element) id (m : gmap string Element) :
  m !! id = None -> alter f id m = m.
Proof.
  intros H. apply map_eq. intros j. rewrite lookup_alter.
  destruct (decide (id = j)) as [<-|]; [now rewrite H | reflexivity].
Qed.

Lemma openAdminTab_run tabName w :
  openAdminTab tabName w
  = (Normal tt,
     setDocument
       (setAdminTabs
          (map (fun t =>
                  if includes (js tabName) (toLowerCase (host w) (tabText t))
                  then mkAdminTab (tabText t) (tabClasses t ∪ {["active"]})
                  else t)
             (map (fun t => mkAdminTab (tabText t) (tabClasses t ∖ {["active"]}))
                (adminTabs (document w))))
          (setById
             (alter (removeClass "hidden") (tabName +:+ "-tab")
                ((fun e => if hasClass "admin-tab-content" e then addClass "hidden" e else e)
                   <$> byId (document w)))
             (document w))) w).
Proof.
  unfold openAdminTab.
  rewrite (bind_run (updateAll _ _) _ w tt _ eq_refl).
  rewrite (bind_run (modifyDocument _) _ _ tt _ eq_refl).
  set (hidden := (fun e => if hasClass "admin-tab-content" e then addClass "hidden" e else e)
                   <$> byId (document w)).
  set (cleared := map (fun t => mkAdminTab (tabText t) (tabClasses t ∖ {["active"]}))
                    (adminTabs (document w))).
  rewrite (bind_run (getElementById (tabName +:+ "-tab")) _ _
             (hidden !! (tabName +:+ "-tab")) _ eq_refl).
  destruct (hidden !! (tabName +:+ "-tab")) as [e|] eqn:He.
  - reflexivity.
  - rewrite (alter_missing _ _ _ He). reflexivity.
Qed.

Lemma openAdminTab_lookup tabName w id e :
  byId (document w) !! id = Some e ->
  exists e', byId (document (after (openAdminTab tabName) w)) !! id = Some e'
             /\ skeleton e' = skeleton e /\ children e' = children e
             /\ classList e' ∖ {["hidden"]} = classList e ∖ {["hidden"]}
             /\ ("hidden" ∈ classList e' <->
                 id <> tabName +:+ "-tab"
                 /\ ("admin-tab-content" ∈ classList e \/ "hidden" ∈ classList e)).
Proof.
  intros He.
  destruct (run_after _ _ _ _ (openAdminTab_run tabName w)) as [_ ->]. simpl.
  rewrite lookup_alter_fmap, lookup_fmap, He. simpl.
  eexists. split; [reflexivity|]. unfold hasClass.
  destruct (decide (tabName +:+ "-tab" = id)) as [Hid|Hid];
    destruct (bool_decide ("admin-tab-content" ∈ classList e)) eqn:Hc;
    try apply bool_decide_eq_true in Hc; try apply bool_decide_eq_false in Hc;
    simpl; (split; [reflexivity|]); (split; [reflexivity|]);
    (split; [set_solver|]);
    rewrite ?elem_of_difference, ?elem_of_union, ?elem_of_singleton;
    split; intros H; intuition congruence.
Qed.

End AdminTabs.

(** X10.  [openAdminTab] never throws and changes only classes.  Afterwards
    an element of the page is hidden exactly when it is not the element
    [<tabName>-tab] and either carries the class [admin-tab-content] or was
    hidden before: of the tab contents only the requested one is shown,
    and none when the page has no element of that name.  A tab button is
    active exactly when its text, in lower case, holds the tab name. *)
Theorem openAdminTab_shows_one (tabName : string) (w : World) :
  let w' := after (openAdminTab tabName) w in
  outcome (openAdminTab tabName) w = Normal tt
  /\ w' = setDocument
            (setAdminTabs (adminTabs (document w'))
               (setById (byId (document w')) (document w))) w
  /\ (forall id, byId (document w) !! id = None -> byId (document w') !! id = None)
  /\ (forall id e, byId (document w) !! id = Some e ->
        exists e', byId (document w') !! id = Some e'
                   /\ skeleton e' = skeleton e /\ children e' = children e
                   /\ classList e' ∖ {["hidden"]} = classList e ∖ {["hidden"]}
                   /\ ("hidden" ∈ classList e' <->
                       id <> tabName +:+ "-tab"
                       /\ ("admin-tab-content" ∈ classList e \/ "hidden" ∈ classList e)))
  /\ length (adminTabs (document w')) = length (adminTabs (document w))
  /\ (forall i t', adminTabs (document w') !! i = Some t' ->
        exists t, adminTabs (document w) !! i = Some t
                  /\ tabText t' = tabText t
                  /\ tabClasses t' ∖ {["active"]} = tabClasses t ∖ {["active"]}
                  /\ ("active" ∈ tabClasses t' <->
                      includes (js tabName) (toLowerCase (host w) (tabText t)) = true)).
Proof.
  intros w'.
  assert (Hlook : forall id e, byId (document w) !! id = Some e ->
            exists e', byId (document w') !! id = Some e'
                       /\ skeleton e' = skeleton e /\ children e' = children e
                       /\ classList e' ∖ {["hidden"]} = classList e ∖ {["hidden"]}
                       /\ ("hidden" ∈ classList e' <->
                           id <> tabName +:+ "-tab"
                           /\ ("admin-tab-content" ∈ classList e
                               \/ "hidden" ∈ classList e)))
    by (intros id e; apply openAdminTab_lookup).
  destruct (run_after _ _ _ _ (openAdminTab_run tabName w)) as [Ho Hw'].
  fold w' in Hw'. split; [exact Ho|]. rewrite Hw' in *. simpl.
  split; [reflexivity|]. split; [|split; [|split]].
  - intros id He. rewrite lookup_alter_fmap, lookup_fmap, He. reflexivity.
  - exact Hlook.
  - now rewrite !length_map.
  - intros i t' Ht'. rewrite !lookup_map in Ht'.
    destruct (adminTabs (document w) !! i) as [t|]; [|discriminate].
    simpl in Ht'. injection Ht' as <-. exists t. split; [reflexivity|].
    destruct (includes _ _); simpl; (split; [reflexivity|]);
      (split; [set_solver|]); split; intros H; try reflexivity; try discriminate;
      set_solver.
Qed.

(** ** [updateDashboard] *)

Section Dashboard.

Lemma updateDashboard_admin w s a :
  byId (document w) !! "studentDashboard" = Some s ->
  byId (document w) !! "adminDashboard" = Some a ->
  isAdminUser (currentUser w) = true ->
  updateDashboard w
  = openAdminTab "announcements"
      (setDocument
         (setById
            (alter (removeClass "hidden") "adminDashboard"
               (alter (addClass "hidden") "studentDashboard" (byId (document w))))
            (document w)) w).
Proof.
  intros Hs Ha Hadmin.
  unfold updateDashboard, bind, getElementById, gets.
  rewrite Hs, Ha, Hadmin. reflexivity.
Qed.

Lemma updateDashboard_student w s a :
  byId (document w) !! "studentDashboard" = Some s ->
  byId (document w) !! "adminDashboard" = Some a ->
  isAdminUser (currentUser w) = false ->
  updateDashboard w
  = (Normal tt,
     setDocument
       (setById
          (alter (addClass "hidden") "adminDashboard"
             (alter (removeClass "hidden") "studentDashboard" (byId (document w))))
          (document w)) w).
Proof.
  intros Hs Ha Hadmin.
  unfold updateDashboard, bind, getElementById, gets.
  rewrite Hs, Ha, Hadmin. reflexivity.
Qed.

Lemma updateDashboard_no_student w :
  byId (document w) !! "studentDashboard" = None ->
  updateDashboard w = (Throw (TypeError "studentDashboard"), w).
Proof.
  intros Hs. unfold updateDashboard, bind, getElementById, gets.
  rewrite Hs. destruct (isAdminUser (currentUser w)); reflexivity.
Qed.

Lemma updateDashboard_no_admin w s :
  byId (document w) !! "studentDashboard" = Some s ->
  byId (document w) !! "adminDashboard" = None ->
  updateDashboard w
  = (Throw (TypeError "adminDashboard"),
     setDocument
       (setById
          (alter (if isAdminUser (currentUser w) then addClass "hidden"
                  else removeClass "hidden")
             "studentDashboard" (byId (document w)))
          (document w)) w).
Proof.
  intros Hs Ha. unfold updateDashboard, bind, getElementById, gets.
  rewrite Hs, Ha. destruct (isAdminUser (currentUser w)); reflexivity.
Qed.

End Dashboard.

(** X11.  [updateDashboard] on a page that has both dashboard elements
    (the admin one not being a tab content): the call returns normally;
    afterwards the admin dashboard is hidden exactly when the current user
    is not an administrator, and the student dashboard exactly when the
    user is one, so a visitor who is not logged in gets the student
    dashboard.  When the page lacks the student dashboard the call throws
    a [TypeError] and changes nothing; when it lacks only the admin
    dashboard it throws after the student dashboard has been switched. *)
Theorem updateDashboard_panels (w : World) :
  (forall s a,
      byId (document w) !! "studentDashboard" = Some s ->
      byId (document w) !! "adminDashboard" = Some a ->
      "admin-tab-content" ∉ classList a ->
      let w' := after updateDashboard w in
      outcome updateDashboard w = Normal tt
      /\ (exists a', byId (document w') !! "adminDashboard" = Some a'
                     /\ ("hidden" ∈ classList a' <-> isAdminUser (currentUser w) = false))
      /\ (exists s', byId (document w') !! "studentDashboard" = Some s'
                     /\ ("hidden" ∈ classList s' <-> isAdminUser (currentUser w) = true)))
  /\ (byId (document w) !! "studentDashboard" = None ->
      updateDashboard w = (Throw (TypeError "studentDashboard"), w))
  /\ (forall s,
        byId (document w) !! "studentDashboard" = Some s ->
        byId (document w) !! "adminDashboard" = None ->
        outcome updateDashboard w = Throw (TypeError "adminDashboard")
        /\ exists s', byId (document (after updateDashboard w)) !! "studentDashboard"
                      = Some s'
                      /\ ("hidden" ∈ classList s' <-> isAdminUser (currentUser w) = true)).
Proof.
  assert (Hne : "adminDashboard" <> "studentDashboard") by discriminate.
  split; [|split].
  - intros s a Hs Ha Hcontent w'.
    destruct (isAdminUser (currentUser w)) eqn:Hadmin.
    + destruct (after_eq _ _ _ _ (updateDashboard_admin w s a Hs Ha Hadmin)) as [Hw' Ho].
      fold w' in Hw'. set (w2 := setDocument _ w) in *.
      assert (Ha2 : byId (document w2) !! "adminDashboard" = Some (removeClass "hidden" a))
        by (simpl; rewrite lookup_alter_eq, lookup_alter_ne, Ha by congruence;
            reflexivity).
      assert (Hs2 : byId (document w2) !! "studentDashboard" = Some (addClass "hidden" s))
        by (simpl; rewrite lookup_alter_ne, lookup_alter_eq, Hs by congruence;
            reflexivity).
      split; [rewrite Ho; now destruct (run_after _ _ _ _ (openAdminTab_run "announcements" w2))|].
      rewrite Hw'. split.
      * destruct (openAdminTab_lookup "announcements" w2 _ _ Ha2) as (a' & Ha' & _ & _ & _ & Hh).
        exists a'. split; [exact Ha'|]. rewrite Hh. simpl.
        split; [|discriminate]. intros [_ [H|H]]; set_solver.
      * destruct (openAdminTab_lookup "announcements" w2 _ _ Hs2) as (s' & Hs' & _ & _ & _ & Hh).
        exists s'. split; [exact Hs'|]. rewrite Hh. simpl.
        split; [reflexivity|]. intros _. split; [discriminate | set_solver].
    + destruct (run_after _ _ _ _ (updateDashboard_student w s a Hs Ha Hadmin)) as [Ho Hw'].
      fold w' in Hw'. split; [exact Ho|]. rewrite Hw'. simpl. split.
      * exists (addClass "hidden" a).
        rewrite lookup_alter_eq, lookup_alter_ne, Ha by congruence.
        split; [reflexivity|]. simpl. split; [reflexivity | set_solver].
      * exists (removeClass "hidden" s).
        rewrite lookup_alter_ne, lookup_alter_eq, Hs by congruence.
        split; [reflexivity|]. simpl. split; [set_solver | discriminate].
  - apply updateDashboard_no_student.
  - intros s Hs Ha.
    destruct (run_after _ _ _ _ (updateDashboard_no_admin w s Hs Ha)) as [Ho Hw'].
    split; [exact Ho|]. rewrite Hw'. simpl. rewrite lookup_alter_eq, Hs. simpl.
    eexists. split; [reflexivity|].
    destruct (isAdminUser (currentUser w)); simpl;
      (split; [try reflexivity; set_solver | try discriminate; set_solver]).
Qed.

Lemma updateDashboard_panels_witness :
  let w := adminSession nairobi noonNairobi in
  let w' := after updateDashboard w in
  isAdminUser (currentUser w) = true
  /\ (exists a', byId (document w') !! "adminDashboard" = Some a'
                 /\ ("hidden" ∈ classList a' <-> isAdminUser (currentUser w) = false)).
Proof.
  split; [reflexivity|].
  destruct (proj1 (updateDashboard_panels (adminSession nairobi noonNairobi))
              (block "div" []) (block "div" ["hidden"]))
    as (_ & Hadmin & _).
  - vm_compute; reflexivity.
  - vm_compute; reflexivity.
  - refine (bool_decide_unpack _ _); vm_compute; exact I.
  - exact Hadmin.
Defined.

(** ** The four renderers *)

Section Render.

Lemma world_eta w : setDocument (setById (byId (document w)) (document w)) w = w.
Proof. destruct w as [? ? ? ? [? ? ? ? ? ?] ? ? ? ? ?]. reflexivity. Qed.

Lemma setChildren_id e : setChildren (children e) e = e.
Proof. now destruct e. Qed.

(** A loop that appends one node per item to the element [id]. *)
Lemma forEach_appends {X : Type} (cb : X -> JS unit) (node : Host -> X -> Node) id :
  (forall x w,
      cb x w
      = (Normal tt,
         setDocument
           (setById (alter (appendChild (node (host w) x)) id (byId (document w)))
              (document w)) w)) ->
  forall items w,
    exists m,
      forEach cb items w = (Normal tt, setDocument (setById m (document w)) w)
      /\ m !! id
         = (fun e => setChildren (children e ++ map (node (host w)) items) e)
             <$> byId (document w) !! id
      /\ forall j, j <> id -> m !! j = byId (document w) !! j.
Proof.
  intros Hcb. induction items as [|x items IH]; intros w.
  - exists (byId (document w)). simpl. split; [now rewrite world_eta|]. split; [|auto].
    destruct (byId (document w) !! id) as [e|]; [|reflexivity]. simpl.
    now rewrite app_nil_r, setChildren_id.
  - simpl forEach. rewrite (bind_run (cb x) _ w tt _ (Hcb x w)).
    set (w1 := setDocument _ w).
    destruct (IH w1) as (m & Hrun & Hid & Hother).
    exists m. split; [exact Hrun|]. split.
    + rewrite Hid. simpl. rewrite lookup_alter_eq.
      destruct (byId (document w) !! id) as [e|]; [|reflexivity]. simpl.
      unfold setChildren, appendChild. simpl. now rewrite <- app_assoc.
    + intros j Hj. rewrite (Hother j Hj). simpl. now rewrite lookup_alter_ne by congruence.
Qed.

Lemma render_missing c w :
  byId (document w) !! listId c = None -> render c w = (Normal tt, w).
Proof.
  intros H. destruct c; cbv [render listId] in *;
    [unfold renderAnnouncements | unfold renderEvents
     | unfold renderSchedules | unfold renderUsers];
    unfold bind, getElementById, gets; now rewrite H.
Qed.

Lemma render_present c w e :
  byId (document w) !! listId c = Some e ->
  exists m,
    render c w = (Normal tt, setDocument (setById m (document w)) w)
    /\ m !! listId c = Some (setChildren (rendering c w) e)
    /\ forall j, j <> listId c -> m !! j = byId (document w) !! j.
Proof.
  intros He.
  assert (Hempty : forall id (h n : Node) (m0 : gmap string Element),
            m0 !! id = Some e ->
            let m := alter (appendChild n) id (alter (setInnerHTML [h]) id m0) in
            m !! id = Some (setChildren [h; n] e)
            /\ forall j, j <> id -> m !! j = m0 !! j).
  { intros id h n m0 H0 m. subst m. split.
    - now rewrite !lookup_alter_eq, H0.
    - intros j Hj. now rewrite !lookup_alter_ne by congruence. }
  assert (Hitems : forall {X : Type} (cb : X -> JS unit) (node : Host -> X -> Node) id
                     (h : Node) items,
            (forall x w0,
                cb x w0
                = (Normal tt,
                   setDocument
                     (setById (alter (appendChild (node (host w0) x)) id
                                 (byId (document w0))) (document w0)) w0)) ->
            byId (document w) !! id = Some e ->
            exists m,
              forEach cb items
                (setDocument
                   (setById (alter (setInnerHTML [h]) id (byId (document w))) (document w))
                   w)
              = (Normal tt, setDocument (setById m (document w)) w)
              /\ m !! id = Some (setChildren (h :: map (node (host w)) items) e)
              /\ forall j, j <> id -> m !! j = byId (document w) !! j).
  { intros X cb node id h items Hcb H0.
    destruct (forEach_appends cb node id Hcb items
                (setDocument
                   (setById (alter (setInnerHTML [h]) id (byId (document w))) (document w))
                   w)) as (m & Hrun & Hid & Hother).
    exists m. split; [exact Hrun|]. split.
    - rewrite Hid. simpl. now rewrite lookup_alter_eq, H0.
    - intros j Hj. rewrite (Hother j Hj). simpl. now rewrite lookup_alter_ne by congruence. }
  destruct c; cbv [render listId rendering records heading emptyState] in *;
    [unfold renderAnnouncements | unfold renderEvents
     | unfold renderSchedules | unfold renderUsers];
    rewrite (bind_run (getElementById _) _ w _ w eq_refl), He;
    rewrite (bind_run (updateElement _ _) _ w tt _ eq_refl);
    match goal with
    | |- context [bind (gets ?f) _ ?w0] =>
        rewrite (bind_run (gets f) _ w0 (f w0) w0 eq_refl)
    end; cbv beta; cbn [database setDocument].
  - destruct (announcements (database w)) as [|a l] eqn:El.
    + eexists. split; [reflexivity|]. now apply Hempty.
    + match goal with
      | |- exists m, forEach ?cb ?items
                       (setDocument (setById (alter (setInnerHTML [?hd]) ?id _) _) _) = _
                     /\ _ =>
          destruct (Hitems _ cb (fun _ a => AnnouncementItem a) id hd items
                      ltac:(reflexivity) He) as (m & Hrun & Hid & Hother)
      end.
      exists m. split; [exact Hrun|]. split; [|exact Hother].
      rewrite Hid. simpl. now rewrite ?map_map.
  - destruct (events (database w)) as [|a l] eqn:El.
    + eexists. split; [reflexivity|]. now apply Hempty.
    + match goal with
      | |- exists m, forEach ?cb ?items
                       (setDocument (setById (alter (setInnerHTML [?hd]) ?id _) _) _) = _
                     /\ _ =>
          destruct (Hitems _ cb (fun h0 a => EventItem a (formatDate h0 (Event.date a))) id hd items
                      ltac:(reflexivity) He) as (m & Hrun & Hid & Hother)
      end.
      exists m. split; [exact Hrun|]. split; [|exact Hother].
      rewrite Hid. simpl. now rewrite ?map_map.
  - destruct (schedules (database w)) as [|a l] eqn:El.
    + eexists. split; [reflexivity|]. now apply Hempty.
    + match goal with
      | |- exists m, forEach ?cb ?items
                       (setDocument (setById (alter (setInnerHTML [?hd]) ?id _) _) _) = _
                     /\ _ =>
          destruct (Hitems _ cb (fun h0 a => ScheduleItem a (formatDate h0 (Schedule.date a))) id hd items
                      ltac:(reflexivity) He) as (m & Hrun & Hid & Hother)
      end.
      exists m. split; [exact Hrun|]. split; [|exact Hother].
      rewrite Hid. simpl. now rewrite ?map_map.
  - destruct (users (database w)) as [|a l] eqn:El.
    + eexists. split; [reflexivity|]. now apply Hempty.
    + match goal with
      | |- exists m, forEach ?cb ?items
                       (setDocument (setById (alter (setInnerHTML [?hd]) ?id _) _) _) = _
                     /\ _ =>
          destruct (Hitems _ cb (fun _ a => UserItem a) id hd items
                      ltac:(reflexivity) He) as (m & Hrun & Hid & Hother)
      end.
      exists m. split; [exact Hrun|]. split; [|exact Hother].
      rewrite Hid. simpl. now rewrite ?map_map.
Qed.

End Render.

(** X12.  Each of the four renderers does nothing when the page has no
    list element for its collection.  Otherwise it returns normally and
    replaces the content of the list, whatever it was, by the heading
    followed by the empty-state block when the collection is empty and by
    one item per stored record, in the order of the collection, when it is
    not; nothing else changes, and rendering once more changes nothing. *)
Theorem render_lists_records (c : Collection) (w : World) :
  (byId (document w) !! listId c = None -> render c w = (Normal tt, w))
  /\ (forall e, byId (document w) !! listId c = Some e ->
        let w' := after (render c) w in
        outcome (render c) w = Normal tt
        /\ byId (document w') !! listId c = Some (setChildren (rendering c w) e)
        /\ (forall j, j <> listId c -> byId (document w') !! j = byId (document w) !! j)
        /\ w' = setDocument (setById (byId (document w')) (document w)) w
        /\ render c w' = (Normal tt, w')).
Proof.
  split; [apply render_missing|].
  intros e He w'.
  destruct (render_present c w e He) as (m & Hrun & Hid & Hother).
  destruct (run_after _ _ _ _ Hrun) as [Ho Hw']. fold w' in Hw'.
  split; [exact Ho|]. rewrite Hw'. simpl.
  split; [exact Hid|]. split; [exact Hother|]. split; [reflexivity|].
  set (w1 := setDocument (setById m (document w)) w).
  assert (He1 : byId (document w1) !! listId c = Some (setChildren (rendering c w) e))
    by exact Hid.
  destruct (render_present c w1 _ He1) as (m1 & Hrun1 & Hid1 & Hother1).
  rewrite Hrun1. f_equal.
  assert (Hm : m1 = m).
  { apply map_eq. intros j. destruct (decide (j = listId c)) as [->|Hj].
    - rewrite Hid1, Hid. reflexivity.
    - rewrite (Hother1 j Hj). reflexivity. }
  rewrite Hm. reflexivity.
Qed.

Lemma render_lists_records_witness :
  let w := initialWorld nairobi noonNairobi in
  let w' := after (render Users) w in
  byId (document w) !! "usersList" = Some (block "div" [])
  /\ children <$> byId (document w') !! "usersList"
     = Some [Heading "Added Users";
             EmptyState "emptyUsers" "fas fa-users"
               "No users added yet. Add your first user above."].
Proof.
  assert (He : byId (document (initialWorld nairobi noonNairobi)) !! listId Users
               = Some (block "div" [])) by (vm_compute; reflexivity).
  split; [exact He|].
  destruct (proj2 (render_lists_records Users (initialWorld nairobi noonNairobi)) _ He)
    as (_ & Hlist & _).
  cbv zeta. change "usersList" with (listId Users).
  rewrite Hlist. reflexivity.
Defined.

(** ** The list follows the store *)

Section ListFollowsStore.


Lemma records_stored c w w' : stored w' = stored w -> records c w' = records c w.
Proof. intros H. injection H as Hdb _. unfold records. now rewrite Hdb. Qed.

Lemma Preserves_stored_showNotification message type elementId :
  Preserves stored (showNotification message type elementId).
Proof. preserves ltac:(idtac; reflexivity). Qed.

Lemma Preserves_stored_reset formId : Preserves stored (reset formId).
Proof. unfold reset. preserves ltac:(idtac; reflexivity). Qed.

Lemma Preserves_stored_render c : Preserves stored (render c).
Proof. destruct c; unfold render; preserves ltac:(idtac; reflexivity). Qed.






End ListFollowsStore.

Section DeleteRefresh.


Lemma delete_confirmed_run c id w rest :
  answers w = true :: rest ->
  exists g question message,
    after (deleteById c id) w
    = after (modify g >> render c >> showNotification message "success" None)
        (setDialog rest (asked w ++ [question]) w)
    /\ (forall w0, g w0 = setDatabase (database (g w0)) w0)
    /\ (forall w0, records c (g w0)
                   = filter (fun r => recordId r ≠ id) (records c w0))
    /\ (forall w0 c', c' <> c -> records c' (g w0) = records c' w0).
Proof.
  intros Hyes.
  destruct c; cbv [deleteById render];
    [ unfold deleteAnnouncement | unfold deleteEvent
    | unfold deleteSchedule | unfold deleteUser ];
    match goal with
    | |- context [bind (confirm ?msg)
                    (fun ok => if ok
                               then bind (modify ?g)
                                      (fun _ => bind ?r
                                                  (fun _ => showNotification ?m _ _))
                               else _)] =>
        exists g, msg, m;
        destruct (after_eq _ _ _ _
                    (confirmed msg
                       (modify g >> r >> showNotification m "success" None)
                       w rest Hyes))
          as [E _]
    end;
    (split; [exact E|]); (split; [reflexivity|]);
    (split;
     [ intros w0; unfold records; simpl; now apply map_filter_id
     | intros w0 c' Hc'; destruct c'; try reflexivity; congruence ]).
Qed.

Lemma delete_records c id w rest :
  answers w = true :: rest ->
  let w' := after (deleteById c id) w in
  records c w' = filter (fun r => recordId r ≠ id) (records c w)
  /\ (forall c', c' <> c -> records c' w' = records c' w)
  /\ answers w' = rest.
Proof.
  intros Hyes w'.
  destruct (delete_confirmed_run c id w rest Hyes)
    as (g & question & message & E & Hg & Hrec & Hother).
  set (w0 := setDialog rest (asked w ++ [question]) w) in E.
  rewrite after_modify in E.
  assert (Hst : Preserves (fun w => (database w, answers w))
                  (render c >> showNotification message "success" None)).
  { apply Preserves_bind; [|intros _; preserves ltac:(idtac; reflexivity)].
    destruct c; unfold render; preserves ltac:(idtac; reflexivity). }
  specialize (Hst (g w0)). rewrite <- E in Hst. fold w' in Hst.
  injection Hst as Hdb Hans.
  assert (Hr : forall c', records c' w' = records c' (g w0))
    by (intros c'; unfold records; now rewrite Hdb).
  split; [rewrite Hr, Hrec; reflexivity|]. split.
  - intros c' Hc'. rewrite Hr, Hother by assumption. reflexivity.
  - rewrite Hans, Hg. reflexivity.
Qed.

End DeleteRefresh.



(** ** A submission that stores a record *)

Section SubmitSuccess.

(** The handler of a collection, once its fields pass validation (and the
    date rule) and, where the record needs an author, a user is logged in:
    the record is put in front and the three closing statements run. *)
Lemma submit_success c w fd r :
  readForm (crudForm c) w = Normal fd ->
  validates (crudForm c) fd = true ->
  (c = Events -> dateInPast w fd = false) ->
  newRecord c w fd = Some r ->
  let w1 := after (clearFormErrors (formId (crudForm c))) w in
  domRel w w1
  /\ after (submit (crudForm c)) w = after (finish c) (unshift r w1)
  /\ outcome (submit (crudForm c)) w = outcome (finish c) (unshift r w1).
Proof.
  intros Hread Hvalid Hdate Hnew.
  destruct c; cbv [crudForm submit formId newRecord] in *.
  - unfold announcementSubmit. open_handler AnnouncementForm Hread w1 Hdom.
    split; [exact Hdom|].
    apply domRel_fields in Hdom as (Hu & _ & _ & _ & Hclock & _ & _ & _ & Hhost).
    cbv [validates requiredFields] in Hvalid. cbv zeta. rewrite Hvalid.
    cbn [negb]. unfold dateNow. rewrite !after_gets, !outcome_gets.
    destruct (currentUser w) as [u|] eqn:Hcu; [|discriminate].
    injection Hnew as <-. rewrite Hu, Hclock, Hhost. cbn [nonNull].
    rewrite after_ret, outcome_ret, after_modify, outcome_modify.
    split; reflexivity.
  - unfold eventSubmit. open_handler EventForm Hread w1 Hdom.
    split; [exact Hdom|].
    apply domRel_fields in Hdom as (Hu & _ & _ & _ & Hclock & _ & _ & _ & Hhost).
    cbv [validates requiredFields] in Hvalid. cbv zeta. rewrite Hvalid.
    cbn [negb]. unfold dateNow. rewrite !after_gets, !outcome_gets.
    specialize (Hdate eq_refl). unfold dateInPast in Hdate.
    rewrite Hhost, Hclock, Hdate. rewrite !after_gets, !outcome_gets.
    destruct (currentUser w) as [u|] eqn:Hcu; [|discriminate].
    injection Hnew as <-. rewrite Hu, ?Hclock. cbn [nonNull].
    rewrite after_ret, outcome_ret, after_modify, outcome_modify.
    split; reflexivity.
  - unfold scheduleSubmit. open_handler ScheduleForm Hread w1 Hdom.
    split; [exact Hdom|].
    apply domRel_fields in Hdom as (_ & _ & _ & _ & Hclock & _).
    cbv [validates requiredFields] in Hvalid. cbv zeta. rewrite Hvalid.
    cbn [negb]. unfold dateNow. rewrite !after_gets, !outcome_gets.
    injection Hnew as <-. rewrite Hclock.
    rewrite after_modify, outcome_modify. split; reflexivity.
  - unfold userSubmit. open_handler UserForm Hread w1 Hdom.
    split; [exact Hdom|].
    apply domRel_fields in Hdom as (_ & _ & _ & _ & Hclock & _).
    pose proof (validates_email UserForm fd Hvalid) as Hmail.
    cbv [validates requiredFields] in Hvalid. cbv zeta. rewrite Hvalid.
    rewrite Hmail by (cbn; set_solver).
    cbn [negb]. unfold dateNow. rewrite !after_gets, !outcome_gets.
    injection Hnew as <-. rewrite Hclock.
    rewrite after_modify, outcome_modify. split; reflexivity.
Qed.

Lemma newRecord_some c w fd :
  (c = Announcements \/ c = Events -> is_Some (currentUser w)) ->
  is_Some (newRecord c w fd).
Proof.
  intros Hu. destruct c; simpl; eauto;
    (destruct Hu as [u ->]; [auto|]; simpl; eauto).
Qed.

Lemma unshift_records c w fd r w1 :
  newRecord c w fd = Some r ->
  records c (unshift r w1) = r :: records c w1
  /\ (forall c', c' <> c -> records c' (unshift r w1) = records c' w1)
  /\ document (unshift r w1) = document w1
  /\ host (unshift r w1) = host w1.
Proof.
  intros Hnew.
  destruct c; simpl in Hnew;
    try (destruct (currentUser w); [|discriminate]); injection Hnew as <-;
    (split; [reflexivity|]); (split; [|split; reflexivity]);
    intros c' Hc'; destruct c'; try reflexivity; congruence.
Qed.


End SubmitSuccess.



Section FormAfterSubmit.

Lemma Dom_render c : Dom (render c).
Proof. destruct c; unfold render; auto with dom. Qed.

Lemma Total_render c : Total (render c).
Proof. destruct c; unfold render; auto with total. Qed.

Lemma evolves_skel w w' : evolves w w' -> skel (document w) (document w').
Proof. intros H. apply H. Qed.

Lemma finish_reset c w2 :
  isFormElement (formId (crudForm c)) w2 ->
  exists w3,
    finish c w2 = (Normal tt, resetWorld (formId (crudForm c)) w3)
    /\ skel (document w2) (document w3).
Proof.
  intros Hform. unfold finish.
  pose proof (total_unit _ w2 (Total_render c)) as Ho1.
  set (wa := after (render c) w2).
  assert (Hsa : skel (document w2) (document wa)) by apply (Dom_render c w2).
  set (m2 := showNotification (successMessage c) "success" (Some (successId c))).
  pose proof (total_unit _ wa (Total_showNotification _ _ _ : Total m2)) as Ho2.
  set (w3 := after m2 wa).
  assert (Hs3 : skel (document wa) (document w3))
    by apply evolves_skel, Evolves_showNotification.
  exists w3. split; [|eapply skel_trans; eassumption].
  rewrite (bind_run (render c) _ w2 tt wa) by (rewrite run_eq; now rewrite Ho1).
  rewrite (bind_run m2 _ wa tt w3) by (rewrite run_eq; now rewrite Ho2).
  apply reset_run.
  apply (isFormElement_skel _ wa w3 Hs3), (isFormElement_skel _ w2 wa Hsa), Hform.
Qed.

Lemma resetWorld_lookup formId w id :
  byId (document (resetWorld formId w)) !! id
  = resetElement formId <$> byId (document w) !! id.
Proof. unfold resetWorld. simpl. now rewrite lookup_fmap. Qed.

End FormAfterSubmit.

(** X15.  A submission of one of the four forms that store a record, whose
    fields pass validation (for the event also the date rule; for the
    announcement and the event with a user logged in), when the form
    element is a form, returns normally, and afterwards every control of
    that form holds the value the page shipped it with, while every
    control of another form holds what it held before. *)
Theorem create_resets_form (c : Collection) (w : World) (fd : gmap string (list N)) :
  readForm (crudForm c) w = Normal fd ->
  validates (crudForm c) fd = true ->
  (c = Events -> dateInPast w fd = false) ->
  (c = Announcements \/ c = Events -> is_Some (currentUser w)) ->
  isFormElement (formId (crudForm c)) w ->
  let w' := after (submit (crudForm c)) w in
  outcome (submit (crudForm c)) w = Normal tt
  /\ (forall id e form v,
        byId (document w) !! id = Some e ->
        ownerForm e = Some form -> value e = Some v ->
        exists e', byId (document w') !! id = Some e'
                   /\ ownerForm e' = Some form
                   /\ defaultValue e' = defaultValue e
                   /\ value e'
                      = Some (if bool_decide (form = formId (crudForm c))
                              then defaultValue e
                              else v)).
Proof.
  intros Hread Hvalid Hdate Huser Hform w'.
  destruct (newRecord_some c w fd Huser) as [r Hnew].
  destruct (submit_success c w fd r Hread Hvalid Hdate Hnew) as (Hdom & E & Eo).
  set (w1 := after (clearFormErrors (formId (crudForm c))) w) in *.
  destruct (unshift_records c w fd r w1 Hnew) as (_ & _ & Hdoc & _).
  assert (Hs1 : skel (document w) (document (unshift r w1)))
    by (rewrite Hdoc; apply Hdom).
  assert (Hform2 : isFormElement (formId (crudForm c)) (unshift r w1))
    by (apply (isFormElement_skel _ w _ Hs1), Hform).
  destruct (finish_reset c (unshift r w1) Hform2) as (w3 & Hrun & Hs3).
  destruct (run_after _ _ _ _ Hrun) as [Ho Hw'].
  assert (Hs : skel (document w) (document w3)) by (eapply skel_trans; eassumption).
  split; [now rewrite Eo|].
  unfold w'. rewrite E, Hw'.
  intros id e form v He Hform' Hval. rewrite resetWorld_lookup.
  destruct (skel_lookup _ _ _ _ Hs He) as (e3 & -> & Hsk).
  apply skeleton_eq in Hsk as (Ht & Hown & Hd & Hv). simpl.
  eexists. split; [reflexivity|]. unfold resetElement. rewrite Hown, Hv, Hval, Hform'.
  destruct (decide (form = formId (crudForm c))) as [->|Hne].
  - rewrite !bool_decide_eq_true_2 by reflexivity. simpl.
    repeat split; congruence.
  - rewrite (bool_decide_eq_false_2 (Some form = Some (formId (crudForm c))))
      by congruence.
    rewrite (bool_decide_eq_false_2 (form = formId (crudForm c))) by assumption.
    simpl. repeat split; congruence.
Qed.

Lemma create_resets_form_witness :
  let w' := after (submit (crudForm Schedules)) scheduleDraft in
  value <$> byId (document scheduleDraft) !! "scheduleRoom" = Some (Some (js "TC-304"))
  /\ outcome (submit (crudForm Schedules)) scheduleDraft = Normal tt.
Proof.
  assert (Hread : readForm (crudForm Schedules) scheduleDraft = Normal scheduleDraftData)
    by (vm_compute; reflexivity).
  assert (Hvalid : validates (crudForm Schedules) scheduleDraftData = true)
    by (vm_compute; reflexivity).
  assert (Hdate : Schedules = Events -> dateInPast scheduleDraft scheduleDraftData = false)
    by discriminate.
  assert (Huser : Schedules = Announcements \/ Schedules = Events ->
                  is_Some (currentUser scheduleDraft))
    by (intros [H|H]; discriminate).
  assert (Hform : isFormElement (formId (crudForm Schedules)) scheduleDraft)
    by (eexists; split; [vm_compute; reflexivity | reflexivity]).
  split; [vm_compute; reflexivity|].
  exact (proj1 (create_resets_form Schedules scheduleDraft scheduleDraftData
                  Hread Hvalid Hdate Huser Hform)).
Defined.

Section InvalidSubmit.

Lemma invalid_submit_run f w fd :
  readForm f w = Normal fd ->
  validates f fd = false ->
  after (submit f) w
  = after (showFormErrors (errors (validateForm fd (requiredFields f))))
      (after (clearFormErrors (formId f)) w).
Proof.
  intros Hread Hinvalid. apply isValid_false_errors in Hinvalid.
  destruct f; cbv [submit formId requiredFields] in *;
    [ unfold loginSubmit; open_handler LoginForm Hread w1 Hdom
    | unfold registerSubmit; open_handler RegisterForm Hread w1 Hdom
    | unfold announcementSubmit; open_handler AnnouncementForm Hread w1 Hdom
    | unfold eventSubmit; open_handler EventForm Hread w1 Hdom
    | unfold scheduleSubmit; open_handler ScheduleForm Hread w1 Hdom
    | unfold userSubmit; open_handler UserForm Hread w1 Hdom ];
    cbv zeta; rewrite Hinvalid; reflexivity.
Qed.

End InvalidSubmit.

(** X16.  A submission whose fields fail validation leaves every control of
    the page with the value it held: what the user typed is kept, nothing
    is reset, and each of the six forms reads the same data afterwards as
    before, so the same submission fails again in the same way. *)
Theorem invalid_submission_keeps_input (f : Form) (w : World)
    (fd : gmap string (list N)) :
  readForm f w = Normal fd ->
  validates f fd = false ->
  let w' := after (submit f) w in
  (forall id, value <$> byId (document w') !! id = value <$> byId (document w) !! id)
  /\ (forall id, is_Some (byId (document w') !! id) <-> is_Some (byId (document w) !! id))
  /\ (forall g, readForm g w' = readForm g w).
Proof.
  intros Hread Hinvalid w'. unfold w'. rewrite (invalid_submit_run f w fd Hread Hinvalid).
  set (w1 := after (clearFormErrors (formId f)) w).
  set (w2 := after (showFormErrors _) w1).
  assert (Hs : skel (document w) (document w2)).
  { eapply skel_trans; [apply (Dom_clearFormErrors (formId f) w)|].
    apply (Dom_showFormErrors _ w1). }
  assert (Hsk : forall id, skeleton <$> byId (document w2) !! id
                           = skeleton <$> byId (document w) !! id) by apply Hs.
  split; [|split].
  - intros id. specialize (Hsk id).
    destruct (byId (document w2) !! id) as [e2|], (byId (document w) !! id) as [e|];
      simpl in *; try discriminate; [|reflexivity].
    assert (E : skeleton e2 = skeleton e) by congruence.
    apply skeleton_eq in E as (_ & _ & _ & ->). reflexivity.
  - intros id. specialize (Hsk id).
    destruct (byId (document w2) !! id) as [e2|], (byId (document w) !! id) as [e|];
      simpl in *; try discriminate; split; intros [x Hx]; try discriminate; eauto.
  - intros g. now apply readForm_skel.
Qed.

Lemma invalid_submission_keeps_input_witness :
  let w := typeInto "loginEmail" "carl" (initialWorld nairobi noonNairobi) in
  let fd : gmap string (list N) :=
    {[ "email" := js "carl"; "password" := []; "userType" := js "student" ]} in
  readForm LoginForm w = Normal fd
  /\ validates LoginForm fd = false
  /\ value <$> byId (document (after (submit LoginForm) w)) !! "loginEmail"
     = Some (Some (js "carl")).
Proof.
  set (w := typeInto "loginEmail" "carl" (initialWorld nairobi noonNairobi)).
  set (fd := {[ "email" := js "carl"; "password" := []; "userType" := js "student" ]}
             : gmap string (list N)).
  assert (Hread : readForm LoginForm w = Normal fd) by (vm_compute; reflexivity).
  assert (Hinvalid : validates LoginForm fd = false) by (vm_compute; reflexivity).
  split; [exact Hread|]. split; [exact Hinvalid|].
  destruct (invalid_submission_keeps_input LoginForm w fd Hread Hinvalid) as (Hv & _).
  rewrite Hv. vm_compute. reflexivity.
Defined.

(** ** Login and registration *)

(** X17.  Login and registration never write to the store: whatever the
    page, the form data and the outcome, the submit handler and the
    response it registers leave the four collections and the profile
    records as they were.  In particular a registration adds nothing to
    [database.users]. *)
Theorem authentication_leaves_store (f : Form) :
  f = LoginForm \/ f = RegisterForm ->
  (forall w, dataOf (after (submit f) w) = dataOf w)
  /\ (forall fd w, dataOf (after (runCallback (response f fd)) w) = dataOf w).
Proof.
  intros [-> | ->]; split.
  - change (Preserves dataOf loginSubmit).
    unfold loginSubmit, loginFormData, trimmedValueOf, valueOf, setLoading.
    preserves ltac:(idtac; reflexivity).
  - intros fd. change (Preserves dataOf (loginResponse fd)).
    unfold loginResponse, setLoading. preserves ltac:(idtac; reflexivity).
  - change (Preserves dataOf registerSubmit).
    unfold registerSubmit, registerFormData, trimmedValueOf, valueOf, setLoading.
    preserves ltac:(idtac; reflexivity).
  - intros fd. change (Preserves dataOf (registerResponse fd)).
    unfold registerResponse, setLoading. preserves ltac:(idtac; reflexivity).
Qed.

Lemma authentication_leaves_store_witness :
  dataOf (after (runCallback (response RegisterForm loginData))
            (after (submit RegisterForm) loginDraft))
  = dataOf loginDraft.
Proof.
  destruct (authentication_leaves_store RegisterForm (or_intror eq_refl)) as [H1 H2].
  exact (eq_trans (H2 loginData (after (submit RegisterForm) loginDraft)) (H1 loginDraft)).
Defined.

(** ** The session check and the confirmations *)

(** X18.  [checkSessionTimeout] asks nothing and changes nothing when
    nobody is logged in, and when the time since the last activity does
    not exceed the session timeout (a time exactly equal to the timeout
    does not expire the session).  So after any activity no prompt appears
    for the length of the timeout. *)
Theorem session_check_quiet (w : World) :
  (currentUser w = None
   \/ clock w - lastActivity (appState w) <= sessionTimeout (appState w) ->
   checkSessionTimeout w = (Normal tt, w))
  /\ (forall dt, dt <= sessionTimeout (appState w) ->
        let w1 := elapse dt (after updateUserActivity w) in
        checkSessionTimeout w1 = (Normal tt, w1)).
Proof.
  assert (Hquiet : forall w0,
            currentUser w0 = None
            \/ clock w0 - lastActivity (appState w0) <= sessionTimeout (appState w0) ->
            checkSessionTimeout w0 = (Normal tt, w0)).
  { intros w0 H. unfold checkSessionTimeout, dateNow, bind, gets.
    destruct (currentUser w0) as [u|]; [|reflexivity].
    destruct H as [H|H]; [discriminate|].
    now rewrite (proj2 (Z.ltb_ge _ _) H). }
  split; [apply Hquiet|].
  intros dt Hdt w1. apply Hquiet. right. unfold w1, elapse. simpl. lia.
Qed.

Lemma session_check_quiet_witness :
  let w := elapse (30 * 60 * 1000) (adminSession nairobi noonNairobi) in
  clock w - lastActivity (appState w) = sessionTimeout (appState w)
  /\ checkSessionTimeout w = (Normal tt, w).
Proof.
  split; [reflexivity|].
  apply (proj1 (session_check_quiet
                  (elapse (30 * 60 * 1000) (adminSession nairobi noonNairobi)))).
  right. vm_compute. discriminate.
Defined.

(** X19.  A confirmation that is declined changes nothing but the record of
    the dialog: a declined delete removes no record and renders nothing, a
    declined logout keeps the user logged in, and a declined session prompt
    keeps the session, without renewing the time of the last activity. *)
Theorem declined_changes_nothing (w : World) (rest : list bool) :
  answers w = false :: rest ->
  (forall c id,
      deleteById c id w
      = (Normal tt, setDialog rest (asked w ++ [deleteQuestion c]) w))
  /\ logout w
     = (Normal tt, setDialog rest (asked w ++ [js "Are you sure you want to logout?"]) w)
  /\ (is_Some (currentUser w) ->
      sessionTimeout (appState w) < clock w - lastActivity (appState w) ->
      checkSessionTimeout w
      = (Normal tt, setDialog rest (asked w ++ [sessionExpiredMessage]) w)).
Proof.
  intros Hno. split; [|split].
  - intros c id. destruct c; cbv [deleteById deleteQuestion];
      [ unfold deleteAnnouncement | unfold deleteEvent
      | unfold deleteSchedule | unfold deleteUser ];
      now apply declined.
  - unfold logout. now apply declined.
  - intros [u Hu] Hidle. unfold checkSessionTimeout, dateNow.
    rewrite (bind_run (gets clock) _ w (clock w) w eq_refl).
    rewrite (bind_run (gets _) _ w (lastActivity (appState w)) w eq_refl).
    rewrite (bind_run (gets currentUser) _ w (currentUser w) w eq_refl).
    rewrite (bind_run (gets _) _ w (sessionTimeout (appState w)) w eq_refl).
    rewrite Hu, (proj2 (Z.ltb_lt _ _) Hidle).
    now apply declined.
Qed.

Lemma declined_changes_nothing_witness :
  let w := answering [false] (initialWorld nairobi noonNairobi) in
  answers w = [false]
  /\ database (after (deleteById Events 1) w) = database w.
Proof.
  split; [reflexivity|].
  destruct (declined_changes_nothing (answering [false] (initialWorld nairobi noonNairobi))
              [] eq_refl) as (Hdel & _).
  destruct (run_after _ _ _ _ (Hdel Events 1)) as [_ ->]. reflexivity.
Defined.

(** ** [toggleMobileMenu] and [handleGetStarted] *)

Section Menu.

Lemma toggleMobileMenu_run w nav :
  byId (document w) !! "main-nav" = Some nav ->
  is_Some (mobileMenu (document w)) ->
  toggleMobileMenu w
  = (Normal tt,
     setDocument
       (setMobileMenu (Some (if hasClass "active" nav then "false" else "true"))
          (setById
             (alter (if hasClass "active" nav then removeClass "active"
                     else addClass "active") "main-nav" (byId (document w)))
             (document w))) w).
Proof.
  intros Hnav [menu Hmenu].
  unfold toggleMobileMenu, bind, getElementById, gets. rewrite Hnav. simpl.
  rewrite Hmenu. simpl. destruct (hasClass "active" nav); reflexivity.
Qed.

End Menu.

(** X20.  [toggleMobileMenu] on a page with the navigation bar and the menu
    button: the call returns normally, the bar gains the class [active] if
    it lacked it and loses it otherwise, its other classes and every other
    element stay as they are, and [aria-expanded] of the button then says
    whether the bar is active.  Toggling twice gives the bar back the
    classes it had.  Without the navigation bar the call throws a
    [TypeError] and changes nothing. *)
Theorem toggleMobileMenu_toggles (w : World) :
  (forall nav,
      byId (document w) !! "main-nav" = Some nav ->
      is_Some (mobileMenu (document w)) ->
      let w' := after toggleMobileMenu w in
      outcome toggleMobileMenu w = Normal tt
      /\ menuInSync w'
      /\ (exists nav', byId (document w') !! "main-nav" = Some nav'
                       /\ ("active" ∈ classList nav' <-> "active" ∉ classList nav)
                       /\ classList nav' ∖ {["active"]} = classList nav ∖ {["active"]}
                       /\ children nav' = children nav)
      /\ (forall j, j <> "main-nav" -> byId (document w') !! j = byId (document w) !! j)
      /\ (exists nav'', byId (document (after toggleMobileMenu w')) !! "main-nav"
                        = Some nav''
                        /\ classList nav'' = classList nav))
  /\ (byId (document w) !! "main-nav" = None ->
      toggleMobileMenu w = (Throw (TypeError "main-nav"), w)).
Proof.
  split.
  - intros nav Hnav Hmenu w'.
    destruct (run_after _ _ _ _ (toggleMobileMenu_run w nav Hnav Hmenu)) as [Ho Hw'].
    fold w' in Hw'. split; [exact Ho|].
    set (nav' := (if hasClass "active" nav then removeClass "active"
                  else addClass "active") nav).
    assert (Hnav' : byId (document w') !! "main-nav" = Some nav')
      by (rewrite Hw'; simpl; now rewrite lookup_alter_eq, Hnav).
    assert (Hmenu' : mobileMenu (document w')
                     = Some (if hasClass "active" nav then "false" else "true"))
      by (rewrite Hw'; reflexivity).
    assert (Hcls : ("active" ∈ classList nav' <-> "active" ∉ classList nav)
                   /\ classList nav' ∖ {["active"]} = classList nav ∖ {["active"]}
                   /\ children nav' = children nav).
    { unfold nav', hasClass.
      destruct (bool_decide ("active" ∈ classList nav)) eqn:Hb;
        [apply bool_decide_eq_true in Hb | apply bool_decide_eq_false in Hb]; simpl;
        (split; [set_solver|]); split; [set_solver | reflexivity | set_solver | reflexivity]. }
    split; [|split; [|split]].
    + exists nav'. split; [exact Hnav'|]. rewrite Hmenu'. unfold hasClass.
      destruct Hcls as (Hact & _).
      destruct (bool_decide ("active" ∈ classList nav)) eqn:Hb;
        [apply bool_decide_eq_true in Hb | apply bool_decide_eq_false in Hb].
      * rewrite bool_decide_eq_false_2; [reflexivity|]. tauto.
      * rewrite bool_decide_eq_true_2; [reflexivity|]. tauto.
    + exists nav'. split; [exact Hnav'|]. exact Hcls.
    + intros j Hj. rewrite Hw'. simpl. now rewrite lookup_alter_ne by congruence.
    + assert (Hmenu2 : is_Some (mobileMenu (document w'))) by (rewrite Hmenu'; eauto).
      destruct (run_after _ _ _ _ (toggleMobileMenu_run w' nav' Hnav' Hmenu2)) as [_ ->].
      simpl. rewrite lookup_alter_eq, Hnav'. simpl. eexists. split; [reflexivity|].
      unfold nav', hasClass.
      destruct (bool_decide ("active" ∈ classList nav)) eqn:Hb;
        [apply bool_decide_eq_true in Hb | apply bool_decide_eq_false in Hb]; simpl.
      * rewrite bool_decide_eq_false_2 by set_solver. simpl.
        apply set_eq. intros x. rewrite elem_of_union, elem_of_difference, elem_of_singleton.
        destruct (decide (x = "active")) as [->|]; tauto.
      * rewrite bool_decide_eq_true_2 by set_solver. simpl.
        apply set_eq. intros x. rewrite elem_of_difference, elem_of_union, elem_of_singleton.
        destruct (decide (x = "active")) as [->|]; tauto.
  - intros Hnav. unfold toggleMobileMenu, bind, getElementById, gets. now rewrite Hnav.
Qed.

Lemma toggleMobileMenu_toggles_witness :
  let w := initialWorld nairobi noonNairobi in
  byId (document w) !! "main-nav" = Some (block "nav" [])
  /\ menuInSync (after toggleMobileMenu w)
  /\ mobileMenu (document (after toggleMobileMenu w)) = Some "true".
Proof.
  assert (Hnav : byId (document (initialWorld nairobi noonNairobi)) !! "main-nav"
                 = Some (block "nav" [])) by (vm_compute; reflexivity).
  split; [exact Hnav|].
  destruct (proj1 (toggleMobileMenu_toggles (initialWorld nairobi noonNairobi)) _ Hnav)
    as (_ & Hsync & _).
  - vm_compute; eexists; reflexivity.
  - split; [exact Hsync | vm_compute; reflexivity].
Defined.

(** X21.  [handleGetStarted] on a page with the navigation bar and the menu
    button: when nobody is logged in it shows the login section, and only
    that one; when a user is logged in it does what [showSection] does for
    "dashboard", and the current section is "dashboard" afterwards. *)
Theorem handleGetStarted_target (w : World) :
  (currentUser w = None ->
   hasElement "main-nav" w ->
   is_Some (mobileMenu (document w)) ->
   let w' := after handleGetStarted w in
   outcome handleGetStarted w = Normal tt
   /\ currentSection (appState w') = "login"
   /\ onlyShown "login" w'
   /\ currentUser w' = None)
  /\ (is_Some (currentUser w) ->
      handleGetStarted w = showSection "dashboard" w
      /\ currentSection (appState (after handleGetStarted w)) = "dashboard").
Proof.
  split.
  - intros Hnone Hnav Hmenu w'.
    assert (E : handleGetStarted w = (Normal tt, shown "login" w)).
    { unfold handleGetStarted.
      rewrite (bind_run (gets currentUser) _ w (currentUser w) w eq_refl), Hnone.
      apply showSection_plain; auto. }
    destruct (run_after _ _ _ _ E) as [Ho Hw']. fold w' in Hw'.
    split; [exact Ho|]. rewrite Hw'.
    split; [reflexivity|]. split; [apply onlyShown_shown | exact Hnone].
  - intros [u Hu].
    assert (E : handleGetStarted w = showSection "dashboard" w).
    { unfold handleGetStarted.
      now rewrite (bind_run (gets currentUser) _ w (currentUser w) w eq_refl), Hu. }
    split; [exact E|].
    destruct (after_eq _ _ _ _ E) as [-> _].
    pose proof (showSection_evolves "dashboard" w) as H.
    destruct H as (_ & _ & _ & _ & _ & _ & _ & _ & Hsect & _). exact Hsect.
Qed.

Lemma handleGetStarted_target_witness :
  let w := initialWorld nairobi noonNairobi in
  currentUser w = None
  /\ currentSection (appState (after handleGetStarted w)) = "login".
Proof.
  split; [reflexivity|].
  apply (proj1 (handleGetStarted_target (initialWorld nairobi noonNairobi)) eq_refl).
  - vm_compute; eexists; reflexivity.
  - vm_compute; eexists; reflexivity.
Defined.

(** ** [renderProfile] *)

Section Profile.

Lemma renderProfile_run editMode u p w :
  currentUser w = Some u ->
  lookupProfile (userProfileData w) (User.type u) = Some p ->
  hasElement "profileInfoContent" w ->
  hasElement "profileActions" w ->
  renderProfile editMode w
  = (Normal tt,
     setDocument
       (setById
          (alter (setInnerHTML (profileButtons editMode)) "profileActions"
             (alter (setInnerHTML (profileContent editMode u p)) "profileInfoContent"
                (byId (document w))))
          (document w)) w).
Proof.
  intros Hu Hp [info Hinfo] [actions Hactions].
  unfold renderProfile, bind, getElementById, gets.
  rewrite Hinfo, Hactions, Hu, Hp.
  destruct editMode; reflexivity.
Qed.

Lemma renderProfile_no_record editMode u w :
  currentUser w = Some u ->
  lookupProfile (userProfileData w) (User.type u) = None ->
  renderProfile editMode w = (Throw (TypeError "profileData"), w).
Proof.
  intros Hu Hp. unfold renderProfile, bind, getElementById, gets.
  rewrite Hu, Hp. destruct editMode; reflexivity.
Qed.

Lemma lookupProfile_none d type :
  noProfileFor type -> lookupProfile d type = None.
Proof.
  intros (Hs & Ha & _). unfold lookupProfile.
  now rewrite !bool_decide_eq_false_2 by assumption.
Qed.

End Profile.

(** X22.  [renderProfile] for a logged-in user, on a page with the two
    profile blocks.  The record shown is [userProfileData[type]]: the
    student record for every user of type "student" and the admin record
    for every user of type "admin", whoever the user is.  When the strings
    to show stand for themselves in markup (no double quote, [&], [<] or
    control character; in edit mode also no white space around the email,
    which an input of type [email] would strip), the content in view mode
    is the four entries id, program or department, phone and address of
    that record, and in edit mode six inputs, pre-filled with the user's
    name and email and those four values.  Nothing but the two blocks
    changes.  For a user whose type names no property of
    [userProfileData], the call throws a [TypeError] and writes nothing. *)
Theorem renderProfile_by_type (editMode : bool) (u : User.t) (w : World) :
  currentUser w = Some u ->
  hasElement "profileInfoContent" w ->
  hasElement "profileActions" w ->
  (User.type u = js "student" ->
   lookupProfile (userProfileData w) (User.type u)
   = Some (OfStudent (student (userProfileData w))))
  /\ (User.type u = js "admin" ->
      lookupProfile (userProfileData w) (User.type u)
      = Some (OfAdmin (admin (userProfileData w))))
  /\ (forall p, lookupProfile (userProfileData w) (User.type u) = Some p ->
        plainProfile editMode u p ->
        let w' := after (renderProfile editMode) w in
        outcome (renderProfile editMode) w = Normal tt
        /\ children <$> byId (document w') !! "profileInfoContent"
           = Some (profileContent editMode u p)
        /\ children <$> byId (document w') !! "profileActions"
           = Some (profileButtons editMode)
        /\ (forall j, j <> "profileInfoContent" -> j <> "profileActions" ->
                      byId (document w') !! j = byId (document w) !! j)
        /\ w' = setDocument (setById (byId (document w')) (document w)) w)
  /\ (noProfileFor (User.type u) ->
      renderProfile editMode w = (Throw (TypeError "profileData"), w)).
Proof.
  intros Hu Hinfo Hactions. split; [|split; [|split]].
  - intros ->. reflexivity.
  - intros ->. reflexivity.
  - intros p Hp _ w'.
    destruct (run_after _ _ _ _ (renderProfile_run editMode u p w Hu Hp Hinfo Hactions))
      as [Ho Hw'].
    fold w' in Hw'. split; [exact Ho|]. rewrite Hw'. simpl.
    destruct Hinfo as [info Hi], Hactions as [actions Ha].
    split; [|split; [|split]].
    + rewrite lookup_alter_ne, lookup_alter_eq, Hi by discriminate. reflexivity.
    + rewrite lookup_alter_eq, lookup_alter_ne, Ha by discriminate. reflexivity.
    + intros j Hj1 Hj2. now rewrite !lookup_alter_ne by congruence.
    + reflexivity.
  - intros Hno. apply (renderProfile_no_record editMode u w Hu).
    now apply lookupProfile_none.
Qed.

Lemma renderProfile_by_type_witness :
  let w := adminSession nairobi noonNairobi in
  children <$> byId (document (after (renderProfile false) w)) !! "profileInfoContent"
  = Some [InfoText "Admin ID" (js "ADM001");
          InfoText "Department" (js "Administration");
          InfoText "Phone" (js "+254 711 222 333");
          InfoText "Address" (js "USIU-Africa, Administration Building")].
Proof.
  set (w := adminSession nairobi noonNairobi).
  set (u := User.mk (js "Admin User") (js "admin@usiu.ac.ke") (js "admin")).
  assert (Hu : currentUser w = Some u) by reflexivity.
  assert (Hinfo : hasElement "profileInfoContent" w) by (vm_compute; eexists; reflexivity).
  assert (Hactions : hasElement "profileActions" w) by (vm_compute; eexists; reflexivity).
  destruct (renderProfile_by_type false u w Hu Hinfo Hactions) as (_ & Hadmin & Hview & _).
  destruct (Hview _ (Hadmin eq_refl)) as (_ & Hcontent & _).
  - split; [|discriminate].
    refine (bool_decide_unpack _ _); vm_compute; exact I.
  - cbv zeta. rewrite Hcontent. reflexivity.
Defined.

(** ** [saveProfile] *)

Section SaveProfile.

Lemma ReadOnly_editedValueOf id : ReadOnly (editedValueOf id).
Proof.
  unfold editedValueOf. apply ReadOnly_bind; [apply ReadOnly_gets | intros el].
  destruct el as [e|].
  - apply ReadOnly_bind; [apply ReadOnly_nonNull | intros s; apply ReadOnly_ret].
  - apply ReadOnly_bind; [apply ReadOnly_gets | intros info].
    apply ReadOnly_bind; [apply ReadOnly_nonNull | intros s; apply ReadOnly_ret].
Qed.

Lemma ReadOnly_profileEdit : ReadOnly profileEdit.
Proof.
  unfold profileEdit.
  repeat (apply ReadOnly_bind; [apply ReadOnly_editedValueOf | intros ?]).
  apply ReadOnly_ret.
Qed.

Lemma profileEdit_run w e :
  outcome profileEdit w = Normal e -> profileEdit w = (Normal e, w).
Proof. intros H. now rewrite run_eq, H, ReadOnly_profileEdit. Qed.

(** The statements of [saveProfile] after the two checks. *)
Lemma saveProfile_accepts u e w :
  currentUser w = Some u ->
  outcome profileEdit w = Normal e ->
  anyEmpty e = false ->
  validateEmail (editEmail e) = true ->
  saveProfile w
  = (modify (setCurrentUser (Some (User.mk (editName e) (editEmail e) (User.type u)))) >>
     let* data := gets userProfileData in
     let* data' := nonNull "userProfileData" (updateProfile data (User.type u) e) in
     modify (setProfileData data') >>
     let* h := gets host in
     mutate "userName" (setTextContent (editName e)) >>
     mutate "userAvatar" (setTextContent (generateAvatar h (editName e))) >>
     mutate "profileName" (setTextContent (editName e)) >>
     mutate "profileEmail" (setTextContent (editEmail e)) >>
     mutate "profileAvatar" (setTextContent (generateAvatar h (editName e))) >>
     showNotification (js "Profile updated successfully!") "success" None >>
     renderProfile false) w.
Proof.
  intros Hu He Hfull Hmail. unfold saveProfile.
  rewrite (bind_run (gets currentUser) _ w (currentUser w) w eq_refl), Hu.
  rewrite (bind_run profileEdit _ w e w (profileEdit_run w e He)).
  fold (anyEmpty e). rewrite Hfull, Hmail. reflexivity.
Qed.



Lemma updateProfile_lookup d type e d' :
  updateProfile d type e = Some d' ->
  exists p, lookupProfile d' type = Some p
            /\ profileView (bool_decide (type = js "admin")) p
               = [InfoText (if bool_decide (type = js "admin")
                            then "Admin ID" else "Student ID") (editId e);
                  InfoText (if bool_decide (type = js "admin")
                            then "Department" else "Program") (editProgram e);
                  InfoText "Phone" (editPhone e);
                  InfoText "Address" (editAddress e)].
Proof.
  unfold updateProfile, lookupProfile.
  destruct (bool_decide (type = js "student")) eqn:Hs.
  - intros [= <-]. apply bool_decide_eq_true in Hs. subst type.
    eexists. split; [reflexivity|]. reflexivity.
  - destruct (bool_decide (type = js "admin")) eqn:Ha; [|discriminate].
    intros [= <-]. eexists. split; [reflexivity|]. reflexivity.
Qed.

(** A chain of statements that each complete on a page with the elements
    [ids] and leave the store and the elements alone. *)
Lemma chain_run ids (ms : list (JS unit)) (k : JS unit) :
  Forall (fun m => Evolves m /\ forall w', present ids w' -> outcome m w' = Normal tt) ms ->
  forall w, present ids w ->
    exists w1,
      evolves w w1 /\ present ids w1
      /\ after (foldr (fun m acc => m >> acc) k ms) w = after k w1
      /\ outcome (foldr (fun m acc => m >> acc) k ms) w = outcome k w1.
Proof.
  induction 1 as [|m ms [Hev Hok] _ IH]; intros w Hp.
  - exists w. split; [apply evolves_refl|]. now repeat split.
  - simpl foldr.
    destruct (after_bind m (fun _ => foldr (fun m0 acc => m0 >> acc) k ms) w tt
                (Hok w Hp)) as [Ea Eo].
    assert (Hp1 : present ids (after m w)).
    { eapply present_skel; [|exact Hp]. apply Hev. }
    destruct (IH _ Hp1) as (w1 & Hev1 & Hp2 & Ea1 & Eo1).
    exists w1. split; [eapply evolves_trans; [apply Hev | exact Hev1]|].
    split; [exact Hp2|]. split; congruence.
Qed.

End SaveProfile.


(** X24.  [saveProfile] with a user of type "student" or "admin" logged in,
    six non-empty values and an email of the accepted shape: the current
    user keeps the type and gets the trimmed name and email; the record of
    [userProfileData] for that type gets the id, the program (department
    for an administrator), the phone, the address and the email, and the
    record of the other type is untouched; the collections do not change.
    This holds whatever the page is.  On a page with the elements the
    function writes to, the call returns normally and the profile block is
    back in view mode, showing the four values just saved. *)
Theorem saveProfile_updates (u : User.t) (e : ProfileEdit) (w : World)
    (d' : ProfileData) :
  currentUser w = Some u ->
  outcome profileEdit w = Normal e ->
  anyEmpty e = false ->
  validateEmail (editEmail e) = true ->
  updateProfile (userProfileData w) (User.type u) e = Some d' ->
  let w' := after saveProfile w in
  let isAdmin := bool_decide (User.type u = js "admin") in
  currentUser w' = Some (User.mk (editName e) (editEmail e) (User.type u))
  /\ userProfileData w' = d'
  /\ database w' = database w
  /\ (User.type u = js "student" ->
      d' = mkProfileData
             (StudentProfile.mk (editId e) (editProgram e) (editPhone e)
                (editAddress e) (editEmail e))
             (admin (userProfileData w)))
  /\ (User.type u = js "admin" ->
      d' = mkProfileData (student (userProfileData w))
             (AdminProfile.mk (editId e) (editProgram e) (editPhone e)
                (editAddress e) (editEmail e)))
  /\ (present profileIds w ->
      outcome saveProfile w = Normal tt
      /\ children <$> byId (document w') !! "profileInfoContent"
         = Some [InfoText (if isAdmin then "Admin ID" else "Student ID") (editId e);
                 InfoText (if isAdmin then "Department" else "Program") (editProgram e);
                 InfoText "Phone" (editPhone e);
                 InfoText "Address" (editAddress e)]).
Proof.
  intros Hu He Hfull Hmail Hupd w' isAdmin.
  destruct (after_eq _ _ _ _ (saveProfile_accepts u e w Hu He Hfull Hmail)) as [Ea Eo].
  fold w' in Ea.
  set (user' := User.mk (editName e) (editEmail e) (User.type u)) in *.
  rewrite after_modify, after_gets in Ea. rewrite outcome_modify, outcome_gets in Eo.
  change (userProfileData (setCurrentUser (Some user') w)) with (userProfileData w)
    in Ea, Eo.
  rewrite Hupd in Ea, Eo. cbn [nonNull] in Ea, Eo.
  rewrite after_ret, after_modify, after_gets in Ea.
  rewrite outcome_ret, outcome_modify, outcome_gets in Eo.
  set (w2 := setProfileData d' (setCurrentUser (Some user') w)) in *.
  change (host w2) with (host w) in Ea, Eo.
  set (rest := mutate "userName" _ >> _) in *.
  assert (Hacc : accountOf w' = accountOf w2).
  { rewrite Ea.
    assert (H : Preserves accountOf rest)
      by (unfold rest; preserves ltac:(idtac; reflexivity)).
    apply H. }
  injection Hacc as Hcu Hpd Hdb.
  split; [exact Hcu|]. split; [exact Hpd|]. split; [exact Hdb|].
  split; [|split].
  - intros Ht. unfold updateProfile in Hupd. rewrite Ht in Hupd. simpl in Hupd.
    congruence.
  - intros Ht. unfold updateProfile in Hupd. rewrite Ht in Hupd. simpl in Hupd.
    congruence.
  - intros Hp.
    assert (Hp2 : present profileIds w2) by exact Hp.
    destruct (chain_run profileIds
                [mutate "userName" (setTextContent (editName e));
                 mutate "userAvatar" (setTextContent (generateAvatar (host w) (editName e)));
                 mutate "profileName" (setTextContent (editName e));
                 mutate "profileEmail" (setTextContent (editEmail e));
                 mutate "profileAvatar"
                   (setTextContent (generateAvatar (host w) (editName e)));
                 showNotification (js "Profile updated successfully!") "success" None]
                (renderProfile false)) with (w := w2)
      as (w3 & Hev & Hp3 & Ea3 & Eo3).
    { repeat (apply Forall_cons; split;
              [ split;
                [ first [ apply Dom_Evolves, Dom_mutate; auto with dom
                        | apply Evolves_showNotification ]
                | intros w0 Hw0;
                  first [ apply mutate_outcome;
                          eapply present_elem; [exact Hw0 | cbn; auto 20]
                        | apply total_unit, Total_showNotification ] ]
              | ]).
      apply Forall_nil_2. }
    { exact Hp2. }
    change (foldr _ _ _) with rest in Ea3, Eo3.
    destruct Hev as (Hu3 & _ & Hpd3 & _).
    destruct (updateProfile_lookup _ _ _ _ Hupd) as (p & Hlook & Hview).
    assert (Hrun : renderProfile false w3
                   = (Normal tt,
                      setDocument
                        (setById
                           (alter (setInnerHTML (profileButtons false)) "profileActions"
                              (alter (setInnerHTML (profileContent false user' p))
                                 "profileInfoContent" (byId (document w3))))
                           (document w3)) w3)).
    { apply renderProfile_run.
      - rewrite Hu3. reflexivity.
      - rewrite Hpd3. exact Hlook.
      - eapply present_elem; [exact Hp3 | cbn; auto 20].
      - eapply present_elem; [exact Hp3 | cbn; auto 20]. }
    assert (Hc : profileContent false user' p
                 = [InfoText (if isAdmin then "Admin ID" else "Student ID") (editId e);
                    InfoText (if isAdmin then "Department" else "Program")
                      (editProgram e);
                    InfoText "Phone" (editPhone e);
                    InfoText "Address" (editAddress e)]) by exact Hview.
    rewrite Hc in Hrun.
    destruct (run_after _ _ _ _ Hrun) as [Ho4 Ea4].
    split; [now rewrite Eo, Eo3|].
    rewrite Ea, Ea3, Ea4.
    assert (Hinfo : hasElement "profileInfoContent" w3)
      by (eapply present_elem; [exact Hp3 | cbn; auto 20]).
    destruct Hinfo as [info Hinfo].
    cbn [document setDocument byId setById].
    rewrite lookup_alter_ne, lookup_alter_eq, Hinfo by discriminate.
    reflexivity.
Qed.


Lemma saveProfile_updates_witness :
  let w := editDraft "  0700 000 000 " in
  outcome profileEdit w = Normal editDraftData
  /\ AdminProfile.phone (admin (userProfileData (after saveProfile w))) = js "0700 000 000"
  /\ student (userProfileData (after saveProfile w)) = student (userProfileData w).
Proof.
  set (w := editDraft "  0700 000 000 ").
  set (u := User.mk (js "Admin User") (js "admin@usiu.ac.ke") (js "admin")).
  assert (Hu : currentUser w = Some u) by (vm_compute; reflexivity).
  assert (He : outcome profileEdit w = Normal editDraftData) by (vm_compute; reflexivity).
  split; [exact He|].
  destruct (saveProfile_updates u editDraftData w _ Hu He eq_refl eq_refl eq_refl)
    as (_ & -> & _).
  split; reflexivity.
Defined.

(** X25.  [saveProfile] does nothing when nobody is logged in.  With a user
    logged in but no input [editName] on the page (the profile is in view
    mode), it throws a [TypeError] and changes nothing.  With six valid
    values and a user whose type names no property of [userProfileData], it
    throws a [TypeError] at the first write to the profile record, after
    the name and the email of the current user have already been
    replaced. *)
Theorem saveProfile_guards (w : World) :
  (currentUser w = None -> saveProfile w = (Normal tt, w))
  /\ (is_Some (currentUser w) ->
      byId (document w) !! "editName" = None ->
      (byId (document w) !! "profileInfoContent"
         ≫= fun info => inputValue "editName" (children info)) = None ->
      saveProfile w = (Throw (TypeError "editName"), w))
  /\ (forall u e,
        currentUser w = Some u ->
        outcome profileEdit w = Normal e ->
        anyEmpty e = false ->
        validateEmail (editEmail e) = true ->
        noProfileFor (User.type u) ->
        saveProfile w
        = (Throw (TypeError "userProfileData"),
           setCurrentUser (Some (User.mk (editName e) (editEmail e) (User.type u))) w)).
Proof.
  split; [|split].
  - intros Hu. unfold saveProfile, bind, gets. now rewrite Hu.
  - intros [u Hu] Hpage Hrendered.
    unfold saveProfile.
    rewrite (bind_run (gets currentUser) _ w (currentUser w) w eq_refl), Hu.
    unfold profileEdit, editedValueOf at 1, bind, getElementById, gets.
    rewrite Hpage, Hrendered. reflexivity.
  - intros u e Hu He Hfull Hmail (Hs & Ha & _).
    rewrite (saveProfile_accepts u e w Hu He Hfull Hmail).
    unfold bind, modify, gets, updateProfile. simpl.
    now rewrite !bool_decide_eq_false_2 by assumption.
Qed.

Lemma saveProfile_guards_witness :
  let w := adminSession nairobi noonNairobi in
  is_Some (currentUser w)
  /\ saveProfile w = (Throw (TypeError "editName"), w).
Proof.
  split; [vm_compute; eexists; reflexivity|].
  apply (proj1 (proj2 (saveProfile_guards (adminSession nairobi noonNairobi)))).
  - vm_compute; eexists; reflexivity.
  - vm_compute; reflexivity.
  - vm_compute; reflexivity.
Defined.

(** ** Creating and deleting *)

Section RoundTrip.

Lemma newRecord_id c w fd r : newRecord c w fd = Some r -> recordId r = clock w.
Proof.
  destruct c; simpl; try (destruct (currentUser w); simpl); intros [= <-]; reflexivity.
Qed.

Lemma Preserves_answers_finish c : Preserves answers (finish c).
Proof.
  unfold finish, reset. destruct c; unfold render; preserves ltac:(idtac; reflexivity).
Qed.

Lemma submit_stores c w fd r :
  readForm (crudForm c) w = Normal fd ->
  validates (crudForm c) fd = true ->
  (c = Events -> dateInPast w fd = false) ->
  newRecord c w fd = Some r ->
  let w' := after (submit (crudForm c)) w in
  records c w' = r :: records c w
  /\ (forall c', c' <> c -> records c' w' = records c' w)
  /\ answers w' = answers w.
Proof.
  intros Hread Hvalid Hdate Hnew w'.
  destruct (submit_success c w fd r Hread Hvalid Hdate Hnew) as (Hdom & E & _).
  set (w1 := after (clearFormErrors (formId (crudForm c))) w) in *.
  destruct (unshift_records c w fd r w1 Hnew) as (Hr & Hother & _ & _).
  apply domRel_fields in Hdom as (_ & Hdb & _ & _ & _ & _ & Hans & _).
  assert (Hst : stored w' = stored (unshift r w1)).
  { unfold w'. rewrite E. unfold finish.
    assert (H : Preserves stored
                  (render c >>
                   showNotification (successMessage c) "success" (Some (successId c)) >>
                   reset (formId (crudForm c)))).
    { apply Preserves_bind; [apply Preserves_stored_render | intros _].
      apply Preserves_bind; [apply Preserves_stored_showNotification | intros _].
      apply Preserves_stored_reset. }
    apply H. }
  assert (Hw1 : forall c', records c' w1 = records c' w)
    by (intros c'; unfold records; now rewrite Hdb).
  split; [|split].
  - rewrite (records_stored c _ _ Hst), Hr, Hw1. reflexivity.
  - intros c' Hc'. rewrite (records_stored c' _ _ Hst), (Hother c' Hc'), Hw1. reflexivity.
  - unfold w'. rewrite E, Preserves_answers_finish.
    destruct r; simpl; exact Hans.
Qed.

End RoundTrip.

(** X26.  Creating a record and then deleting by its id brings the store
    back: after a submission that stores a record (its fields pass
    validation, for the event also the date rule, and for the announcement
    and the event a user is logged in) at a time that is not the id of a
    stored record, a confirmed delete of the new id
    leaves the collection with exactly the records, in the order, it held
    before the submission, and the other collections as they were. *)
Theorem create_then_delete_restores (c : Collection) (w : World)
    (fd : gmap string (list N)) (rest : list bool) :
  readForm (crudForm c) w = Normal fd ->
  validates (crudForm c) fd = true ->
  (c = Events -> dateInPast w fd = false) ->
  (c = Announcements \/ c = Events -> is_Some (currentUser w)) ->
  clock w ∉ ids c w ->
  answers w = true :: rest ->
  let w1 := after (submit (crudForm c)) w in
  let w2 := after (deleteById c (clock w)) w1 in
  length (records c w1) = S (length (records c w))
  /\ records c w2 = records c w
  /\ (forall c', c' <> c -> records c' w2 = records c' w).
Proof.
  intros Hread Hvalid Hdate Huser Hfresh Hyes w1 w2.
  destruct (newRecord_some c w fd Huser) as [r Hnew].
  destruct (submit_stores c w fd r Hread Hvalid Hdate Hnew) as (Hr & Hother & Hans).
  fold w1 in Hr, Hother, Hans.
  assert (Hyes1 : answers w1 = true :: rest) by congruence.
  destruct (delete_records c (clock w) w1 rest Hyes1) as (Hd & Hdo & _).
  fold w2 in Hd, Hdo.
  split; [now rewrite Hr|]. split.
  - rewrite Hd, Hr, filter_cons.
    rewrite (newRecord_id c w fd r Hnew).
    destruct (decide (clock w ≠ clock w)) as [Hne|_]; [contradiction|].
    now apply filter_absent.
  - intros c' Hc'. rewrite (Hdo c' Hc'). now apply Hother.
Qed.

Lemma create_then_delete_restores_witness :
  let w := answering [true] scheduleDraft in
  readForm (crudForm Schedules) w = Normal scheduleDraftData
  /\ clock w ∉ ids Schedules w
  /\ records Schedules
       (after (deleteById Schedules (clock w)) (after (submit (crudForm Schedules)) w))
     = records Schedules w.
Proof.
  set (w := answering [true] scheduleDraft).
  assert (Hread : readForm (crudForm Schedules) w = Normal scheduleDraftData)
    by (vm_compute; reflexivity).
  assert (Hvalid : validates (crudForm Schedules) scheduleDraftData = true)
    by (vm_compute; reflexivity).
  assert (Hfresh : clock w ∉ ids Schedules w)
    by (refine (bool_decide_unpack _ _); vm_compute; exact I).
  assert (Hdate : Schedules = Events -> dateInPast w scheduleDraftData = false)
    by discriminate.
  assert (Huser : Schedules = Announcements \/ Schedules = Events ->
                  is_Some (currentUser w))
    by (intros [H|H]; discriminate).
  assert (Hyes : answers w = [true]) by reflexivity.
  split; [exact Hread|]. split; [exact Hfresh|].
  exact (proj1 (proj2 (create_then_delete_restores Schedules w scheduleDraftData []
                         Hread Hvalid Hdate Huser Hfresh Hyes))).
Defined.

(** ** The date rule of the event form, by time zone *)

(** X27.  In a browser whose zone lies at a fixed offset from UTC, for a
    date field that reads as the day [day] (counted from the epoch), with
    [today] the local day of the clock: at an offset from 0 up to a day
    east of Greenwich the event handler's rule refuses the date exactly
    when [day < today]; at an offset west of Greenwich it refuses it
    exactly when [day <= today], the current day included. *)
Theorem event_date_rule_by_zone (w : World) (fd : gmap string (list N))
    (offset day : Z) :
  (forall t isUTC, localTZA (host w) t isUTC = offset) ->
  parseDateOnly (prop fd "date") = Some (day * msPerDay) ->
  let today := (clock w + offset) / msPerDay in
  (0 <= offset < msPerDay -> (dateInPast w fd = true <-> day < today))
  /\ (- msPerDay < offset < 0 -> (dateInPast w fd = true <-> day <= today)).
Proof.
  intros Hzone Hparse today.
  assert (E : dateInPast w fd = (day * msPerDay <? today * msPerDay - offset)).
  { unfold dateInPast, newDate, setHours0. rewrite Hparse, !Hzone. reflexivity. }
  rewrite E, Z.ltb_lt. unfold msPerDay in *. split; intros Hoff; lia.
Qed.

Lemma event_date_rule_by_zone_witness :
  parseDateOnly (prop (eventData "2025-12-20") "date") = Some (20442 * msPerDay)
  /\ (clock todayInNewYork + -5 * 3600000) / msPerDay = 20442
  /\ dateInPast todayInNewYork (eventData "2025-12-20") = true.
Proof.
  assert (Hparse : parseDateOnly (prop (eventData "2025-12-20") "date")
                   = Some (20442 * msPerDay)) by (vm_compute; reflexivity).
  split; [exact Hparse|]. split; [vm_compute; reflexivity|].
  apply (proj2 (event_date_rule_by_zone todayInNewYork (eventData "2025-12-20")
                  (-5 * 3600000) 20442 (fun _ _ => eq_refl) Hparse)).
  - vm_compute. split; reflexivity.
  - vm_compute. discriminate.
Defined.

(** ** Who is logged in after a response *)

(** X28.  The user that a response logs in is read off the form data
    alone, whatever the store, the page and the state the response runs
    in: a login gives the name "Admin User" for the type "admin" and "Carl
    Kitusa" for every other type, with the email and the type of the form;
    a registration gives the name, email and type of the form.  Neither
    compares the password or the email with anything stored. *)
Theorem response_user_from_form (fd : gmap string (list N)) (w : World) :
  currentUser (after (runCallback (LoginResponse fd)) w)
  = Some (User.mk (if bool_decide (fd !! "userType" = Some (js "admin"))
                   then js "Admin User" else js "Carl Kitusa")
            (prop fd "email") (prop fd "userType"))
  /\ currentUser (after (runCallback (RegisterResponse fd)) w)
     = Some (User.mk (prop fd "name") (prop fd "email") (prop fd "userType")).
Proof.
  split; [apply loginResponse_user | apply registerResponse_user].
Qed.
